(** * move_my_pallets: the request / bid lifecycle of the [logistics] package

    A shallow embedding of [logistics/customer_routes.py],
    [logistics/supplier_routes.py], [logistics/auth.py] and
    [logistics/forms.py].  The SQLite tables are lists of rows, every SQL
    statement is a function on the tables, and a Flask view is a
    computation in a small monad that threads the connection (committed
    tables, tables seen by the open transaction), the flashed messages and
    a plan of storage faults, and that can raise a Python exception. *)

From Stdlib Require Import ZArith List String Bool Lia Permutation.
From Stdlib Require Import DecimalString Sorted.
Import ListNotations.

Local Open Scope string_scope.
Local Open Scope list_scope.
Local Open Scope Z_scope.

(** ** Rows *)

(** A [datetime.date]; the order of dates is the order of their
    ordinals ([date.toordinal()]). *)
Definition date := Z.

Module User.
Record t := mk {
  id : Z;
  email : string;
  password : string;
  company : string;
  user_type : string;
  full_name : string }.
End User.

Module Request.
Record t := mk {
  id : Z;
  created_by : Z;
  created_date : Z;
  collection_date : date;
  delivery_date : date;
  collection_address : string;
  delivery_address : string;
  pallets : string;
  weight : option Z;
  company : string;
  request_status : string }.

(** [UPDATE request SET request_status = s] on one row. *)
Definition set_status (s : string) (r : t) : t :=
  mk (id r) (created_by r) (created_date r) (collection_date r)
     (delivery_date r) (collection_address r) (delivery_address r)
     (pallets r) (weight r) (company r) s.
End Request.

Module Bid.
Record t := mk {
  id : Z;
  request_id : Z;
  created_by : Z;
  created_date : Z;
  bid_amount : string;
  bid_status : string }.

(** [UPDATE bid SET bid_status = s] on one row. *)
Definition set_status (s : string) (b : t) : t :=
  mk (id b) (request_id b) (created_by b) (created_date b) (bid_amount b) s.
End Bid.

(** The three tables the lifecycle reads and writes. *)
Record Tables := mkTables {
  user_table : list User.t;
  request_table : list Request.t;
  bid_table : list Bid.t }.

Definition with_requests (rs : list Request.t) (T : Tables) : Tables :=
  mkTables (user_table T) rs (bid_table T).

Definition with_bids (bs : list Bid.t) (T : Tables) : Tables :=
  mkTables (user_table T) (request_table T) bs.

(** ** The schema *)

(** Modelled from the spec: [logistics/schema.sql] is not part of the
    sources.  A new request row starts in status "Awaiting bids". *)
Definition default_request_status : string := "Awaiting bids".

(** Modelled from the spec: [logistics/schema.sql] is not part of the
    sources.  A new bid row starts in status "Pending". *)
Definition default_bid_status : string := "Pending".

(** Modelled from the spec: [logistics/schema.sql] is not part of the
    sources.  The identifier of an inserted row is an integer assigned by
    the database, different from the identifier of every row of the table:
    one more than the largest one in use (1 in an empty table). *)
Definition next_id (ids : list Z) : Z :=
  1 + fold_right Z.max 0 ids.

(** ** SQL statements *)

(** [SELECT request_id FROM bid WHERE id = ?], [fetchone()]. *)
Definition select_bid_request_id (bid_id : Z) (T : Tables) : option Z :=
  option_map Bid.request_id
    (find (fun b => Bid.id b =? bid_id) (bid_table T)).

(** [SELECT COUNT(request_id) FROM bid
     WHERE bid_status is not 'Rejected' AND request_id = ?]. *)
Definition active_bid (request_id : Z) (b : Bid.t) : bool :=
  negb (String.eqb (Bid.bid_status b) "Rejected")
  && (Bid.request_id b =? request_id).

Definition count_active_bids (request_id : Z) (T : Tables) : Z :=
  Z.of_nat (List.length (filter (active_bid request_id) (bid_table T))).

(** [SELECT request_status FROM request WHERE id = ?], [fetchone()]. *)
Definition select_request_status (id : Z) (T : Tables) : option string :=
  option_map Request.request_status
    (find (fun r => Request.id r =? id) (request_table T)).

(** [UPDATE request SET request_status = s WHERE id = ?]. *)
Definition update_request_status (id : Z) (s : string) (T : Tables) : Tables :=
  with_requests
    (map (fun r => if Request.id r =? id then Request.set_status s r else r)
         (request_table T)) T.

(** [UPDATE bid SET bid_status = s WHERE id = ?]. *)
Definition update_bid_status (bid_id : Z) (s : string) (T : Tables) : Tables :=
  with_bids
    (map (fun b => if Bid.id b =? bid_id then Bid.set_status s b else b)
         (bid_table T)) T.

(** [UPDATE bid SET bid_status = 'Rejected'
     WHERE request_id = ? AND id is not ?]. *)
Definition reject_other_bids (request_id bid_id : Z) (T : Tables) : Tables :=
  with_bids
    (map (fun b =>
            if (Bid.request_id b =? request_id) && negb (Bid.id b =? bid_id)
            then Bid.set_status "Rejected" b else b)
         (bid_table T)) T.

(** [DELETE FROM request WHERE id = ?]. *)
Definition delete_request (id : Z) (T : Tables) : Tables :=
  with_requests
    (filter (fun r => negb (Request.id r =? id)) (request_table T)) T.

(** ** Views as computations *)

Inductive http_method := GET | POST.

(** What a view reads from Flask: [g.user] (None when nobody is logged
    in), [request.method], [date.today()] and the clock behind
    [CURRENT_TIMESTAMP]. *)
Record flask_ctx := mkCtx {
  g_user : option User.t;
  method : http_method;
  today : date;
  now : Z }.

(** The exceptions a view can raise. *)
Inductive exn :=
| TypeError
| AttributeError
| DatabaseError
| ValidationError
| OverflowError
| NotFound404.

Definition exn_str (e : exn) : string :=
  match e with
  | TypeError => "'NoneType' object is not subscriptable"
  | AttributeError => "'NoneType' object has no attribute 'strftime'"
  | DatabaseError => "database error"
  | ValidationError => "validation error"
  | OverflowError => "Python int too large to convert to SQLite INTEGER"
  | NotFound404 => "404 Not Found"
  end.

(** What a view returns: a redirect to an endpoint, a rendered template,
    or nothing at all (the view reached its end without [return], which
    Flask answers with an internal error). *)
Inductive response :=
| Redirect (endpoint : string) (arg : option Z)
| Render (template : string)
| ReturnedNone.

Inductive result (A : Type) :=
| Ok (a : A)
| Raise (e : exn).
Arguments Ok {A} a.
Arguments Raise {A} e.

(** The connection and the session during one HTTP request.  [durable] is
    what is committed, [working] is what the open transaction sees,
    [flashed] collects the [flash] calls (message, category), and [faults]
    says, for each coming write or commit in turn, whether the database
    raises on it ([true]); past its end nothing fails. *)
Record world := mkWorld {
  durable : Tables;
  working : Tables;
  flashed : list (string * string);
  faults : list bool }.

Definition M (A : Type) : Type := world -> result A * world.

Definition ret {A} (a : A) : M A := fun w => (Ok a, w).

Definition raise {A} (e : exn) : M A := fun w => (Raise e, w).

Definition bind {A B} (c : M A) (k : A -> M B) : M B :=
  fun w =>
    match c w with
    | (Ok a, w') => k a w'
    | (Raise e, w') => (Raise e, w')
    end.

(** [try: body  except Exception as e: handler e]. *)
Definition try_except {A} (body : M A) (handler : exn -> M A) : M A :=
  fun w =>
    match body w with
    | (Ok a, w') => (Ok a, w')
    | (Raise e, w') => handler e w'
    end.

Notation "x <- c ;; k" := (bind c (fun x => k))
  (at level 61, c at next level, right associativity).
Notation "c ;; k" := (bind c (fun _ => k))
  (at level 61, right associativity).

(** [db.execute] of a SELECT: reads the tables of the open transaction. *)
Definition query {A} (q : Tables -> A) : M A :=
  fun w => (Ok (q (working w)), w).

(** The integers SQLite stores and that [sqlite3] binds to a [?]: those of
    64 bits, sign included.  Binding any other Python int raises
    OverflowError.  The [<int:id>] converter of a route and an
    [IntegerField] hand over integers of any size. *)
Definition sqlite_int (n : Z) : bool :=
  (- 2 ^ 63 <=? n) && (n <? 2 ^ 63).

(** [db.execute("SELECT ... WHERE id = ?", (id,)).fetchone()] with an id
    taken from the URL.  Every id a table holds is one SQLite stored, so
    an id that matches a row is bound; when no row matches, an id of 64
    bits gives None and any other raises. *)
Definition query_by_id {A} (id : Z) (q : Tables -> option A) : M (option A) :=
  fun w =>
    match q (working w) with
    | Some a => (Ok (Some a), w)
    | None =>
        if sqlite_int id then (Ok None, w) else (Raise OverflowError, w)
    end.

(** [db.execute] of an INSERT, UPDATE or DELETE. *)
Definition execute (stmt : Tables -> Tables) : M unit :=
  fun w =>
    match faults w with
    | true :: fs =>
        (Raise DatabaseError, mkWorld (durable w) (working w) (flashed w) fs)
    | _ =>
        (Ok tt, mkWorld (durable w) (stmt (working w)) (flashed w)
                        (tl (faults w)))
    end.

(** [db.execute] of an INSERT or UPDATE that takes integers from the URL
    or from a form: they are bound first, and the statement runs when all
    of them are of 64 bits.  (Ids read from a row, [g.user["id"]] among
    them, are stored ones.) *)
Definition execute_with (ints : list Z) (stmt : Tables -> Tables) : M unit :=
  if forallb sqlite_int ints then execute stmt else raise OverflowError.

(** The data of an [IntegerField] as a parameter: None is bound as
    NULL. *)
Definition some_int (n : option Z) : list Z :=
  match n with
  | Some z => [z]
  | None => []
  end.

(** [db.commit()]. *)
Definition commit : M unit :=
  fun w =>
    match faults w with
    | true :: fs =>
        (Raise DatabaseError, mkWorld (durable w) (working w) (flashed w) fs)
    | _ =>
        (Ok tt, mkWorld (working w) (working w) (flashed w) (tl (faults w)))
    end.

(** [db.rollback()]. *)
Definition rollback : M unit :=
  fun w => (Ok tt, mkWorld (durable w) (durable w) (flashed w) (faults w)).

(** [flash(message, category)]. *)
Definition flash (message category : string) : M unit :=
  fun w =>
    (Ok tt, mkWorld (durable w) (working w)
                    (flashed w ++ [(message, category)]) (faults w)).

(** What is left of a view when the HTTP request is over: its return value
    or uncaught exception, the committed tables ([close_db] drops whatever
    was not committed) and the flashed messages. *)
Record outcome := mkOutcome {
  returned : result response;
  db_after : Tables;
  messages : list (string * string) }.

Definition run (view : M response) (T : Tables) (plan : list bool) : outcome :=
  let (r, w) := view (mkWorld T T [] plan) in
  mkOutcome r (durable w) (flashed w).

(** ** [logistics/auth.py] *)

(** The [customer_only] decorator.  [g.user["user_type"]] raises when
    [g.user] is None. *)
Definition customer_only (ctx : flask_ctx) (f : M response) : M response :=
  match g_user ctx with
  | None => raise TypeError
  | Some u =>
      if negb (String.eqb (User.user_type u) "Customer")
      then ret (Redirect "auth.login" None)
      else f
  end.

(** The [supplier_only] decorator. *)
Definition supplier_only (ctx : flask_ctx) (f : M response) : M response :=
  match g_user ctx with
  | None => raise TypeError
  | Some u =>
      if negb (String.eqb (User.user_type u) "Supplier")
      then ret (Redirect "auth.login" None)
      else f
  end.

(** ** [logistics/customer_routes.py]: accepting and rejecting a bid *)

Definition accept_bid (ctx : flask_ctx) (bid_id : Z) : M response :=
  customer_only ctx (
    row <- query_by_id bid_id (select_bid_request_id bid_id) ;;
    match row with
    | Some request_id =>
        try_except
          (execute (update_request_status request_id "Complete") ;;
           execute (update_bid_status bid_id "Accepted") ;;
           execute (reject_other_bids request_id bid_id) ;;
           commit ;;
           ret (Redirect "customer_routes.view_request" (Some request_id)))
          (fun e =>
             rollback ;;
             flash ("An error has occurred while accepting the request: "
                    ++ exn_str e)%string "error" ;;
             ret ReturnedNone)
    | None => ret ReturnedNone
    end).

(** The COUNT query takes [request_id[0]] as its parameter before the
    [try] and before the [if request_id:] test, so a bid that does not
    exist raises there; past that point [request_id] is a row and the test
    inside the [try] is true. *)
Definition reject_bid (ctx : flask_ctx) (bid_id : Z) : M response :=
  customer_only ctx (
    row <- query_by_id bid_id (select_bid_request_id bid_id) ;;
    match row with
    | None => raise TypeError
    | Some request_id =>
        number_of_bids <- query (count_active_bids request_id) ;;
        try_except
          (execute (update_bid_status bid_id "Rejected") ;;
           (if number_of_bids =? 1
            then execute (update_request_status request_id "Awaiting bids")
            else ret tt) ;;
           commit ;;
           ret (Redirect "customer_routes.view_request" (Some request_id)))
          (fun e =>
             rollback ;;
             flash ("An error has occurred while attempting to reject the request: "
                    ++ exn_str e)%string "error" ;;
             ret ReturnedNone)
    end).

(** ** [logistics/forms.py] *)

(** The data of the fields of a [RequestForm] once the form object is
    built from the submitted values; a [DateField] whose value does not
    parse holds None.  Building the form also reads the company's
    locations for the two address menus, which touches none of the three
    tables.  The validators of a field run when the view calls
    [form.validate()] or [form.validate_on_submit()], and not before. *)
Record RequestForm := mkRequestForm {
  form_collection_address : string;
  form_delivery_address : string;
  form_pallets : string;
  form_weight : option Z;
  form_collection_date : option date;
  form_delivery_date : option date }.

Record BidForm := mkBidForm {
  form_bid_amount : string }.

(** The validator attached to [RequestForm.collection_date]. *)
Definition validate_collectionBy (ctx : flask_ctx) (field_data : date)
  : result unit :=
  if field_data <? today ctx then Raise ValidationError else Ok tt.

(** The validator attached to [RequestForm.delivery_date]. *)
Definition validate_deliveryBy (form_collection_date_data field_data : date)
  : result unit :=
  if field_data <=? form_collection_date_data
  then Raise ValidationError else Ok tt.

(** [field.data.strftime("%Y-%m-%d %H:%M:%S")]: the column keeps the date;
    a field holding None has no [strftime]. *)
Definition strftime (field_data : option date) : M date :=
  match field_data with
  | Some d => ret d
  | None => raise AttributeError
  end.

(** [g.user[...]] inside a view. *)
Definition current_user (ctx : flask_ctx) : M User.t :=
  match g_user ctx with
  | Some u => ret u
  | None => raise TypeError
  end.

(** ** [logistics/customer_routes.py]: creating, changing and removing a
    request *)

(** [INSERT INTO request (created_by, collection_date, delivery_date,
     collection_address, delivery_address, pallets, weight, company)]; the
    columns the statement leaves out ([id], [created_date],
    [request_status]) take what the schema gives them. *)
Definition insert_request (created_by : Z) (collection_date delivery_date : date)
    (collection_address delivery_address pallets : string)
    (weight : option Z) (company : string) (created_date : Z)
    (T : Tables) : Tables :=
  with_requests
    (request_table T ++
     [Request.mk (next_id (map Request.id (request_table T)))
                 created_by created_date collection_date delivery_date
                 collection_address delivery_address pallets weight company
                 default_request_status]) T.

(** [UPDATE request SET collection_address = ?, delivery_address = ?,
     collection_date = ?, delivery_date = ?, pallets = ?, weight = ?
     WHERE id = ?]. *)
Definition set_request_fields (collection_address delivery_address : string)
    (collection_date delivery_date : date) (pallets : string)
    (weight : option Z) (r : Request.t) : Request.t :=
  Request.mk (Request.id r) (Request.created_by r) (Request.created_date r)
             collection_date delivery_date collection_address delivery_address
             pallets weight (Request.company r) (Request.request_status r).

Definition update_request_fields (collection_address delivery_address : string)
    (collection_date delivery_date : date) (pallets : string)
    (weight : option Z) (id : Z) (T : Tables) : Tables :=
  with_requests
    (map (fun r =>
            if Request.id r =? id
            then set_request_fields collection_address delivery_address
                   collection_date delivery_date pallets weight r
            else r)
         (request_table T)) T.

(** The view reads the request method and the field data; it calls
    neither [form.validate()] nor [form.validate_on_submit()]. *)
Definition create_request (ctx : flask_ctx) (form : RequestForm) : M response :=
  customer_only ctx (
    match method ctx with
    | POST =>
        u <- current_user ctx ;;
        let created_by := User.id u in
        collection_date <- strftime (form_collection_date form) ;;
        delivery_date <- strftime (form_delivery_date form) ;;
        let company := User.company u in
        try_except
          (execute_with (some_int (form_weight form))
                     (insert_request created_by collection_date delivery_date
                      (form_collection_address form)
                      (form_delivery_address form) (form_pallets form)
                      (form_weight form) company (now ctx)) ;;
           commit ;;
           ret (Redirect "customer_routes.customer_requests" None))
          (fun e =>
             rollback ;;
             flash ("An error occurred while creating the request: "
                    ++ exn_str e)%string "error" ;;
             ret (Render "/customer/requests/create_request.html"))
    | GET => ret (Render "/customer/requests/create_request.html")
    end).

(** [customer_get_request]: the first row with this id, or [abort(404)]. *)
Definition customer_get_request (id : Z) : M Request.t :=
  row <- query_by_id id (fun T => find (fun r => Request.id r =? id)
                                       (request_table T)) ;;
  match row with
  | Some r => ret r
  | None => raise NotFound404
  end.

Definition remove_request (ctx : flask_ctx) (id : Z) : M response :=
  customer_only ctx (
    request_status <- query_by_id id (select_request_status id) ;;
    match request_status with
    | None =>
        flash "Request does not exist. No request to remove." "error" ;;
        ret (Redirect "customer_routes.customer_requests" None)
    | Some s =>
        if String.eqb s "Complete"
        then
          flash "Request is complete. Unable to remove." "error" ;;
          ret ReturnedNone
        else
          try_except
            (execute (delete_request id) ;;
             commit ;;
             flash "Request deleted successfully." "success")
            (fun e =>
               rollback ;;
               flash ("An error has occurred while attempting to delete the request: "
                      ++ exn_str e)%string "error") ;;
          ret (Redirect "customer_routes.customer_requests" None)
    end).

Definition update_request (ctx : flask_ctx) (id : Z) (form : RequestForm)
  : M response :=
  customer_only ctx (
    this_request <- customer_get_request id ;;
    match method ctx with
    | POST =>
        collection_date <- strftime (form_collection_date form) ;;
        delivery_date <- strftime (form_delivery_date form) ;;
        try_except
          (execute_with (some_int (form_weight form))
                     (update_request_fields (form_collection_address form)
                      (form_delivery_address form) collection_date
                      delivery_date (form_pallets form) (form_weight form)
                      (Request.id this_request)) ;;
           commit ;;
           flash "Request updated successfully." "success" ;;
           ret (Redirect "customer_routes.view_request" (Some id)))
          (fun e =>
             rollback ;;
             flash ("An error has occurred while attempting to update the request: "
                    ++ exn_str e)%string "error" ;;
             ret (Render "/customer/requests/update_request.html"))
    | GET => ret (Render "/customer/requests/update_request.html")
    end).

(** ** [logistics/supplier_routes.py]: submitting a bid *)

(** [INSERT INTO bid (request_id, created_by, bid_amount)]; [id],
    [created_date] and [bid_status] take what the schema gives them. *)
Definition insert_bid (request_id created_by : Z) (bid_amount : string)
    (created_date : Z) (T : Tables) : Tables :=
  with_bids
    (bid_table T ++
     [Bid.mk (next_id (map Bid.id (bid_table T))) request_id created_by
             created_date bid_amount default_bid_status]) T.

Definition submit_bid (ctx : flask_ctx) (id : Z) (form : BidForm) : M response :=
  supplier_only ctx (
    match method ctx with
    | POST =>
        u <- current_user ctx ;;
        let created_by := User.id u in
        try_except
          (execute_with [id]
             (insert_bid id created_by (form_bid_amount form) (now ctx)) ;;
           execute (update_request_status id "Bid(s) received") ;;
           commit ;;
           ret (Redirect "supplier_routes.my_bids" None))
          (fun e =>
             rollback ;;
             flash ("An error occurred while submitting the bid: "
                    ++ exn_str e)%string "error" ;;
             ret (Render "supplier/submit_bid.html"))
    | GET => ret (Render "supplier/submit_bid.html")
    end).

(** ** [logistics/supplier_routes.py]: the supplier's three lists *)

(** [l LEFT JOIN r ON on]: every row of [l] with each row of [r] that
    matches it, or once with NULLs when none does. *)
Definition left_join {A B} (on : A -> B -> bool) (l : list A) (r : list B)
  : list (A * option B) :=
  flat_map (fun a =>
              match filter (on a) r with
              | [] => [(a, None)]
              | matches => map (fun b => (a, Some b)) matches
              end) l.

(** [x is not ?] on a nullable text column: NULL is distinct from every
    string. *)
Definition sql_is_not (x : option string) (y : string) : bool :=
  match x with
  | None => true
  | Some c => negb (String.eqb c y)
  end.

(** [x = ?] in a WHERE clause on a nullable text column: NULL never
    passes. *)
Definition sql_eq (x : option string) (y : string) : bool :=
  match x with
  | None => false
  | Some c => String.eqb c y
  end.

(** [ORDER BY key]: insertion into an ascending list, rows with equal keys
    keep their order. *)
Fixpoint insert_by {A} (key : A -> Z) (a : A) (l : list A) : list A :=
  match l with
  | [] => [a]
  | b :: l' => if key a <? key b then a :: l else b :: insert_by key a l'
  end.

Definition order_by {A} (key : A -> Z) (l : list A) : list A :=
  fold_left (fun sorted a => insert_by key a sorted) l [].

(** The subquery [cb]: [bid b LEFT JOIN user u ON u.id = b.created_by
    WHERE u.company = ?]. *)
Definition company_bids (user_company : string) (T : Tables)
  : list (Bid.t * option User.t) :=
  filter (fun row => sql_eq (option_map User.company (snd row)) user_company)
    (left_join (fun b u => User.id u =? Bid.created_by b)
               (bid_table T) (user_table T)).

(** The column [cb.company] of a row of [request r LEFT JOIN cb]. *)
Definition cb_company (cb : option (Bid.t * option User.t)) : option string :=
  match cb with
  | Some (_, Some u) => Some (User.company u)
  | _ => None
  end.

(** First query of [supplier_requests]: the request columns of
    [request r LEFT JOIN cb ON cb.request_id = r.id
     WHERE cb.company is not ? AND r.request_status is not 'Complete'
     ORDER BY r.id]. *)
Definition live_requests_not_bid (user_company : string) (T : Tables)
  : list Request.t :=
  map fst
    (order_by (fun row => Request.id (fst row))
       (filter (fun row =>
                  sql_is_not (cb_company (snd row)) user_company
                  && negb (String.eqb (Request.request_status (fst row))
                                      "Complete"))
          (left_join (fun r cb => Bid.request_id (fst cb) =? Request.id r)
                     (request_table T) (company_bids user_company T)))).

(** [request r LEFT JOIN bid b ON r.id = b.request_id
     LEFT JOIN user u ON u.id = b.created_by], shared by the second and
    the third query. *)
Definition request_bid_user (T : Tables)
  : list ((Request.t * option Bid.t) * option User.t) :=
  left_join (fun rb u =>
               match snd rb with
               | Some b => User.id u =? Bid.created_by b
               | None => false
               end)
    (left_join (fun r b => Request.id r =? Bid.request_id b)
               (request_table T) (bid_table T))
    (user_table T).

(** The selected columns of the second and third query: the request
    columns and [b.id AS bid_id]. *)
Definition request_and_bid_id (row : (Request.t * option Bid.t) * option User.t)
  : Request.t * option Z :=
  (fst (fst row), option_map Bid.id (snd (fst row))).

(** Second query: [WHERE b.id is not null AND u.company = ?
     AND r.request_status is not 'Complete' ORDER BY r.id]. *)
Definition requests_bid (user_company : string) (T : Tables)
  : list (Request.t * option Z) :=
  map request_and_bid_id
    (order_by (fun row => Request.id (fst (fst row)))
       (filter (fun row =>
                  match snd (fst row) with Some _ => true | None => false end
                  && sql_eq (option_map User.company (snd row)) user_company
                  && negb (String.eqb (Request.request_status (fst (fst row)))
                                      "Complete"))
          (request_bid_user T))).

(** Third query: [WHERE b.bid_status is not 'Rejected' AND u.company = ?
     AND r.request_status = 'Complete' ORDER BY r.id]. *)
Definition requests_bid_won (user_company : string) (T : Tables)
  : list (Request.t * option Z) :=
  map request_and_bid_id
    (order_by (fun row => Request.id (fst (fst row)))
       (filter (fun row =>
                  sql_is_not (option_map Bid.bid_status (snd (fst row)))
                             "Rejected"
                  && sql_eq (option_map User.company (snd row)) user_company
                  && String.eqb (Request.request_status (fst (fst row)))
                                "Complete")
          (request_bid_user T))).

(** What [supplier_requests] hands to its template. *)
Record supplier_lists := mkSupplierLists {
  sl_live_requests_not_bid : list Request.t;
  sl_requests_bid : list (Request.t * option Z);
  sl_requests_bid_won : list (Request.t * option Z) }.

Definition supplier_requests_lists (ctx : flask_ctx) : M supplier_lists :=
  u <- current_user ctx ;;
  let user_company := User.company u in
  a <- query (live_requests_not_bid user_company) ;;
  b <- query (requests_bid user_company) ;;
  c <- query (requests_bid_won user_company) ;;
  ret (mkSupplierLists a b c).

Definition supplier_requests (ctx : flask_ctx) : M response :=
  supplier_only ctx (
    _ <- supplier_requests_lists ctx ;;
    ret (Render "supplier/supplier_requests.html")).

(** ** The lifecycle as a transition system *)

(** One HTTP request to one of the six lifecycle views. *)
Inductive operation :=
| OpCreateRequest (form : RequestForm)
| OpUpdateRequest (id : Z) (form : RequestForm)
| OpCancelRequest (id : Z)
| OpSubmitBid (id : Z) (form : BidForm)
| OpAcceptBid (bid_id : Z)
| OpRejectBid (bid_id : Z).

Definition view_of (ctx : flask_ctx) (op : operation) : M response :=
  match op with
  | OpCreateRequest form => create_request ctx form
  | OpUpdateRequest id form => update_request ctx id form
  | OpCancelRequest id => remove_request ctx id
  | OpSubmitBid id form => submit_bid ctx id form
  | OpAcceptBid bid_id => accept_bid ctx bid_id
  | OpRejectBid bid_id => reject_bid ctx bid_id
  end.

(** A call: who asks and how, what is asked, and which storage faults
    occur while it runs. *)
Record call := mkCall {
  call_ctx : flask_ctx;
  call_op : operation;
  call_faults : list bool }.

Definition step (T : Tables) (c : call) : Tables :=
  db_after (run (view_of (call_ctx c) (call_op c)) T (call_faults c)).

(** The tables after a sequence of calls. *)
Definition run_calls (T : Tables) (cs : list call) : Tables :=
  fold_left step cs T.

(** No request and no bid yet; the users are those who registered. *)
Definition initial (users : list User.t) : Tables := mkTables users [] [].

Definition reachable (T : Tables) : Prop :=
  exists users cs, T = run_calls (initial users) cs.

(** * The views that only read *)

(** [ORDER BY key DESC]: ascending in the negated key. *)
Definition order_by_desc {A} (key : A -> Z) (l : list A) : list A :=
  order_by (fun a => - key a) l.

(** An integer inside an f-string. *)
Definition str_of_int (n : Z) : string :=
  NilZero.string_of_int (Z.to_int n).

(** [str(e)] of the exception of [abort(404, description)]: the status
    line, a colon and the description.  [exn] keeps the kind of an
    exception only, so a handler that prints one passes the description
    of the abort it can catch. *)
Definition abort_str (e : exn) (description : string) : string :=
  match e with
  | NotFound404 => (exn_str e ++ ": " ++ description)%string
  | _ => exn_str e
  end.

(** ** [logistics/customer_routes.py]: the customer's list and the page
    of one request *)

(** The query of [customer_requests]: the request columns of
    [request WHERE company = ? ORDER BY created_date DESC]. *)
Definition select_company_requests (company : string) (T : Tables)
  : list Request.t :=
  order_by_desc Request.created_date
    (filter (fun r => String.eqb (Request.company r) company)
            (request_table T)).

(** What [customer_requests] hands to its template. *)
Definition customer_requests_rows (ctx : flask_ctx) : M (list Request.t) :=
  u <- current_user ctx ;;
  query (select_company_requests (User.company u)).

Definition customer_requests (ctx : flask_ctx) : M response :=
  customer_only ctx (
    _ <- customer_requests_rows ctx ;;
    ret (Render "/customer/requests/customer_requests.html")).

(** The query of [customer_get_bids]: the bid columns and [u.company] of
    [bid b LEFT JOIN user u ON b.created_by = u.id
     WHERE b.request_id = ?]. *)
Definition select_request_bids (id : Z) (T : Tables)
  : list (Bid.t * option string) :=
  map (fun row => (fst row, option_map User.company (snd row)))
    (filter (fun row => Bid.request_id (fst row) =? id)
       (left_join (fun b u => Bid.created_by b =? User.id u)
                  (bid_table T) (user_table T))).

(** [customer_get_bids].  [fetchall()] answers with a list, empty when no
    row matches and never None, so the [abort(404)] under
    [if bids_received is None] is not reached. *)
Definition customer_get_bids (id : Z) : M (list (Bid.t * option string)) :=
  query (select_request_bids id).

(** What [view_request] hands to its template. *)
Definition view_request_data (id : Z)
  : M (Request.t * list (Bid.t * option string)) :=
  request <- customer_get_request id ;;
  bids <- customer_get_bids id ;;
  ret (request, bids).

(** [view_request]: the two helpers run inside [try]; [except Exception]
    also catches the exception of [abort]. *)
Definition view_request (ctx : flask_ctx) (id : Z) : M response :=
  customer_only ctx (
    try_except
      (_ <- view_request_data id ;;
       ret (Render "/customer/requests/customer_request.html"))
      (fun e =>
         flash ("An error occurred: "
                ++ abort_str e ("Request id " ++ str_of_int id
                                ++ " doesn't exist."))%string "error" ;;
         ret (Redirect "customer_routes.customer_requests" None))).

(** ** [logistics/supplier_routes.py]: the page of one request and the
    supplier's bids *)

(** The second query of [supplier_request]: the bid columns of
    [bid b LEFT JOIN user u ON b.created_by = u.id
     WHERE request_id = ? AND u.company = ?], [fetchone()]. *)
Definition select_company_bid (id : Z) (company : string) (T : Tables)
  : option Bid.t :=
  hd_error
    (map fst
       (filter (fun row => (Bid.request_id (fst row) =? id)
                           && sql_eq (option_map User.company (snd row))
                                     company)
          (left_join (fun b u => Bid.created_by b =? User.id u)
                     (bid_table T) (user_table T)))).

(** What [supplier_request] hands to its template; the request is tested
    for None after both queries ran. *)
Definition supplier_request_data (ctx : flask_ctx) (id : Z)
  : M (Request.t * option Bid.t) :=
  request <- query_by_id id (fun T => find (fun r => Request.id r =? id)
                                           (request_table T)) ;;
  u <- current_user ctx ;;
  bid <- query (select_company_bid id (User.company u)) ;;
  match request with
  | None => raise NotFound404
  | Some r => ret (r, bid)
  end.

Definition supplier_request (ctx : flask_ctx) (id : Z) : M response :=
  supplier_only ctx (
    _ <- supplier_request_data ctx id ;;
    ret (Render "supplier/supplier_request.html")).

(** The query of [my_bids]: the bid columns of
    [bid b LEFT JOIN user u ON b.created_by = u.id WHERE u.company = ?
     ORDER BY b.created_date DESC]. *)
Definition select_my_bids (company : string) (T : Tables) : list Bid.t :=
  map fst
    (order_by_desc (fun row => Bid.created_date (fst row))
       (company_bids company T)).

(** What [my_bids] hands to its template. *)
Definition my_bids_rows (ctx : flask_ctx) : M (list Bid.t) :=
  u <- current_user ctx ;;
  query (select_my_bids (User.company u)).

Definition my_bids (ctx : flask_ctx) : M response :=
  supplier_only ctx (
    _ <- my_bids_rows ctx ;;
    ret (Render "/supplier/my_bids.html")).

(** * [logistics/auth.py]: registering and logging in *)

(** The Flask session, of which the code uses the key "user_id" only:
    [session.get("user_id")]. *)
Definition session := option Z.

(** [request.form] of the register page and of the login page. *)
Record RegisterData := mkRegisterData {
  reg_email : string;
  reg_password : string;
  reg_company : string;
  reg_user_type : string;
  reg_full_name : string }.

Record LoginData := mkLoginData {
  login_email : string;
  login_password : string }.

(** [not s] on a string. *)
Definition is_empty (s : string) : bool := String.eqb s "".

(** The [if not email: ... elif not password: ...] chain of [register]. *)
Definition register_error (form : RegisterData) : option string :=
  if is_empty (reg_email form) then Some "email is required."
  else if is_empty (reg_password form) then Some "password is required."
  else if is_empty (reg_company form) then Some "company is required."
  else if is_empty (reg_user_type form) then Some "user type is required"
  else if is_empty (reg_full_name form) then Some "full name is required"
  else None.

(** Modelled from the spec: [logistics/schema.sql] is not part of the
    sources.  The email of a user is unique: an INSERT of an email some
    row has is what raises the [IntegrityError] that [register] catches. *)
Definition email_taken (email : string) (T : Tables) : bool :=
  existsb (fun u => String.eqb (User.email u) email) (user_table T).

(** [INSERT INTO user (email, password, company, user_type, full_name)]. *)
Definition insert_user (email password company user_type full_name : string)
    (T : Tables) : Tables :=
  mkTables
    (user_table T ++
     [User.mk (next_id (map User.id (user_table T))) email password company
              user_type full_name])
    (request_table T) (bid_table T).

(** [SELECT * FROM user WHERE email = ?], [fetchone()]. *)
Definition select_user_by_email (email : string) (T : Tables)
  : option User.t :=
  find (fun u => String.eqb (User.email u) email) (user_table T).

(** [SELECT * FROM user WHERE id = ?], [fetchone()]. *)
Definition select_user_by_id (id : Z) (T : Tables) : option User.t :=
  find (fun u => User.id u =? id) (user_table T).

Section Werkzeug.
(** [werkzeug.security]: hashing draws a salt, given here as an
    argument. *)
Variable generate_password_hash : string -> string -> string.
Variable check_password_hash : string -> string -> bool.

(** [register].  Only [IntegrityError] is caught around the INSERT and
    the commit; [flash(error)] has the default category. *)
Definition register (m : http_method) (salt : string) (form : RegisterData)
  : M response :=
  match m with
  | POST =>
      match register_error form with
      | Some error =>
          flash error "message" ;;
          ret (Render "auth/register.html")
      | None =>
          taken <- query (email_taken (reg_email form)) ;;
          if taken
          then
            flash ("User " ++ reg_email form ++ " is already registered.")%string
                  "message" ;;
            ret (Render "auth/register.html")
          else
            execute (insert_user (reg_email form)
                       (generate_password_hash salt (reg_password form))
                       (reg_company form) (reg_user_type form)
                       (reg_full_name form)) ;;
            commit ;;
            ret (Redirect "auth.login" None)
      end
  | GET => ret (Render "auth/register.html")
  end.

(** [login]: the response and the session it leaves. *)
Definition login (m : http_method) (s : session) (form : LoginData)
  : M (response * session) :=
  match m with
  | POST =>
      user <- query (select_user_by_email (login_email form)) ;;
      match user with
      | None =>
          flash "Incorrect email." "message" ;;
          ret (Render "auth/login.html", s)
      | Some u =>
          if negb (check_password_hash (User.password u) (login_password form))
          then
            flash "Incorrect password." "message" ;;
            ret (Render "auth/login.html", s)
          else ret (Redirect "index" None, Some (User.id u))
      end
  | GET => ret (Render "auth/login.html", s)
  end.
End Werkzeug.

(** [load_logged_in_user], run before every view: the value of
    [g.user]. *)
Definition load_logged_in_user (s : session) : M (option User.t) :=
  match s with
  | None => ret None
  | Some user_id => query (select_user_by_id user_id)
  end.

(** [logout]: [session.clear()]. *)
Definition logout (s : session) : M (response * session) :=
  ret (Redirect "index" None, None).

(** The [login_required] decorator. *)
Definition login_required (g_user : option User.t) (view : M response)
  : M response :=
  match g_user with
  | None => ret (Redirect "auth.login" None)
  | Some _ => view
  end.

(** One HTTP request to a lifecycle view: [load_logged_in_user] first,
    then the view with the [g.user] it found. *)
Definition handle (s : session) (m : http_method) (today now : Z)
    (op : operation) : M response :=
  g <- load_logged_in_user s ;;
  view_of (mkCtx g m today now) op.

(** * [logistics/location_routes.py]: the locations of a company *)

Module Location.
Record t := mk {
  id : Z;
  created_by : Z;
  created_date : Z;
  name : string;
  street : string;
  city : string;
  country : string;
  zipcode : string }.
End Location.

Module Loc.

(** The database with the location table beside the other three. *)
Record Db := mkDb {
  tables : Tables;
  location_table : list Location.t }.

Definition with_locations (ls : list Location.t) (D : Db) : Db :=
  mkDb (tables D) ls.

(** What a location view can raise: a Python exception, or the
    [abort(403)] of [get_location]. *)
Inductive error :=
| Python (e : exn)
| Forbidden403.

Definition error_str (e : error) : string :=
  match e with
  | Python e => exn_str e
  | Forbidden403 => "403 Forbidden"
  end.

Inductive result (A : Type) :=
| Ok (a : A)
| Raise (e : error).
Arguments Ok {A} a.
Arguments Raise {A} e.

(** The connection, the flashed messages and the fault plan, as for the
    lifecycle views. *)
Record world := mkWorld {
  durable : Db;
  working : Db;
  flashed : list (string * string);
  faults : list bool }.

Definition M (A : Type) : Type := world -> result A * world.

Definition ret {A} (a : A) : M A := fun w => (Ok a, w).

Definition raise {A} (e : error) : M A := fun w => (Raise e, w).

Definition bind {A B} (c : M A) (k : A -> M B) : M B :=
  fun w =>
    match c w with
    | (Ok a, w') => k a w'
    | (Raise e, w') => (Raise e, w')
    end.

Definition try_except {A} (body : M A) (handler : error -> M A) : M A :=
  fun w =>
    match body w with
    | (Ok a, w') => (Ok a, w')
    | (Raise e, w') => handler e w'
    end.

Declare Scope loc_scope.
Notation "x <- c ;; k" := (bind c (fun x => k))
  (at level 61, c at next level, right associativity) : loc_scope.
Notation "c ;; k" := (bind c (fun _ => k))
  (at level 61, right associativity) : loc_scope.
Local Open Scope loc_scope.

Definition query {A} (q : Db -> A) : M A :=
  fun w => (Ok (q (working w)), w).

(** A SELECT by an id taken from the URL, as for the lifecycle views. *)
Definition query_by_id {A} (id : Z) (q : Db -> option A) : M (option A) :=
  fun w =>
    match q (working w) with
    | Some a => (Ok (Some a), w)
    | None =>
        if sqlite_int id then (Ok None, w)
        else (Raise (Python OverflowError), w)
    end.

Definition execute (stmt : Db -> Db) : M unit :=
  fun w =>
    match faults w with
    | true :: fs =>
        (Raise (Python DatabaseError),
         mkWorld (durable w) (working w) (flashed w) fs)
    | _ =>
        (Ok tt, mkWorld (durable w) (stmt (working w)) (flashed w)
                        (tl (faults w)))
    end.

Definition commit : M unit :=
  fun w =>
    match faults w with
    | true :: fs =>
        (Raise (Python DatabaseError),
         mkWorld (durable w) (working w) (flashed w) fs)
    | _ =>
        (Ok tt, mkWorld (working w) (working w) (flashed w) (tl (faults w)))
    end.

Definition rollback : M unit :=
  fun w => (Ok tt, mkWorld (durable w) (durable w) (flashed w) (faults w)).

Definition flash (message category : string) : M unit :=
  fun w =>
    (Ok tt, mkWorld (durable w) (working w)
                    (flashed w ++ [(message, category)]) (faults w)).

Record outcome := mkOutcome {
  returned : result response;
  db_after : Db;
  messages : list (string * string) }.

Definition run (view : M response) (D : Db) (plan : list bool) : outcome :=
  let (r, w) := view (mkWorld D D [] plan) in
  mkOutcome r (durable w) (flashed w).

(** What a computation that only reads returns on the committed
    database. *)
Definition read {A} (c : M A) (D : Db) : result A :=
  fst (c (mkWorld D D [] [])).

(** [customer_only] around a location view. *)
Definition customer_only (ctx : flask_ctx) (f : M response) : M response :=
  match g_user ctx with
  | None => raise (Python TypeError)
  | Some u =>
      if negb (String.eqb (User.user_type u) "Customer")
      then ret (Redirect "auth.login" None)
      else f
  end.

Definition current_user (ctx : flask_ctx) : M User.t :=
  match g_user ctx with
  | Some u => ret u
  | None => raise (Python TypeError)
  end.

(** The field data of a [LocationForm]. *)
Record LocationForm := mkLocationForm {
  form_name : string;
  form_street : string;
  form_city : string;
  form_country : string;
  form_zipcode : string }.

(** The query of [manage_locations]: the location columns and
    [u.company] of [location l LEFT JOIN user u ON u.id = l.created_by
     WHERE u.company = ?]. *)
Definition select_company_locations (company : string) (D : Db)
  : list Location.t :=
  map fst
    (filter (fun row => sql_eq (option_map User.company (snd row)) company)
       (left_join (fun l u => User.id u =? Location.created_by l)
                  (location_table D) (user_table (tables D)))).

Definition manage_locations_rows (ctx : flask_ctx) : M (list Location.t) :=
  u <- current_user ctx ;;
  query (select_company_locations (User.company u)).

Definition manage_locations (ctx : flask_ctx) : M response :=
  customer_only ctx (
    _ <- manage_locations_rows ctx ;;
    ret (Render "/customer/locations/manage_locations.html")).

(** [INSERT INTO location (created_by, name, street, city, country,
     zipcode)]; [id] and [created_date] take what the schema gives
    them. *)
Definition insert_location (created_by : Z) (form : LocationForm)
    (created_date : Z) (D : Db) : Db :=
  with_locations
    (location_table D ++
     [Location.mk (next_id (map Location.id (location_table D))) created_by
                  created_date (form_name form) (form_street form)
                  (form_city form) (form_country form) (form_zipcode form)])
    D.

(** [create_location].  [error] is set to None and never to anything
    else, so the [flash(error)] branch is not reached; the INSERT and the
    commit are not inside a [try]. *)
Definition create_location (ctx : flask_ctx) (form : LocationForm)
  : M response :=
  customer_only ctx (
    match method ctx with
    | POST =>
        u <- current_user ctx ;;
        let created_by := User.id u in
        execute (insert_location created_by form (now ctx)) ;;
        commit ;;
        ret (Redirect "location_routes.manage_locations" None)
    | GET => ret (Render "/customer/locations/create_location.html")
    end).

(** [get_location(id, check_created_by)]. *)
Definition get_location (ctx : flask_ctx) (id : Z) (check_created_by : bool)
  : M Location.t :=
  location <- query_by_id id (fun D => find (fun l => Location.id l =? id)
                                            (location_table D)) ;;
  match location with
  | None => raise (Python NotFound404)
  | Some l =>
      u <- current_user ctx ;;
      if check_created_by && negb (Location.created_by l =? User.id u)
      then raise Forbidden403
      else ret l
  end.

(** [UPDATE location SET name = ?, street = ?, city = ?, country = ?,
     zipcode = ? WHERE id = ?]. *)
Definition set_location_fields (form : LocationForm) (l : Location.t)
  : Location.t :=
  Location.mk (Location.id l) (Location.created_by l)
              (Location.created_date l) (form_name form) (form_street form)
              (form_city form) (form_country form) (form_zipcode form).

Definition update_location_fields (form : LocationForm) (id : Z) (D : Db)
  : Db :=
  with_locations
    (map (fun l => if Location.id l =? id then set_location_fields form l
                   else l)
         (location_table D)) D.

Definition update_location (ctx : flask_ctx) (id : Z) (form : LocationForm)
  : M response :=
  customer_only ctx (
    location <- get_location ctx id true ;;
    match method ctx with
    | POST =>
        try_except
          (execute (update_location_fields form id) ;;
           commit ;;
           ret (Redirect "location_routes.manage_locations" None))
          (fun e =>
             rollback ;;
             flash ("An error occured while creating the location: "
                    ++ error_str e)%string "error" ;;
             ret (Render "customer/locations/update_location.html"))
    | GET => ret (Render "customer/locations/update_location.html")
    end).

(** [DELETE FROM location WHERE id = ?]. *)
Definition delete_location_row (id : Z) (D : Db) : Db :=
  with_locations
    (filter (fun l => negb (Location.id l =? id)) (location_table D)) D.

(** [delete_location]: [get_location] returns a row or raises, so the
    test [is not None] is true whenever it is reached. *)
Definition delete_location (ctx : flask_ctx) (id : Z) : M response :=
  customer_only ctx (
    _ <- get_location ctx id true ;;
    try_except
      (execute (delete_location_row id) ;;
       commit)
      (fun e =>
         rollback ;;
         flash ("An error has occurred while attempting to delete the location: "
                ++ error_str e)%string "error") ;;
    ret (Redirect "location_routes.manage_locations" None)).

(** [name || ', ' || street || ', ' || city || ', ' || country || ', '
     || zipcode AS full_address]. *)
Definition full_address (l : Location.t) : string :=
  (Location.name l ++ ", " ++ Location.street l ++ ", " ++ Location.city l
   ++ ", " ++ Location.country l ++ ", " ++ Location.zipcode l)%string.

(** The query in [RequestForm.__init__] of [logistics/forms.py]: the
    choices of the two address fields,
    [location l LEFT JOIN user u ON u.id = l.created_by
     WHERE u.company = ? ORDER BY l.id]. *)
Definition request_form_choices (company : string) (D : Db) : list string :=
  map (fun row => full_address (fst row))
    (order_by (fun row => Location.id (fst row))
       (filter (fun row => sql_eq (option_map User.company (snd row)) company)
          (left_join (fun l u => User.id u =? Location.created_by l)
                     (location_table D) (user_table (tables D))))).

End Loc.

(** * What the properties speak of *)

(** The caller is logged in with the role the decorator asks for. *)
Definition is_customer (ctx : flask_ctx) : bool :=
  match g_user ctx with
  | Some u => String.eqb (User.user_type u) "Customer"
  | None => false
  end.

Definition is_supplier (ctx : flask_ctx) : bool :=
  match g_user ctx with
  | Some u => String.eqb (User.user_type u) "Supplier"
  | None => false
  end.

(** The statuses after a call, read the way the views read them. *)
Definition select_bid_status (bid_id : Z) (T : Tables) : option string :=
  option_map Bid.bid_status
    (find (fun b => Bid.id b =? bid_id) (bid_table T)).

(** The company that owns the request of a bid, as the tables have it. *)
Definition owning_company (bid_id : Z) (T : Tables) : option string :=
  match select_bid_request_id bid_id T with
  | Some request_id =>
      option_map Request.company
        (find (fun r => Request.id r =? request_id) (request_table T))
  | None => None
  end.

(** The bid rows after the two bid updates of [accept_bid]. *)
Definition accepted_bid_row (request_id bid_id : Z) (b : Bid.t) : Bid.t :=
  if Bid.id b =? bid_id then Bid.set_status "Accepted" b
  else if Bid.request_id b =? request_id then Bid.set_status "Rejected" b
  else b.

(** The request rows after the request update of [accept_bid]. *)
Definition completed_request_row (request_id : Z) (r : Request.t) : Request.t :=
  if Request.id r =? request_id then Request.set_status "Complete" r else r.

(** The bid update of [reject_bid] on one row. *)
Definition rejected_bid_row (bid_id : Z) (b : Bid.t) : Bid.t :=
  if Bid.id b =? bid_id then Bid.set_status "Rejected" b else b.

(** A bid placed by a user of the company. *)
Definition bid_of_company (user_company : string) (T : Tables) (b : Bid.t)
  : Prop :=
  In b (bid_table T) /\
  exists u, In u (user_table T) /\ User.id u = Bid.created_by b
            /\ User.company u = user_company.

(** A request shows in the second or third list when one of the rows is
    about it. *)
Definition listed (rows : list (Request.t * option Z)) (r : Request.t) : Prop :=
  exists bid_id, In (r, bid_id) rows.

(** The bids of a request whose status passes [p]; [active_bid] and
    [accepted_bid] are two cases of it. *)
Definition bid_with (p : string -> bool) (request_id : Z) (b : Bid.t) : bool :=
  p (Bid.bid_status b) && (Bid.request_id b =? request_id).

(** An Accepted bid of the request. *)
Definition accepted_bid (request_id : Z) (b : Bid.t) : bool :=
  String.eqb (Bid.bid_status b) "Accepted"
  && (Bid.request_id b =? request_id).

Definition count_accepted_bids (request_id : Z) (T : Tables) : Z :=
  Z.of_nat (List.length (filter (accepted_bid request_id) (bid_table T))).

(** What every call keeps: bid ids are distinct; no request id has two
    Accepted bids; a Complete request has one Accepted bid, which is its
    only bid that is not Rejected. *)
Record lifecycle_inv (T : Tables) : Prop := mk_lifecycle_inv {
  inv_bid_ids : NoDup (map Bid.id (bid_table T));
  inv_accepted : forall request_id, count_accepted_bids request_id T <= 1;
  inv_complete :
    forall r, In r (request_table T) ->
              Request.request_status r = "Complete" ->
              count_accepted_bids (Request.id r) T = 1 /\
              count_active_bids (Request.id r) T = 1 }.

(** The role each lifecycle view asks of its caller: the argument its
    decorator compares [g.user["user_type"]] with. *)
Definition required_role (op : operation) : string :=
  match op with
  | OpSubmitBid _ _ => "Supplier"
  | _ => "Customer"
  end.

(** Two bid rows that differ at most in their status. *)
Definition same_bid (b b' : Bid.t) : Prop :=
  Bid.id b' = Bid.id b /\ Bid.request_id b' = Bid.request_id b /\
  Bid.created_by b' = Bid.created_by b /\
  Bid.created_date b' = Bid.created_date b /\
  Bid.bid_amount b' = Bid.bid_amount b.

(** Two request rows with the same identity: id, creator, creation date
    and company. *)
Definition same_request (r r' : Request.t) : Prop :=
  Request.id r' = Request.id r /\
  Request.created_by r' = Request.created_by r /\
  Request.created_date r' = Request.created_date r /\
  Request.company r' = Request.company r.

(** The bid row that [submit_bid] inserts. *)
Definition submitted_bid (ctx : flask_ctx) (u : User.t) (id : Z)
    (form : BidForm) (T : Tables) : Bid.t :=
  Bid.mk (next_id (map Bid.id (bid_table T))) id (User.id u) (now ctx)
         (form_bid_amount form) "Pending".

(** The request row that [create_request] inserts. *)
Definition created_request (ctx : flask_ctx) (u : User.t)
    (form : RequestForm) (collection delivery : date) (T : Tables)
  : Request.t :=
  Request.mk (next_id (map Request.id (request_table T))) (User.id u)
             (now ctx) collection delivery (form_collection_address form)
             (form_delivery_address form) (form_pallets form)
             (form_weight form) (User.company u) "Awaiting bids".

(** What a computation that only reads returns on the committed tables
    [T]. *)
Definition read {A} (c : M A) (T : Tables) : result A :=
  fst (c (mkWorld T T [] [])).

(** The bidder's company shown beside a bid: that of a user whose id is
    the bid's creator, NULL when there is no such user. *)
Definition bidder_company (T : Tables) (b : Bid.t) (company : option string)
  : Prop :=
  match company with
  | Some c => exists u, In u (user_table T) /\ User.id u = Bid.created_by b
                        /\ User.company u = c
  | None => forall u, In u (user_table T) -> User.id u <> Bid.created_by b
  end.

(** What is left of any computation run on the committed tables [T]: its
    result, the committed tables and the flashed messages. *)
Definition run_with {A} (c : M A) (T : Tables) (plan : list bool)
  : result A * Tables * list (string * string) :=
  let (r, w) := c (mkWorld T T [] plan) in (r, durable w, flashed w).

(** The user row that [register] inserts. *)
Definition registered_user (password_hash : string) (form : RegisterData)
    (T : Tables) : User.t :=
  User.mk (next_id (map User.id (user_table T))) (reg_email form)
          password_hash (reg_company form) (reg_user_type form)
          (reg_full_name form).

(** Two location rows with the same identity: id, creator and creation
    date. *)
Definition same_location (l l' : Location.t) : Prop :=
  Location.id l' = Location.id l /\
  Location.created_by l' = Location.created_by l /\
  Location.created_date l' = Location.created_date l.

(** The location row that [create_location] inserts. *)
Definition created_location (ctx : flask_ctx) (u : User.t)
    (form : Loc.LocationForm) (D : Loc.Db) : Location.t :=
  Location.mk (next_id (map Location.id (Loc.location_table D))) (User.id u)
              (now ctx) (Loc.form_name form) (Loc.form_street form)
              (Loc.form_city form) (Loc.form_country form)
              (Loc.form_zipcode form).

(** [SELECT ... FROM location WHERE id = ?], [fetchone()]. *)
Definition select_location (id : Z) (D : Loc.Db) : option Location.t :=
  find (fun l => Location.id l =? id) (Loc.location_table D).

(** * Example data *)

Definition customer1 : User.t :=
  User.mk 1 "company1customer1@company1.com" "pbkdf2" "company1" "Customer"
          "Customer One".

Definition customer3 : User.t :=
  User.mk 3 "company2customer3@company2.com" "pbkdf2" "company2" "Customer"
          "Customer Three".

Definition supplier1 : User.t :=
  User.mk 5 "company3supplier1@company3.com" "pbkdf2" "company3" "Supplier"
          "Supplier One".

Definition supplier3 : User.t :=
  User.mk 7 "company4supplier3@company4.com" "pbkdf2" "company4" "Supplier"
          "Supplier Three".

Definition example_users : list User.t :=
  [customer1; customer3; supplier1; supplier3].

(** A POST by [u] on day 20000. *)
Definition post_by (u : User.t) : flask_ctx := mkCtx (Some u) POST 20000 0.

Definition example_form : RequestForm :=
  mkRequestForm "Depot A, 1 Road, Leeds, UK, LS1" "Depot B, 2 Road, York, UK, YO1"
                "4" (Some 800) (Some 20001) (Some 20003).

Definition no_faults (u : User.t) (op : operation) : call :=
  mkCall (post_by u) op [].

(** [customer1] posts request 1; [supplier1] bids (bid 1). *)
Definition one_bid : Tables :=
  run_calls (initial example_users)
    [no_faults customer1 (OpCreateRequest example_form);
     no_faults supplier1 (OpSubmitBid 1 (mkBidForm "120"))].

(** Then [supplier3] bids too (bid 2). *)
Definition two_bids : Tables :=
  run_calls one_bid [no_faults supplier3 (OpSubmitBid 1 (mkBidForm "110"))].

(** Bid 1 of [two_bids] rejected: request 1 keeps one active bid out of
    two. *)
Definition one_of_two_rejected : Tables :=
  run_calls two_bids [no_faults customer1 (OpRejectBid 1)].

(** [customer1] accepts bid 1 of [two_bids]. *)
Definition bid_1_accepted : Tables :=
  run_calls two_bids [no_faults customer1 (OpAcceptBid 1)].

(** Collection yesterday, delivery nine days before collection. *)
Definition stale_form : RequestForm :=
  mkRequestForm "Depot A, 1 Road, Leeds, UK, LS1" "Depot B, 2 Road, York, UK, YO1"
                "4" (Some 800) (Some 19999) (Some 19990).

(** After bid 1 of request 1 is accepted, [supplier3] bids again. *)
Definition bid_after_accept : Tables :=
  run_calls bid_1_accepted
    [no_faults supplier3 (OpSubmitBid 1 (mkBidForm "90"))].

(** Request 1 as [bid_1_accepted] holds it. *)
Definition request_1_complete : Request.t :=
  Request.mk 1 1 0 20001 20003 "Depot A, 1 Road, Leeds, UK, LS1"
             "Depot B, 2 Road, York, UK, YO1" "4" (Some 800) "company1"
             "Complete".

(** A hash and a check that agree, to run the examples with. *)
Definition example_hash (salt password : string) : string :=
  ("pbkdf2$" ++ password)%string.

Definition example_check (password_hash password : string) : bool :=
  String.eqb password_hash ("pbkdf2$" ++ password)%string.

Definition example_registration : RegisterData :=
  mkRegisterData "company5supplier9@company5.com" "secret" "company5"
                 "Supplier" "Supplier Nine".

(** A second customer of company1. *)
Definition customer2 : User.t :=
  User.mk 2 "company1customer2@company1.com" "pbkdf2" "company1" "Customer"
          "Customer Two".

Definition depot_form : Loc.LocationForm :=
  Loc.mkLocationForm "Depot A" "1 Road" "Leeds" "UK" "LS1".

(** [customer1] has created one location; [customer2] is a colleague. *)
Definition one_location : Loc.Db :=
  Loc.mkDb (initial [customer1; customer2; customer3])
           [Location.mk 1 1 0 "Depot A" "1 Road" "Leeds" "UK" "LS1"].

(** [example_form] with a weight of 2^63 kg, one more than SQLite
    stores. *)
Definition heavy_form : RequestForm :=
  mkRequestForm "Depot A, 1 Road, Leeds, UK, LS1" "Depot B, 2 Road, York, UK, YO1"
                "4" (Some (2 ^ 63)) (Some 20001) (Some 20003).

(** * Properties *)

(** ** Running a view *)

Lemma customer_only_pass ctx f :
  is_customer ctx = true -> customer_only ctx f = f.
Proof.
  unfold is_customer, customer_only.
  destruct (g_user ctx) as [u|]; [|discriminate].
  intros ->. reflexivity.
Qed.

Lemma supplier_only_pass ctx f :
  is_supplier ctx = true -> supplier_only ctx f = f.
Proof.
  unfold is_supplier, supplier_only.
  destruct (g_user ctx) as [u|]; [|discriminate].
  intros ->. reflexivity.
Qed.

(** The monad's operations, unfolded by [run_view]. *)
Ltac run_view :=
  cbv beta iota zeta delta
    [run bind ret raise try_except query query_by_id execute execute_with
     commit rollback flash strftime current_user customer_get_request
     durable working flashed faults tl app].

Lemma accept_bid_run ctx bid_id request_id T :
  is_customer ctx = true ->
  select_bid_request_id bid_id T = Some request_id ->
  run (accept_bid ctx bid_id) T [] =
  mkOutcome
    (Ok (Redirect "customer_routes.view_request" (Some request_id)))
    (reject_other_bids request_id bid_id
       (update_bid_status bid_id "Accepted"
          (update_request_status request_id "Complete" T)))
    [].
Proof.
  intros Hc Hb. unfold accept_bid. rewrite (customer_only_pass _ _ Hc).
  run_view. rewrite Hb. reflexivity.
Qed.

Lemma reject_bid_run ctx bid_id request_id T :
  is_customer ctx = true ->
  select_bid_request_id bid_id T = Some request_id ->
  run (reject_bid ctx bid_id) T [] =
  mkOutcome
    (Ok (Redirect "customer_routes.view_request" (Some request_id)))
    (if count_active_bids request_id T =? 1
     then update_request_status request_id "Awaiting bids"
            (update_bid_status bid_id "Rejected" T)
     else update_bid_status bid_id "Rejected" T)
    [].
Proof.
  intros Hc Hb. unfold reject_bid. rewrite (customer_only_pass _ _ Hc).
  run_view. rewrite Hb.
  destruct (count_active_bids request_id T =? 1); reflexivity.
Qed.

(** ** Lists of rows *)

Lemma find_map_same {A} (p : A -> bool) (f : A -> A) (l : list A) :
  (forall x, p (f x) = p x) ->
  find p (map f l) = option_map f (find p l).
Proof.
  intros Hp. induction l as [|a l IH]; simpl; [reflexivity|].
  rewrite Hp. destruct (p a); [reflexivity|exact IH].
Qed.

Lemma map_id_on {A} (f : A -> A) (l : list A) :
  (forall x, In x l -> f x = x) -> map f l = l.
Proof.
  intros H. induction l as [|a l IH]; simpl; [reflexivity|].
  rewrite H by (left; reflexivity). f_equal. apply IH.
  intros x Hx. apply H. right. exact Hx.
Qed.

Lemma bid_set_status_same (b : Bid.t) :
  Bid.set_status (Bid.bid_status b) b = b.
Proof. destruct b; reflexivity. Qed.

Lemma request_set_status_same (r : Request.t) :
  Request.set_status (Request.request_status r) r = r.
Proof. destruct r; reflexivity. Qed.

(** The row that [fetchone] found is in the table and has the id asked
    for. *)
Lemma select_bid_request_id_Some bid_id request_id T :
  select_bid_request_id bid_id T = Some request_id ->
  exists b, In b (bid_table T) /\ Bid.id b = bid_id
            /\ Bid.request_id b = request_id.
Proof.
  unfold select_bid_request_id.
  destruct (find _ (bid_table T)) as [b|] eqn:Hf; [|discriminate].
  intros [= <-]. apply find_some in Hf. destruct Hf as [Hin Hid].
  exists b. repeat split; [exact Hin|]. apply Z.eqb_eq. exact Hid.
Qed.

Lemma select_bid_request_id_None bid_id T :
  select_bid_request_id bid_id T = None <->
  (forall b, In b (bid_table T) -> Bid.id b <> bid_id).
Proof.
  unfold select_bid_request_id. split.
  - destruct (find _ (bid_table T)) as [b|] eqn:Hf; [discriminate|].
    intros _ b Hin Hid.
    pose proof (find_none _ _ Hf b Hin) as Hn. simpl in Hn.
    apply Z.eqb_neq in Hn. contradiction.
  - intros H. destruct (find _ (bid_table T)) as [b|] eqn:Hf; [|reflexivity].
    apply find_some in Hf. destruct Hf as [Hin Hid].
    apply Z.eqb_eq in Hid. destruct (H b Hin Hid).
Qed.

(** ** After [UPDATE bid SET bid_status] *)

Lemma select_bid_status_update bid_id s T :
  select_bid_status bid_id (update_bid_status bid_id s T) =
  option_map (fun _ => s) (select_bid_status bid_id T).
Proof.
  unfold select_bid_status, update_bid_status. simpl.
  rewrite find_map_same.
  - destruct (find _ (bid_table T)) as [b|] eqn:Hf; [|reflexivity].
    apply find_some in Hf. destruct Hf as [_ Hid].
    cbn [option_map]. rewrite Hid. reflexivity.
  - intros b. destruct (Bid.id b =? bid_id) eqn:E; [|exact E].
    cbn [Bid.id Bid.set_status]. exact E.
Qed.

Lemma update_bid_status_all bid_id s T b :
  In b (bid_table (update_bid_status bid_id s T)) ->
  Bid.id b = bid_id -> Bid.bid_status b = s.
Proof.
  unfold update_bid_status. simpl. rewrite in_map_iff.
  intros [b0 [<- _]].
  destruct (Bid.id b0 =? bid_id) eqn:E; simpl; [reflexivity|].
  apply Z.eqb_neq in E. intros H. contradiction.
Qed.

Lemma select_request_status_update id s T :
  select_request_status id (update_request_status id s T) =
  option_map (fun _ => s) (select_request_status id T).
Proof.
  unfold select_request_status, update_request_status. simpl.
  rewrite find_map_same.
  - destruct (find _ (request_table T)) as [r|] eqn:Hf; [|reflexivity].
    apply find_some in Hf. destruct Hf as [_ Hid].
    cbn [option_map]. rewrite Hid. reflexivity.
  - intros r. destruct (Request.id r =? id) eqn:E; [|exact E].
    cbn [Request.id Request.set_status]. exact E.
Qed.

Lemma update_request_status_all id s T r :
  In r (request_table (update_request_status id s T)) ->
  Request.id r = id -> Request.request_status r = s.
Proof.
  unfold update_request_status. simpl. rewrite in_map_iff.
  intros [r0 [<- _]].
  destruct (Request.id r0 =? id) eqn:E; simpl; [reflexivity|].
  apply Z.eqb_neq in E. intros H. contradiction.
Qed.

Lemma select_bid_status_of_request_id bid_id request_id T :
  select_bid_request_id bid_id T = Some request_id ->
  exists s, select_bid_status bid_id T = Some s.
Proof.
  unfold select_bid_request_id, select_bid_status.
  destruct (find _ (bid_table T)) as [b|]; [|discriminate].
  intros _. exists (Bid.bid_status b). reflexivity.
Qed.

(** ** Rejecting a bid *)

Lemma count_active_bids_pos bid_id request_id T :
  select_bid_request_id bid_id T = Some request_id ->
  select_bid_status bid_id T <> Some "Rejected" ->
  1 <= count_active_bids request_id T.
Proof.
  unfold select_bid_request_id, select_bid_status, count_active_bids.
  destruct (find _ (bid_table T)) as [b|] eqn:Hf; [|discriminate].
  cbn [option_map]. intros [= Hr] Hs.
  apply find_some in Hf. destruct Hf as [Hin _].
  assert (Hb : In b (filter (active_bid request_id) (bid_table T))).
  { apply filter_In. split; [exact Hin|]. unfold active_bid.
    rewrite Hr, Z.eqb_refl, andb_true_r.
    destruct (String.eqb_spec (Bid.bid_status b) "Rejected") as [E|E];
      [|reflexivity].
    rewrite E in Hs. destruct Hs. reflexivity. }
  destruct (filter (active_bid request_id) (bid_table T)); [destruct Hb|].
  cbn [List.length]. lia.
Qed.

(** C1. [reject_bid] decides from the number of bids of the request that
    are not Rejected, counted before the bid is touched (so the bid itself
    is counted while it is still active): the bid ends Rejected; when that
    number is 1 the request ends in "Awaiting bids"; when it is greater
    than 1 no request row changes, so a request in "Bid(s) received" stays
    there. *)
Theorem reject_bid_pre_count ctx bid_id request_id T :
  is_customer ctx = true ->
  select_bid_request_id bid_id T = Some request_id ->
  let n := count_active_bids request_id T in
  let T' := db_after (run (reject_bid ctx bid_id) T []) in
  (select_bid_status bid_id T <> Some "Rejected" -> 1 <= n) /\
  select_bid_status bid_id T' = Some "Rejected" /\
  (n = 1 ->
   (forall r, In r (request_table T') -> Request.id r = request_id ->
              Request.request_status r = "Awaiting bids") /\
   (forall s, select_request_status request_id T = Some s ->
              select_request_status request_id T' = Some "Awaiting bids")) /\
  (1 < n ->
   request_table T' = request_table T /\
   (select_request_status request_id T = Some "Bid(s) received" ->
    select_request_status request_id T' = Some "Bid(s) received")).
Proof.
  intros Hc Hb n T'. subst n T'.
  rewrite (reject_bid_run _ _ _ _ Hc Hb). cbn [db_after].
  destruct (select_bid_status_of_request_id _ _ _ Hb) as [s0 Hs0].
  split; [apply count_active_bids_pos; exact Hb|].
  split.
  - destruct (count_active_bids request_id T =? 1).
    + change (select_bid_status bid_id (update_bid_status bid_id "Rejected" T)
              = Some "Rejected").
      rewrite select_bid_status_update, Hs0. reflexivity.
    + rewrite select_bid_status_update, Hs0. reflexivity.
  - split.
    + intros ->. cbn [Z.eqb Pos.eqb]. split.
      * intros r. apply update_request_status_all.
      * intros s Hs. rewrite select_request_status_update.
        change (select_request_status request_id
                  (update_bid_status bid_id "Rejected" T))
          with (select_request_status request_id T).
        rewrite Hs. reflexivity.
    + intros Hn.
      destruct (count_active_bids request_id T =? 1) eqn:E;
        [apply Z.eqb_eq in E; lia|].
      split; [reflexivity|]. intros H. exact H.
Qed.

(** Request 1 of [two_bids] has two Pending bids, request 1 of [one_bid]
    one: rejecting bid 1 leaves the former in "Bid(s) received" and sends
    the latter back to "Awaiting bids". *)
Lemma reject_bid_pre_count_witness :
  (select_bid_status 1
     (db_after (run (reject_bid (post_by customer1) 1) two_bids []))
   = Some "Rejected" /\
   select_request_status 1
     (db_after (run (reject_bid (post_by customer1) 1) two_bids []))
   = Some "Bid(s) received") /\
  (select_bid_status 1
     (db_after (run (reject_bid (post_by customer1) 1) one_bid []))
   = Some "Rejected" /\
   select_request_status 1
     (db_after (run (reject_bid (post_by customer1) 1) one_bid []))
   = Some "Awaiting bids").
Proof.
  split.
  - destruct (reject_bid_pre_count (post_by customer1) 1 1 two_bids
                eq_refl eq_refl) as (_ & Hb & _ & Hmany).
    split; [exact Hb|].
    apply Hmany; [vm_compute; reflexivity|reflexivity].
  - destruct (reject_bid_pre_count (post_by customer1) 1 1 one_bid
                eq_refl eq_refl) as (_ & Hb & Hone & _).
    split; [exact Hb|].
    apply (proj2 (Hone eq_refl) "Bid(s) received"). reflexivity.
Defined.

(** C10. When exactly one bid of the request is not Rejected and
    [reject_bid] is called on a bid of that request that is Rejected
    already, the bid table stays as it was (the one active bid is still
    active) and the request is set to "Awaiting bids" all the same: the
    count taken before the update is 1, whether or not the rejected bid was
    the one counted. *)
Theorem reject_rejected_bid_reverts ctx bid_id request_id T :
  is_customer ctx = true ->
  select_bid_request_id bid_id T = Some request_id ->
  (forall b, In b (bid_table T) -> Bid.id b = bid_id ->
             Bid.bid_status b = "Rejected") ->
  count_active_bids request_id T = 1 ->
  let T' := db_after (run (reject_bid ctx bid_id) T []) in
  bid_table T' = bid_table T /\
  count_active_bids request_id T' = 1 /\
  (forall r, In r (request_table T') -> Request.id r = request_id ->
             Request.request_status r = "Awaiting bids") /\
  (forall s, select_request_status request_id T = Some s ->
             select_request_status request_id T' = Some "Awaiting bids").
Proof.
  intros Hc Hb Hrej Hn T'. subst T'.
  rewrite (reject_bid_run _ _ _ _ Hc Hb), Hn. cbn [db_after Z.eqb Pos.eqb].
  assert (Hbids : bid_table (update_request_status request_id "Awaiting bids"
                               (update_bid_status bid_id "Rejected" T))
                  = bid_table T).
  { cbn [update_request_status update_bid_status with_requests with_bids
         bid_table].
    apply map_id_on. intros b Hin.
    destruct (Bid.id b =? bid_id) eqn:E; [|reflexivity].
    apply Z.eqb_eq in E. rewrite <- (Hrej b Hin E).
    apply bid_set_status_same. }
  split; [exact Hbids|]. split.
  - unfold count_active_bids. rewrite Hbids. exact Hn.
  - split.
    + intros r. apply update_request_status_all.
    + intros s Hs. rewrite select_request_status_update.
      change (select_request_status request_id
                (update_bid_status bid_id "Rejected" T))
        with (select_request_status request_id T).
      rewrite Hs. reflexivity.
Qed.

(** Rejecting bid 1 once more sends request 1 to "Awaiting bids" although
    bid 2 is still Pending. *)
Lemma reject_rejected_bid_reverts_witness :
  select_request_status 1 one_of_two_rejected = Some "Bid(s) received" /\
  select_request_status 1
    (db_after (run (reject_bid (post_by customer1) 1) one_of_two_rejected []))
  = Some "Awaiting bids" /\
  select_bid_status 2
    (db_after (run (reject_bid (post_by customer1) 1) one_of_two_rejected []))
  = Some "Pending".
Proof.
  split; [reflexivity|].
  assert (Hrej : forall b, In b (bid_table one_of_two_rejected) ->
                           Bid.id b = 1 -> Bid.bid_status b = "Rejected").
  { intros b [<-|[<-|[]]]; [reflexivity|discriminate]. }
  destruct (reject_rejected_bid_reverts (post_by customer1) 1 1
              one_of_two_rejected eq_refl eq_refl Hrej eq_refl)
    as (Hbids & _ & _ & Hreq).
  split.
  - apply (Hreq "Bid(s) received"). reflexivity.
  - unfold select_bid_status. rewrite Hbids. reflexivity.
Defined.

(** ** Accepting a bid *)

Lemma accept_bid_bid_rows request_id bid_id T :
  select_bid_request_id bid_id T = Some request_id ->
  bid_table (reject_other_bids request_id bid_id
               (update_bid_status bid_id "Accepted"
                  (update_request_status request_id "Complete" T)))
  = map (accepted_bid_row request_id bid_id) (bid_table T).
Proof.
  intros Hb.
  cbn [reject_other_bids update_bid_status update_request_status
       with_requests with_bids bid_table].
  rewrite map_map. apply map_ext_in. intros b Hin. unfold accepted_bid_row.
  destruct (Bid.id b =? bid_id) eqn:E.
  - cbn [Bid.id Bid.request_id Bid.set_status]. rewrite E.
    rewrite andb_false_r. reflexivity.
  - rewrite E. rewrite andb_true_r.
    destruct (Bid.request_id b =? request_id); reflexivity.
Qed.

(** Whatever faults occur, [accept_bid] commits all of its updates or
    none. *)
Lemma accept_bid_all_or_nothing ctx bid_id T plan :
  db_after (run (accept_bid ctx bid_id) T plan) = T \/
  exists request_id,
    select_bid_request_id bid_id T = Some request_id /\
    db_after (run (accept_bid ctx bid_id) T plan) =
    reject_other_bids request_id bid_id
      (update_bid_status bid_id "Accepted"
         (update_request_status request_id "Complete" T)).
Proof.
  unfold accept_bid, customer_only.
  destruct (g_user ctx) as [u|]; [|left; reflexivity].
  destruct (negb _); [left; reflexivity|].
  destruct (select_bid_request_id bid_id T) as [request_id|] eqn:Hb.
  - destruct plan as [|[] [|[] [|[] [|[] plan]]]];
      run_view; rewrite Hb;
      try (left; reflexivity);
      right; exists request_id; split; reflexivity.
  - left. run_view. rewrite Hb. destruct (sqlite_int bid_id); reflexivity.
Qed.

(** C2. [accept_bid] on a bid that exists, by a customer: the users are
    untouched; every request row with the bid's request id gets status
    Complete and no other request row changes; every bid row with the
    given id gets status Accepted, every other bid row of the same request
    gets status Rejected, and no other bid row changes; so the request
    reads Complete, the bid reads Accepted and each sibling bid is
    Rejected.  Under any storage faults the committed tables are either
    these or the ones before the call. *)
Theorem accept_bid_mutations ctx bid_id request_id T :
  is_customer ctx = true ->
  select_bid_request_id bid_id T = Some request_id ->
  let T' := db_after (run (accept_bid ctx bid_id) T []) in
  user_table T' = user_table T /\
  request_table T' = map (completed_request_row request_id) (request_table T) /\
  bid_table T' = map (accepted_bid_row request_id bid_id) (bid_table T) /\
  (forall s, select_request_status request_id T = Some s ->
             select_request_status request_id T' = Some "Complete") /\
  select_bid_status bid_id T' = Some "Accepted" /\
  (forall b, In b (bid_table T) -> Bid.request_id b = request_id ->
             Bid.id b <> bid_id ->
             In (Bid.set_status "Rejected" b) (bid_table T')) /\
  (forall b', In b' (bid_table T') -> Bid.request_id b' = request_id ->
              Bid.id b' <> bid_id -> Bid.bid_status b' = "Rejected") /\
  (forall plan,
     db_after (run (accept_bid ctx bid_id) T plan) = T \/
     db_after (run (accept_bid ctx bid_id) T plan) = T').
Proof.
  intros Hc Hb T'. subst T'.
  rewrite (accept_bid_run _ _ _ _ Hc Hb). cbn [db_after].
  pose proof (accept_bid_bid_rows _ _ _ Hb) as Hrows.
  split; [reflexivity|]. split; [reflexivity|]. split; [exact Hrows|].
  split.
  { intros s Hs.
    change (select_request_status request_id
              (update_request_status request_id "Complete" T)
            = Some "Complete").
    rewrite select_request_status_update, Hs. reflexivity. }
  split.
  { unfold select_bid_status. rewrite Hrows.
    rewrite find_map_same.
    - destruct (select_bid_status_of_request_id _ _ _ Hb) as [s Hs].
      unfold select_bid_status in Hs.
      destruct (find _ (bid_table T)) as [b|] eqn:Hf; [|discriminate].
      apply find_some in Hf. destruct Hf as [_ Hid].
      cbn [option_map]. unfold accepted_bid_row. rewrite Hid. reflexivity.
    - intros b. unfold accepted_bid_row.
      destruct (Bid.id b =? bid_id) eqn:E; [exact E|].
      destruct (Bid.request_id b =? request_id); exact E. }
  split.
  { intros b Hin Hr Hid. rewrite Hrows. apply in_map_iff. exists b.
    split; [|exact Hin]. unfold accepted_bid_row.
    apply Z.eqb_neq in Hid. apply Z.eqb_eq in Hr. rewrite Hid, Hr.
    reflexivity. }
  split.
  { intros b'. rewrite Hrows, in_map_iff. intros [b [<- _]].
    unfold accepted_bid_row.
    destruct (Bid.id b =? bid_id) eqn:E.
    - cbn [Bid.id Bid.set_status]. apply Z.eqb_eq in E. intros _ H.
      contradiction.
    - destruct (Bid.request_id b =? request_id) eqn:E'; [reflexivity|].
      apply Z.eqb_neq in E'. intros H. contradiction. }
  intros plan.
  destruct (accept_bid_all_or_nothing ctx bid_id T plan)
    as [H|[request_id' [Hb' H]]]; [left; exact H|].
  right. rewrite Hb in Hb'. injection Hb' as <-. exact H.
Qed.

(** Request 1 of [two_bids] holds the Pending bids 1 and 2: accepting
    bid 1 leaves bid 1 Accepted, bid 2 Rejected and the request
    Complete. *)
Lemma accept_bid_mutations_witness :
  select_bid_status 1 two_bids = Some "Pending" /\
  select_bid_status 2 two_bids = Some "Pending" /\
  select_bid_status 1 bid_1_accepted = Some "Accepted" /\
  select_bid_status 2 bid_1_accepted = Some "Rejected" /\
  select_request_status 1 bid_1_accepted = Some "Complete".
Proof.
  destruct (accept_bid_mutations (post_by customer1) 1 1 two_bids
              eq_refl eq_refl) as (_ & _ & Hbids & Hreq & Hacc & _).
  change (db_after (run (accept_bid (post_by customer1) 1) two_bids []))
    with bid_1_accepted in Hbids, Hreq, Hacc.
  split; [reflexivity|]. split; [reflexivity|]. split; [exact Hacc|].
  split.
  - unfold select_bid_status. rewrite Hbids. reflexivity.
  - apply (Hreq "Bid(s) received"). reflexivity.
Defined.

(** ** Removing a request *)

Lemma select_request_status_None id T :
  select_request_status id T = None <->
  (forall r, In r (request_table T) -> Request.id r <> id).
Proof.
  unfold select_request_status. split.
  - destruct (find _ (request_table T)) as [r|] eqn:Hf; [discriminate|].
    intros _ r Hin Hid.
    pose proof (find_none _ _ Hf r Hin) as Hn. simpl in Hn.
    apply Z.eqb_neq in Hn. contradiction.
  - intros H. destruct (find _ (request_table T)) as [r|] eqn:Hf;
      [|reflexivity].
    apply find_some in Hf. destruct Hf as [Hin Hid].
    apply Z.eqb_eq in Hid. destruct (H r Hin Hid).
Qed.

Lemma delete_request_rows id T r :
  In r (request_table (delete_request id T)) <->
  In r (request_table T) /\ Request.id r <> id.
Proof.
  unfold delete_request. cbn [with_requests request_table].
  rewrite filter_In, negb_true_iff, Z.eqb_neq. reflexivity.
Qed.




(** ** Who may accept or reject *)

(** C6, on the code: [customer3] of company2 accepts, and rejects, bid 1
    on the request of company1; neither call is refused, both redirect to
    the request, and both commit their updates.  The views pass the
    [customer_only] decorator, which looks at the role, and never compare
    the caller's company with the request's, where [customer_requests]
    lists a company its own requests only and [get_location] answers 403
    to anyone but the creator. *)
Theorem other_company_accepts_and_rejects :
  owning_company 1 two_bids = Some "company1" /\
  User.company customer3 = "company2" /\
  (returned (run (accept_bid (post_by customer3) 1) two_bids []) =
     Ok (Redirect "customer_routes.view_request" (Some 1)) /\
   db_after (run (accept_bid (post_by customer3) 1) two_bids []) <> two_bids /\
   select_bid_status 1
     (db_after (run (accept_bid (post_by customer3) 1) two_bids [])) =
     Some "Accepted") /\
  (returned (run (reject_bid (post_by customer3) 1) two_bids []) =
     Ok (Redirect "customer_routes.view_request" (Some 1)) /\
   db_after (run (reject_bid (post_by customer3) 1) two_bids []) <> two_bids /\
   select_bid_status 1
     (db_after (run (reject_bid (post_by customer3) 1) two_bids [])) =
     Some "Rejected").
Proof.
  split; [reflexivity|]. split; [reflexivity|].
  split; (split; [reflexivity|]); (split; [|reflexivity]);
    intros H; apply (f_equal (select_bid_status 1)) in H;
    vm_compute in H; discriminate H.
Qed.

(** ** A bid id that matches no bid *)

(** [accept_bid] skips its [if request_id:] block and ends without a
    response and without a message; [reject_bid] raises on
    [request_id[0]] before its own test.  Neither writes. *)
Lemma accept_reject_missing_bid ctx bid_id T plan :
  is_customer ctx = true ->
  select_bid_request_id bid_id T = None ->
  sqlite_int bid_id = true ->
  run (accept_bid ctx bid_id) T plan = mkOutcome (Ok ReturnedNone) T [] /\
  run (reject_bid ctx bid_id) T plan = mkOutcome (Raise TypeError) T [].
Proof.
  intros Hc Hb Hfit. unfold accept_bid, reject_bid.
  rewrite !(customer_only_pass _ _ Hc).
  split; run_view; rewrite Hb, Hfit; reflexivity.
Qed.

(** C7, on the code: no bid of [two_bids] has id 9.  [accept_bid 9]
    returns nothing and flashes nothing, [reject_bid 9] dies of an uncaught
    TypeError; no row changes, and no not-found message reaches the
    user. *)
Theorem missing_bid_not_reported :
  select_bid_request_id 9 two_bids = None /\
  run (accept_bid (post_by customer1) 9) two_bids [] =
    mkOutcome (Ok ReturnedNone) two_bids [] /\
  run (reject_bid (post_by customer1) 9) two_bids [] =
    mkOutcome (Raise TypeError) two_bids [].
Proof.
  split; [reflexivity|].
  apply accept_reject_missing_bid; reflexivity.
Qed.

(** ** Creating a request *)

(** A POST by a customer whose two dates parse and whose weight, if any,
    is one SQLite can bind, the storage working: the row is inserted as
    posted, with the schema's status, the caller's
    company and the caller as creator.  No validator is consulted. *)
Lemma create_request_run ctx u form collection delivery T :
  g_user ctx = Some u ->
  User.user_type u = "Customer" ->
  method ctx = POST ->
  form_collection_date form = Some collection ->
  form_delivery_date form = Some delivery ->
  forallb sqlite_int (some_int (form_weight form)) = true ->
  run (create_request ctx form) T [] =
  mkOutcome (Ok (Redirect "customer_routes.customer_requests" None))
    (with_requests
       (request_table T ++
        [Request.mk (next_id (map Request.id (request_table T)))
                    (User.id u) (now ctx) collection delivery
                    (form_collection_address form)
                    (form_delivery_address form) (form_pallets form)
                    (form_weight form) (User.company u) "Awaiting bids"]) T)
    [].
Proof.
  intros Hu Ht Hm Hc Hd Hfit. unfold create_request, customer_only.
  rewrite Hu, Ht, Hm. cbn [String.eqb Ascii.eqb Bool.eqb negb].
  run_view. rewrite Hu, Hc, Hd, Hfit. reflexivity.
Qed.

(** C8, on the code: both validators of [forms.py] refuse the dates of
    [stale_form] on day 20000, yet [create_request] never runs them and
    commits the row. *)
Theorem create_request_skips_validation :
  validate_collectionBy (post_by customer1) 19999 = Raise ValidationError /\
  validate_deliveryBy 19999 19990 = Raise ValidationError /\
  run (create_request (post_by customer1) stale_form) (initial example_users) [] =
  mkOutcome (Ok (Redirect "customer_routes.customer_requests" None))
    (mkTables example_users
       [Request.mk 1 1 0 19999 19990 "Depot A, 1 Road, Leeds, UK, LS1"
                   "Depot B, 2 Road, York, UK, YO1" "4" (Some 800) "company1"
                   "Awaiting bids"]
       [])
    [].
Proof.
  split; [reflexivity|]. split; [reflexivity|].
  rewrite (create_request_run (post_by customer1) customer1 stale_form
             19999 19990); reflexivity.
Qed.

(** ** A Complete request *)

(** C4, on the code: request 1 of [bid_1_accepted] is Complete.
    [remove_request] refuses it, but [submit_bid] inserts bid 3 and moves
    the request to "Bid(s) received", and [reject_bid] on its accepted bid
    rejects the bid and moves the request to "Awaiting bids". *)
Theorem complete_is_not_terminal :
  select_request_status 1 bid_1_accepted = Some "Complete" /\
  db_after (run (remove_request (post_by customer1) 1) bid_1_accepted []) =
    bid_1_accepted /\
  (returned (run (submit_bid (post_by supplier3) 1 (mkBidForm "90"))
               bid_1_accepted []) =
     Ok (Redirect "supplier_routes.my_bids" None) /\
   select_request_status 1
     (db_after (run (submit_bid (post_by supplier3) 1 (mkBidForm "90"))
                  bid_1_accepted [])) = Some "Bid(s) received" /\
   select_bid_status 3
     (db_after (run (submit_bid (post_by supplier3) 1 (mkBidForm "90"))
                  bid_1_accepted [])) = Some "Pending") /\
  (returned (run (reject_bid (post_by customer1) 1) bid_1_accepted []) =
     Ok (Redirect "customer_routes.view_request" (Some 1)) /\
   select_request_status 1
     (db_after (run (reject_bid (post_by customer1) 1) bid_1_accepted [])) =
     Some "Awaiting bids" /\
   select_bid_status 1
     (db_after (run (reject_bid (post_by customer1) 1) bid_1_accepted [])) =
     Some "Rejected").
Proof. repeat split. Qed.

(** ** The supplier's lists *)

Section Joins.
Context {A B : Type}.

Lemma in_left_join (on : A -> B -> bool) (l : list A) (r : list B) a ob :
  In (a, ob) (left_join on l r) <->
  In a l /\
  match ob with
  | Some b => In b r /\ on a b = true
  | None => forall b, In b r -> on a b = false
  end.
Proof.
  unfold left_join. rewrite in_flat_map. split.
  - intros [a0 [Hin Hrow]].
    destruct (filter (on a0) r) as [|m ms] eqn:Hf.
    + destruct Hrow as [[= <- <-]|[]]. split; [exact Hin|].
      intros b Hb. destruct (on a0 b) eqn:E; [|reflexivity].
      assert (Hm : In b (filter (on a0) r)) by (apply filter_In; auto).
      rewrite Hf in Hm. destruct Hm.
    + apply in_map_iff in Hrow. destruct Hrow as [b [[= <- <-] Hb]].
      rewrite <- Hf in Hb. apply filter_In in Hb. split; [exact Hin|exact Hb].
  - intros [Hin Hob]. exists a. split; [exact Hin|].
    destruct ob as [b|].
    + assert (Hm : In b (filter (on a) r)) by (apply filter_In; exact Hob).
      destruct (filter (on a) r) as [|m ms] eqn:Hf; [destruct Hm|].
      apply (in_map (fun b0 => (a, Some b0))). exact Hm.
    + destruct (filter (on a) r) as [|m ms] eqn:Hf; [left; reflexivity|].
      assert (Hm : In m (filter (on a) r)) by (rewrite Hf; left; reflexivity).
      apply filter_In in Hm. destruct Hm as [Hm Hon].
      rewrite (Hob m Hm) in Hon. discriminate.
Qed.

Lemma insert_by_perm (key : A -> Z) (a : A) (l : list A) :
  Permutation (insert_by key a l) (a :: l).
Proof.
  induction l as [|b l IH]; cbn [insert_by]; [reflexivity|].
  destruct (key a <? key b); [reflexivity|].
  rewrite IH. apply perm_swap.
Qed.

Lemma order_by_perm (key : A -> Z) (l : list A) :
  Permutation (order_by key l) l.
Proof.
  unfold order_by.
  assert (H : forall acc, Permutation
                (fold_left (fun sorted a => insert_by key a sorted) l acc)
                (acc ++ l)).
  { induction l as [|a l IH]; intros acc; cbn [fold_left].
    - rewrite app_nil_r. reflexivity.
    - rewrite IH, insert_by_perm.
      change (a :: acc) with ([a] ++ acc).
      change (a :: l) with ([a] ++ l).
      rewrite !app_assoc. apply Permutation_app_tail.
      apply Permutation_app_comm. }
  apply (H []).
Qed.

Lemma in_order_by (key : A -> Z) (l : list A) x :
  In x (order_by key l) <-> In x l.
Proof.
  split; apply Permutation_in;
    [apply order_by_perm|symmetry; apply order_by_perm].
Qed.
End Joins.

Lemma sql_eq_company ou user_company :
  sql_eq (option_map User.company ou) user_company = true <->
  exists u, ou = Some u /\ User.company u = user_company.
Proof.
  destruct ou as [u|]; cbn [sql_eq option_map].
  - rewrite String.eqb_eq. split.
    + intros H. exists u. split; [reflexivity|exact H].
    + intros [u' [[= <-] H]]. exact H.
  - split; [discriminate|]. intros [u [H _]]. discriminate.
Qed.

Lemma in_company_bids user_company T b ou :
  In (b, ou) (company_bids user_company T) <->
  In b (bid_table T) /\
  exists u, ou = Some u /\ In u (user_table T)
            /\ User.id u = Bid.created_by b /\ User.company u = user_company.
Proof.
  unfold company_bids. rewrite filter_In, in_left_join. cbn [snd].
  rewrite sql_eq_company. split.
  - intros [[Hb Hou] [u [-> Hc]]]. destruct Hou as [Hu Hid].
    apply Z.eqb_eq in Hid. split; [exact Hb|]. exists u. auto.
  - intros [Hb [u [-> [Hu [Hid Hc]]]]]. split.
    + split; [exact Hb|]. split; [exact Hu|]. apply Z.eqb_eq. exact Hid.
    + exists u. auto.
Qed.

Lemma in_request_bid_user T r ob u :
  In ((r, ob), Some u) (request_bid_user T) <->
  In r (request_table T) /\ In u (user_table T) /\
  exists b, ob = Some b /\ In b (bid_table T)
            /\ Bid.request_id b = Request.id r
            /\ User.id u = Bid.created_by b.
Proof.
  unfold request_bid_user. rewrite in_left_join. cbn [snd].
  rewrite in_left_join. split.
  - intros [[Hr Hob] [Hu Hon]]. destruct ob as [b|]; [|discriminate].
    destruct Hob as [Hb Hid]. apply Z.eqb_eq in Hid, Hon.
    split; [exact Hr|]. split; [exact Hu|]. exists b. auto.
  - intros [Hr [Hu [b [-> [Hb [Hid Hcb]]]]]].
    split; [split; [exact Hr|split; [exact Hb|]]|split; [exact Hu|]];
      apply Z.eqb_eq; auto.
Qed.

Lemma not_complete_iff s :
  negb (String.eqb s "Complete") = true <-> s <> "Complete".
Proof. rewrite negb_true_iff. apply String.eqb_neq. Qed.

(** The first list: the requests that are not Complete and carry no bid
    of the company. *)
Lemma in_live_requests_not_bid user_company T r :
  In r (live_requests_not_bid user_company T) <->
  In r (request_table T) /\ Request.request_status r <> "Complete" /\
  (forall b, bid_of_company user_company T b ->
             Bid.request_id b <> Request.id r).
Proof.
  unfold live_requests_not_bid. rewrite in_map_iff. split.
  - intros [[r' cb] [Hfst Hrow]]. cbn [fst] in Hfst. subst r'.
    apply in_order_by, filter_In in Hrow. cbn [fst snd] in Hrow.
    destruct Hrow as [Hjoin Hwhere].
    apply andb_true_iff in Hwhere. destruct Hwhere as [Hcb Hst].
    apply not_complete_iff in Hst.
    apply in_left_join in Hjoin. destruct Hjoin as [Hr Hcbs].
    split; [exact Hr|]. split; [exact Hst|].
    destruct cb as [[b0 ou]|].
    + destruct Hcbs as [Hin _]. apply in_company_bids in Hin.
      destruct Hin as [_ [u [-> [_ [_ Hc]]]]].
      cbn [cb_company sql_is_not] in Hcb. rewrite Hc in Hcb.
      rewrite String.eqb_refl in Hcb. discriminate.
    + intros b [Hb [u [Hu [Hid Hc]]]] Hreq.
      assert (Hin : In (b, Some u) (company_bids user_company T)).
      { apply in_company_bids. split; [exact Hb|]. exists u. auto. }
      specialize (Hcbs _ Hin). cbn [fst] in Hcbs.
      apply Z.eqb_neq in Hcbs. contradiction.
  - intros [Hr [Hst Hnone]]. exists (r, None). split; [reflexivity|].
    apply in_order_by, filter_In. cbn [fst snd cb_company sql_is_not].
    split.
    + apply in_left_join. split; [exact Hr|].
      intros [b ou] Hin. cbn [fst]. apply Z.eqb_neq.
      apply in_company_bids in Hin.
      destruct Hin as [Hb [u [_ [Hu [Hid Hc]]]]].
      apply Hnone. split; [exact Hb|]. exists u. auto.
    + apply not_complete_iff in Hst. rewrite Hst. reflexivity.
Qed.

(** The second list: the requests that are not Complete and carry a bid
    of the company, once for each such bid. *)
Lemma in_requests_bid user_company T r :
  (exists bid_id, In (r, bid_id) (requests_bid user_company T)) <->
  In r (request_table T) /\ Request.request_status r <> "Complete" /\
  (exists b, bid_of_company user_company T b
             /\ Bid.request_id b = Request.id r).
Proof.
  unfold requests_bid. split.
  - intros [bid_id Hin]. apply in_map_iff in Hin.
    destruct Hin as [[[r' ob] ou] [Hrow Hin]].
    unfold request_and_bid_id in Hrow. cbn [fst snd] in Hrow.
    injection Hrow as -> _.
    apply in_order_by, filter_In in Hin. cbn [fst snd] in Hin.
    destruct Hin as [Hjoin Hwhere].
    apply andb_true_iff in Hwhere. destruct Hwhere as [Hwhere Hst].
    apply andb_true_iff in Hwhere. destruct Hwhere as [_ Hc].
    apply not_complete_iff in Hst.
    apply sql_eq_company in Hc. destruct Hc as [u [-> Hc]].
    apply in_request_bid_user in Hjoin.
    destruct Hjoin as [Hr [Hu [b [-> [Hb [Hid Hcb]]]]]].
    split; [exact Hr|]. split; [exact Hst|]. exists b.
    split; [|exact Hid]. split; [exact Hb|]. exists u. auto.
  - intros [Hr [Hst [b [[Hb [u [Hu [Hcb Hc]]]] Hid]]]].
    exists (Some (Bid.id b)). apply in_map_iff.
    exists ((r, Some b), Some u). split; [reflexivity|].
    apply in_order_by, filter_In. cbn [fst snd option_map sql_eq].
    split.
    + apply in_request_bid_user. split; [exact Hr|]. split; [exact Hu|].
      exists b. auto.
    + apply not_complete_iff in Hst. apply String.eqb_eq in Hc.
      rewrite Hst, Hc. reflexivity.
Qed.

(** The third list: the Complete requests that carry a bid of the company
    that is not Rejected, once for each such bid. *)
Lemma in_requests_bid_won user_company T r :
  (exists bid_id, In (r, bid_id) (requests_bid_won user_company T)) <->
  In r (request_table T) /\ Request.request_status r = "Complete" /\
  (exists b, bid_of_company user_company T b
             /\ Bid.request_id b = Request.id r
             /\ Bid.bid_status b <> "Rejected").
Proof.
  unfold requests_bid_won. split.
  - intros [bid_id Hin]. apply in_map_iff in Hin.
    destruct Hin as [[[r' ob] ou] [Hrow Hin]].
    unfold request_and_bid_id in Hrow. cbn [fst snd] in Hrow.
    injection Hrow as -> _.
    apply in_order_by, filter_In in Hin. cbn [fst snd] in Hin.
    destruct Hin as [Hjoin Hwhere].
    apply andb_true_iff in Hwhere. destruct Hwhere as [Hwhere Hst].
    apply andb_true_iff in Hwhere. destruct Hwhere as [Hrej Hc].
    apply String.eqb_eq in Hst.
    apply sql_eq_company in Hc. destruct Hc as [u [-> Hc]].
    apply in_request_bid_user in Hjoin.
    destruct Hjoin as [Hr [Hu [b [-> [Hb [Hid Hcb]]]]]].
    cbn [option_map sql_is_not] in Hrej.
    apply negb_true_iff, String.eqb_neq in Hrej.
    split; [exact Hr|]. split; [exact Hst|]. exists b.
    split; [|split; [exact Hid|exact Hrej]].
    split; [exact Hb|]. exists u. auto.
  - intros [Hr [Hst [b [[Hb [u [Hu [Hcb Hc]]]] [Hid Hrej]]]]].
    exists (Some (Bid.id b)). apply in_map_iff.
    exists ((r, Some b), Some u). split; [reflexivity|].
    apply in_order_by, filter_In.
    cbn [fst snd option_map sql_eq sql_is_not].
    split.
    + apply in_request_bid_user. split; [exact Hr|]. split; [exact Hu|].
      exists b. auto.
    + apply String.eqb_neq in Hrej. apply String.eqb_eq in Hc, Hst.
      rewrite Hrej, Hc, Hst. reflexivity.
Qed.

(** The three queries of [supplier_requests], taken by themselves, for
    any company. *)
Lemma supplier_queries_partition (user_company : string) (T : Tables) :
  (forall r, In r (live_requests_not_bid user_company T) <->
     In r (request_table T) /\ Request.request_status r <> "Complete" /\
     (forall b, bid_of_company user_company T b ->
                Bid.request_id b <> Request.id r)) /\
  (forall r, listed (requests_bid user_company T) r <->
     In r (request_table T) /\ Request.request_status r <> "Complete" /\
     (exists b, bid_of_company user_company T b
                /\ Bid.request_id b = Request.id r)) /\
  (forall r, listed (requests_bid_won user_company T) r <->
     In r (request_table T) /\ Request.request_status r = "Complete" /\
     (exists b, bid_of_company user_company T b
                /\ Bid.request_id b = Request.id r
                /\ Bid.bid_status b <> "Rejected")) /\
  (forall r, ~ (In r (live_requests_not_bid user_company T)
                /\ listed (requests_bid user_company T) r)) /\
  (forall r, ~ (In r (live_requests_not_bid user_company T)
                /\ listed (requests_bid_won user_company T) r)) /\
  (forall r, ~ (listed (requests_bid user_company T) r
                /\ listed (requests_bid_won user_company T) r)).
Proof.
  split; [intros r; apply in_live_requests_not_bid|].
  split; [intros r; apply in_requests_bid|].
  split; [intros r; apply in_requests_bid_won|].
  split; [|split]; intros r [H1 H2].
  - apply in_live_requests_not_bid in H1. apply in_requests_bid in H2.
    destruct H1 as (_ & _ & Hnone). destruct H2 as (_ & _ & b & Hb & Hid).
    exact (Hnone b Hb Hid).
  - apply in_live_requests_not_bid in H1. apply in_requests_bid_won in H2.
    destruct H1 as (_ & Hst & _). destruct H2 as (_ & Hst' & _).
    contradiction.
  - apply in_requests_bid in H1. apply in_requests_bid_won in H2.
    destruct H1 as (_ & Hst & _). destruct H2 as (_ & Hst' & _).
    contradiction.
Qed.


(** C9. Whatever the tables hold and whoever is logged in,
    [supplier_requests] computes three lists from one state of the
    tables, at the company of the caller: the first holds exactly the
    requests that are not Complete and have no bid of that company, the
    second exactly the requests that are not Complete and have a bid of
    that company, whatever the bid's status, the third exactly the
    Complete requests on which that company has a bid that is not
    Rejected; no request is in two of the lists.  For a supplier the view
    renders its page with them and commits nothing. *)
Theorem supplier_lists_partition ctx u T :
  g_user ctx = Some u ->
  exists lists,
    read (supplier_requests_lists ctx) T = Ok lists /\
    (forall r, In r (sl_live_requests_not_bid lists) <->
       In r (request_table T) /\ Request.request_status r <> "Complete" /\
       (forall b, bid_of_company (User.company u) T b ->
                  Bid.request_id b <> Request.id r)) /\
    (forall r, listed (sl_requests_bid lists) r <->
       In r (request_table T) /\ Request.request_status r <> "Complete" /\
       (exists b, bid_of_company (User.company u) T b
                  /\ Bid.request_id b = Request.id r)) /\
    (forall r, listed (sl_requests_bid_won lists) r <->
       In r (request_table T) /\ Request.request_status r = "Complete" /\
       (exists b, bid_of_company (User.company u) T b
                  /\ Bid.request_id b = Request.id r
                  /\ Bid.bid_status b <> "Rejected")) /\
    (forall r, ~ (In r (sl_live_requests_not_bid lists)
                  /\ listed (sl_requests_bid lists) r)) /\
    (forall r, ~ (In r (sl_live_requests_not_bid lists)
                  /\ listed (sl_requests_bid_won lists) r)) /\
    (forall r, ~ (listed (sl_requests_bid lists) r
                  /\ listed (sl_requests_bid_won lists) r)) /\
    (User.user_type u = "Supplier" ->
     forall plan,
       run (supplier_requests ctx) T plan =
       mkOutcome (Ok (Render "supplier/supplier_requests.html")) T []).
Proof.
  intros Hu.
  exists (mkSupplierLists (live_requests_not_bid (User.company u) T)
                          (requests_bid (User.company u) T)
                          (requests_bid_won (User.company u) T)).
  split.
  { unfold read, supplier_requests_lists. run_view. rewrite Hu. reflexivity. }
  cbn [sl_live_requests_not_bid sl_requests_bid sl_requests_bid_won].
  destruct (supplier_queries_partition (User.company u) T)
    as (Ha & Hb & Hc & Hab & Hac & Hbc).
  repeat (split; [assumption|]).
  intros Ht plan. unfold supplier_requests, supplier_only, supplier_requests_lists.
  rewrite Hu, Ht. cbn [String.eqb Ascii.eqb Bool.eqb negb].
  run_view. rewrite Hu. reflexivity.
Qed.

(** What [supplier1] of company3 and [supplier3] of company4 are handed
    on [one_bid], where company3 has bid on request 1. *)
Lemma supplier_lists_partition_witness :
  read (supplier_requests_lists (post_by supplier1)) one_bid =
    Ok (mkSupplierLists [] (map (fun r => (r, Some 1)) (request_table one_bid))
                        []) /\
  read (supplier_requests_lists (post_by supplier3)) one_bid =
    Ok (mkSupplierLists (request_table one_bid) [] []).
Proof.
  destruct (supplier_lists_partition (post_by supplier1) supplier1 one_bid
              eq_refl) as (l1 & H1 & _).
  destruct (supplier_lists_partition (post_by supplier3) supplier3 one_bid
              eq_refl) as (l3 & H3 & _).
  split; reflexivity.
Defined.

(** ** Every view commits all of its writes or none *)

Lemma reject_bid_all_or_nothing ctx bid_id T plan :
  db_after (run (reject_bid ctx bid_id) T plan) = T \/
  exists request_id,
    select_bid_request_id bid_id T = Some request_id /\
    db_after (run (reject_bid ctx bid_id) T plan) =
    if count_active_bids request_id T =? 1
    then update_request_status request_id "Awaiting bids"
           (update_bid_status bid_id "Rejected" T)
    else update_bid_status bid_id "Rejected" T.
Proof.
  unfold reject_bid, customer_only.
  destruct (g_user ctx) as [u|]; [|left; reflexivity].
  destruct (negb _); [left; reflexivity|].
  destruct (select_bid_request_id bid_id T) as [request_id|] eqn:Hb.
  - destruct plan as [|[] [|[] [|[] plan]]];
      run_view; rewrite Hb;
      destruct (count_active_bids request_id T =? 1) eqn:Hn;
      try (left; reflexivity);
      right; exists request_id; rewrite Hn; split; reflexivity.
  - left. run_view. rewrite Hb. destruct (sqlite_int bid_id); reflexivity.
Qed.

Lemma remove_request_all_or_nothing ctx id T plan :
  db_after (run (remove_request ctx id) T plan) = T \/
  db_after (run (remove_request ctx id) T plan) = delete_request id T.
Proof.
  unfold remove_request, customer_only.
  destruct (g_user ctx) as [u|]; [|left; reflexivity].
  destruct (negb _); [left; reflexivity|].
  destruct (select_request_status id T) as [s|] eqn:Hs.
  - destruct (String.eqb s "Complete") eqn:Hc.
    + left. run_view. rewrite Hs, Hc. reflexivity.
    + destruct plan as [|[] [|[] plan]];
        run_view; rewrite Hs, Hc;
        try (left; reflexivity); right; reflexivity.
  - left. run_view. rewrite Hs. destruct (sqlite_int id); reflexivity.
Qed.

Lemma create_request_all_or_nothing ctx form T plan :
  db_after (run (create_request ctx form) T plan) = T \/
  exists created_by collection delivery company,
    db_after (run (create_request ctx form) T plan) =
    insert_request created_by collection delivery
      (form_collection_address form) (form_delivery_address form)
      (form_pallets form) (form_weight form) company (now ctx) T.
Proof.
  unfold create_request, customer_only.
  destruct (g_user ctx) as [u|] eqn:Hu; [|left; reflexivity].
  destruct (negb _); [left; reflexivity|].
  destruct (method ctx); [left; reflexivity|].
  destruct (form_collection_date form) as [c|] eqn:Hc;
    [|left; run_view; rewrite ?Hu, ?Hc; reflexivity].
  destruct (form_delivery_date form) as [d|] eqn:Hd;
    [|left; run_view; rewrite ?Hu, ?Hc, ?Hd; reflexivity].
  destruct (forallb sqlite_int (some_int (form_weight form))) eqn:Hfit;
    [|left; run_view; rewrite ?Hu, ?Hc, ?Hd, ?Hfit; reflexivity].
  destruct plan as [|[] [|[] plan]];
    run_view; rewrite ?Hu, ?Hc, ?Hd, ?Hfit;
    try (left; reflexivity);
    right; exists (User.id u), c, d, (User.company u); reflexivity.
Qed.

Lemma update_request_all_or_nothing ctx id form T plan :
  db_after (run (update_request ctx id form) T plan) = T \/
  exists collection delivery id',
    db_after (run (update_request ctx id form) T plan) =
    update_request_fields (form_collection_address form)
      (form_delivery_address form) collection delivery (form_pallets form)
      (form_weight form) id' T.
Proof.
  unfold update_request, customer_only.
  destruct (g_user ctx) as [u|] eqn:Hu; [|left; reflexivity].
  destruct (negb _); [left; reflexivity|].
  destruct (find (fun r => Request.id r =? id) (request_table T))
    as [r|] eqn:Hr;
    [|left; run_view; rewrite Hr; destruct (sqlite_int id); reflexivity].
  destruct (method ctx); [left; run_view; rewrite Hr; reflexivity|].
  destruct (form_collection_date form) as [c|] eqn:Hc;
    [|left; run_view; rewrite ?Hr, ?Hc; reflexivity].
  destruct (form_delivery_date form) as [d|] eqn:Hd;
    [|left; run_view; rewrite ?Hr, ?Hc, ?Hd; reflexivity].
  destruct (forallb sqlite_int (some_int (form_weight form))) eqn:Hfit;
    [|left; run_view; rewrite ?Hr, ?Hc, ?Hd, ?Hfit; reflexivity].
  destruct plan as [|[] [|[] plan]];
    run_view; rewrite ?Hr, ?Hc, ?Hd, ?Hfit;
    try (left; reflexivity);
    right; exists c, d, (Request.id r); reflexivity.
Qed.

Lemma submit_bid_all_or_nothing ctx id form T plan :
  db_after (run (submit_bid ctx id form) T plan) = T \/
  exists created_by,
    db_after (run (submit_bid ctx id form) T plan) =
    update_request_status id "Bid(s) received"
      (insert_bid id created_by (form_bid_amount form) (now ctx) T).
Proof.
  unfold submit_bid, supplier_only.
  destruct (g_user ctx) as [u|] eqn:Hu; [|left; reflexivity].
  destruct (negb _); [left; reflexivity|].
  destruct (method ctx); [left; reflexivity|].
  destruct (forallb sqlite_int [id]) eqn:Hfit;
    [|left; run_view; rewrite Hu, Hfit; reflexivity].
  destruct plan as [|[] [|[] [|[] plan]]];
    run_view; rewrite Hu, Hfit;
    try (left; reflexivity);
    right; exists (User.id u); reflexivity.
Qed.

(** ** Counting rows *)

Section Counting.
Context {A : Type}.

Lemma count_map (q : A -> bool) (f : A -> A) (l : list A) :
  List.length (filter q (map f l)) =
  List.length (filter (fun a => q (f a)) l).
Proof.
  induction l as [|a l IH]; cbn [map filter]; [reflexivity|].
  destruct (q (f a)); cbn [List.length]; rewrite IH; reflexivity.
Qed.

Lemma count_ext_in (q q' : A -> bool) (l : list A) :
  (forall a, In a l -> q a = q' a) ->
  List.length (filter q l) = List.length (filter q' l).
Proof. intros H. rewrite (filter_ext_in q q' l H). reflexivity. Qed.

Lemma count_le (q q' : A -> bool) (l : list A) :
  (forall a, In a l -> q a = true -> q' a = true) ->
  (List.length (filter q l) <= List.length (filter q' l))%nat.
Proof.
  induction l as [|a l IH]; intros H; cbn [filter]; [reflexivity|].
  assert (IH' := IH (fun b Hb => H b (or_intror Hb))).
  destruct (q a) eqn:E.
  - rewrite (H a (or_introl eq_refl) E). cbn [List.length]. lia.
  - destruct (q' a); cbn [List.length]; lia.
Qed.

Lemma count_none (q : A -> bool) (l : list A) :
  (forall a, In a l -> q a = false) -> filter q l = [].
Proof.
  induction l as [|a l IH]; intros H; cbn [filter]; [reflexivity|].
  rewrite (H a (or_introl eq_refl)). apply IH.
  intros b Hb. apply H. right. exact Hb.
Qed.

(** Among rows with distinct keys, a predicate that holds exactly of the
    rows with the key of [a0] holds of one row. *)
Lemma count_unique (key : A -> Z) (q : A -> bool) (l : list A) (a0 : A) :
  NoDup (map key l) -> In a0 l ->
  (forall a, In a l -> q a = true <-> key a = key a0) ->
  List.length (filter q l) = 1%nat.
Proof.
  induction l as [|a l IH]; intros Hnd Hin Hq; [destruct Hin|].
  cbn [map] in Hnd. apply NoDup_cons_iff in Hnd. destruct Hnd as [Hfresh Hnd].
  cbn [filter]. destruct Hin as [->|Hin].
  - rewrite (proj2 (Hq a0 (or_introl eq_refl)) eq_refl).
    rewrite count_none; [reflexivity|].
    intros b Hb. destruct (q b) eqn:E; [|reflexivity].
    apply (Hq b (or_intror Hb)) in E. destruct Hfresh.
    rewrite <- E. apply in_map. exact Hb.
  - assert (Hne : key a <> key a0).
    { intros E. apply Hfresh. rewrite E. apply in_map. exact Hin. }
    destruct (q a) eqn:E.
    + apply (Hq a (or_introl eq_refl)) in E. contradiction.
    + apply IH; [exact Hnd|exact Hin|].
      intros b Hb. apply Hq. right. exact Hb.
Qed.

Lemma NoDup_key_eq (key : A -> Z) (l : list A) (a b : A) :
  NoDup (map key l) -> In a l -> In b l -> key a = key b -> a = b.
Proof.
  induction l as [|c l IH]; intros Hnd Ha Hb E; [destruct Ha|].
  cbn [map] in Hnd. apply NoDup_cons_iff in Hnd. destruct Hnd as [Hfresh Hnd].
  destruct Ha as [->|Ha], Hb as [->|Hb].
  - reflexivity.
  - destruct Hfresh. rewrite E. apply in_map. exact Hb.
  - destruct Hfresh. rewrite <- E. apply in_map. exact Ha.
  - apply IH; assumption.
Qed.
End Counting.

Lemma next_id_fresh (ids : list Z) : ~ In (next_id ids) ids.
Proof.
  assert (H : forall x, In x ids -> x < next_id ids).
  { unfold next_id. induction ids as [|y ids IH]; intros x Hx; [destruct Hx|].
    cbn [fold_right]. destruct Hx as [->|Hx]; [lia|].
    specialize (IH x Hx). lia. }
  intros Hin. specialize (H _ Hin). lia.
Qed.

(** ** The invariant of the lifecycle *)

Lemma lifecycle_inv_initial users : lifecycle_inv (initial users).
Proof.
  split.
  - constructor.
  - intros request_id. unfold count_accepted_bids. cbn. lia.
  - intros r [].
Qed.

(** A write that leaves the bids alone and completes no request. *)
Lemma lifecycle_inv_requests_only T T' :
  bid_table T' = bid_table T ->
  (forall r', In r' (request_table T') ->
              Request.request_status r' = "Complete" ->
              exists r, In r (request_table T) /\
                        Request.id r = Request.id r' /\
                        Request.request_status r = "Complete") ->
  lifecycle_inv T -> lifecycle_inv T'.
Proof.
  intros Hb Hr [Hids Hacc Hcomp]. split.
  - rewrite Hb. exact Hids.
  - intros request_id. unfold count_accepted_bids. rewrite Hb.
    apply Hacc.
  - intros r' Hin Hst. destruct (Hr r' Hin Hst) as [r [Hin0 [Hid Hst0]]].
    unfold count_accepted_bids, count_active_bids. rewrite Hb, <- Hid.
    apply Hcomp; assumption.
Qed.

Lemma lifecycle_inv_insert_request cb c d ca da p w co cd T :
  lifecycle_inv T -> lifecycle_inv (insert_request cb c d ca da p w co cd T).
Proof.
  apply lifecycle_inv_requests_only; [reflexivity|].
  intros r'. unfold insert_request. cbn [with_requests request_table].
  rewrite in_app_iff. intros [Hin|[<-|[]]] Hst.
  - exists r'. auto.
  - discriminate Hst.
Qed.

Lemma lifecycle_inv_update_request_fields ca da c d p w id T :
  lifecycle_inv T -> lifecycle_inv (update_request_fields ca da c d p w id T).
Proof.
  apply lifecycle_inv_requests_only; [reflexivity|].
  intros r'. unfold update_request_fields. cbn [with_requests request_table].
  rewrite in_map_iff. intros [r [<- Hin]] Hst. exists r.
  split; [exact Hin|].
  destruct (Request.id r =? id); [|auto]. split; [reflexivity|exact Hst].
Qed.

Lemma lifecycle_inv_delete_request id T :
  lifecycle_inv T -> lifecycle_inv (delete_request id T).
Proof.
  apply lifecycle_inv_requests_only; [reflexivity|].
  intros r' Hin Hst. apply delete_request_rows in Hin. exists r'.
  split; [exact (proj1 Hin)|]. auto.
Qed.

Section BidRows.
Variable l : list Bid.t.
Variable b0 : Bid.t.
Hypothesis ids_distinct : NoDup (map Bid.id l).
Hypothesis b0_in : In b0 l.

Lemma other_request_other_id request_id b :
  In b l -> Bid.request_id b = request_id ->
  request_id <> Bid.request_id b0 -> (Bid.id b =? Bid.id b0) = false.
Proof.
  intros Hb Hr Hne. apply Z.eqb_neq. intros E.
  apply Hne. rewrite <- Hr.
  rewrite (NoDup_key_eq Bid.id l b b0 ids_distinct Hb b0_in E). reflexivity.
Qed.

Lemma accepted_rows_other_request p request_id :
  request_id <> Bid.request_id b0 ->
  List.length (filter (bid_with p request_id)
                 (map (accepted_bid_row (Bid.request_id b0) (Bid.id b0)) l)) =
  List.length (filter (bid_with p request_id) l).
Proof.
  intros Hne. rewrite count_map. apply count_ext_in. intros b Hb.
  unfold bid_with, accepted_bid_row.
  destruct (Bid.request_id b =? request_id) eqn:E.
  - apply Z.eqb_eq in E.
    rewrite (other_request_other_id request_id b Hb E Hne).
    assert (E' : (Bid.request_id b =? Bid.request_id b0) = false)
      by (apply Z.eqb_neq; congruence).
    rewrite E'. apply Z.eqb_eq in E. rewrite E. reflexivity.
  - rewrite andb_false_r.
    destruct (Bid.id b =? Bid.id b0);
      [|destruct (Bid.request_id b =? Bid.request_id b0)];
      cbn [Bid.request_id Bid.set_status]; rewrite ?E;
      apply andb_false_r.
Qed.

Lemma accepted_rows_same_request p :
  p "Accepted" = true -> p "Rejected" = false ->
  List.length (filter (bid_with p (Bid.request_id b0))
                 (map (accepted_bid_row (Bid.request_id b0) (Bid.id b0)) l)) =
  1%nat.
Proof.
  intros Hacc Hrej. rewrite count_map.
  apply (count_unique Bid.id _ l b0 ids_distinct b0_in).
  intros b Hb. unfold bid_with, accepted_bid_row. split.
  - destruct (Bid.id b =? Bid.id b0) eqn:E; [intros _; apply Z.eqb_eq, E|].
    destruct (Bid.request_id b =? Bid.request_id b0) eqn:E'.
    + cbn [Bid.bid_status Bid.set_status]. rewrite Hrej. discriminate.
    + rewrite E', andb_false_r. discriminate.
  - intros E.
    rewrite (NoDup_key_eq Bid.id l b b0 ids_distinct Hb b0_in E).
    rewrite Z.eqb_refl. cbn [Bid.bid_status Bid.request_id Bid.set_status].
    rewrite Hacc, Z.eqb_refl. reflexivity.
Qed.

Lemma rejected_rows_other_request p request_id :
  request_id <> Bid.request_id b0 ->
  List.length (filter (bid_with p request_id)
                 (map (rejected_bid_row (Bid.id b0)) l)) =
  List.length (filter (bid_with p request_id) l).
Proof.
  intros Hne. rewrite count_map. apply count_ext_in. intros b Hb.
  unfold bid_with, rejected_bid_row.
  destruct (Bid.request_id b =? request_id) eqn:E.
  - apply Z.eqb_eq in E.
    rewrite (other_request_other_id request_id b Hb E Hne).
    apply Z.eqb_eq in E. rewrite E. reflexivity.
  - rewrite andb_false_r.
    destruct (Bid.id b =? Bid.id b0);
      cbn [Bid.request_id Bid.set_status]; rewrite ?E;
      apply andb_false_r.
Qed.
End BidRows.

Lemma rejected_rows_accepted_le bid_id request_id l :
  (List.length (filter (accepted_bid request_id)
                  (map (rejected_bid_row bid_id) l)) <=
   List.length (filter (accepted_bid request_id) l))%nat.
Proof.
  rewrite count_map. apply count_le. intros b _.
  unfold rejected_bid_row.
  destruct (Bid.id b =? bid_id); [|auto].
  unfold accepted_bid. cbn [Bid.bid_status Bid.set_status].
  discriminate.
Qed.

Lemma map_bid_ids (f : Bid.t -> Bid.t) (l : list Bid.t) :
  (forall b, Bid.id (f b) = Bid.id b) ->
  map Bid.id (map f l) = map Bid.id l.
Proof. intros H. rewrite map_map. apply map_ext. exact H. Qed.

Lemma accepted_bid_row_id request_id bid_id b :
  Bid.id (accepted_bid_row request_id bid_id b) = Bid.id b.
Proof.
  unfold accepted_bid_row.
  destruct (Bid.id b =? bid_id); [reflexivity|].
  destruct (Bid.request_id b =? request_id); reflexivity.
Qed.

Lemma rejected_bid_row_id bid_id b :
  Bid.id (rejected_bid_row bid_id b) = Bid.id b.
Proof.
  unfold rejected_bid_row. destruct (Bid.id b =? bid_id); reflexivity.
Qed.

Lemma lifecycle_inv_submit id created_by amount created T :
  lifecycle_inv T ->
  lifecycle_inv (update_request_status id "Bid(s) received"
                   (insert_bid id created_by amount created T)).
Proof.
  intros [Hids Hacc Hcomp].
  set (new := Bid.mk (next_id (map Bid.id (bid_table T))) id created_by
                     created amount default_bid_status).
  assert (Hbids : bid_table (update_request_status id "Bid(s) received"
                               (insert_bid id created_by amount created T))
                  = bid_table T ++ [new]) by reflexivity.
  split.
  - rewrite Hbids, map_app. cbn [map].
    apply (Permutation_NoDup (Permutation_cons_append _ _)).
    constructor; [apply next_id_fresh|exact Hids].
  - intros request_id. unfold count_accepted_bids.
    rewrite Hbids, filter_app. cbn [filter].
    replace (accepted_bid request_id new) with false by reflexivity.
    rewrite app_nil_r. apply Hacc.
  - intros r'. cbn [update_request_status insert_bid with_requests with_bids
                    request_table].
    rewrite in_map_iff. intros [r [<- Hin]].
    destruct (Request.id r =? id) eqn:E; [discriminate|].
    intros Hst. destruct (Hcomp r Hin Hst) as [H1 H2].
    unfold count_accepted_bids, count_active_bids in *.
    rewrite Hbids, !filter_app. cbn [filter].
    replace (accepted_bid (Request.id r) new) with false by reflexivity.
    assert (Hnew : active_bid (Request.id r) new = false).
    { unfold active_bid, new. cbn [Bid.request_id].
      rewrite Z.eqb_sym, E. apply andb_false_r. }
    rewrite Hnew, !app_nil_r. auto.
Qed.

Lemma lifecycle_inv_accept bid_id request_id T :
  select_bid_request_id bid_id T = Some request_id ->
  lifecycle_inv T ->
  lifecycle_inv (reject_other_bids request_id bid_id
                   (update_bid_status bid_id "Accepted"
                      (update_request_status request_id "Complete" T))).
Proof.
  intros Hb [Hids Hacc Hcomp].
  pose proof (accept_bid_bid_rows _ _ _ Hb) as Hrows.
  destruct (select_bid_request_id_Some _ _ _ Hb) as [b0 [Hin0 [<- <-]]].
  assert (Hone : forall p, p "Accepted" = true -> p "Rejected" = false ->
            List.length (filter (bid_with p (Bid.request_id b0))
              (map (accepted_bid_row (Bid.request_id b0) (Bid.id b0))
                   (bid_table T))) = 1%nat)
    by (intros p; apply accepted_rows_same_request; assumption).
  assert (Hsame : forall p request_id, request_id <> Bid.request_id b0 ->
            List.length (filter (bid_with p request_id)
              (map (accepted_bid_row (Bid.request_id b0) (Bid.id b0))
                   (bid_table T))) =
            List.length (filter (bid_with p request_id) (bid_table T)))
    by (intros p rid; apply accepted_rows_other_request; assumption).
  split.
  - rewrite Hrows, map_bid_ids; [exact Hids|].
    intros b. apply accepted_bid_row_id.
  - intros request_id. unfold count_accepted_bids. rewrite Hrows.
    destruct (Z.eq_dec request_id (Bid.request_id b0)) as [->|Hne].
    + change (accepted_bid (Bid.request_id b0))
        with (bid_with (fun s => String.eqb s "Accepted") (Bid.request_id b0)).
      rewrite Hone by reflexivity. lia.
    + change (accepted_bid request_id)
        with (bid_with (fun s => String.eqb s "Accepted") request_id).
      rewrite Hsame by exact Hne. apply Hacc.
  - intros r'. unfold count_accepted_bids, count_active_bids.
    rewrite Hrows.
    cbn [reject_other_bids update_bid_status update_request_status
         with_requests with_bids request_table].
    rewrite in_map_iff. intros [r [<- Hin]] Hst.
    change (accepted_bid ?x)
      with (bid_with (fun s => String.eqb s "Accepted") x).
    change (active_bid ?x)
      with (bid_with (fun s => negb (String.eqb s "Rejected")) x).
    destruct (Request.id r =? Bid.request_id b0) eqn:E.
    + apply Z.eqb_eq in E. cbn [Request.id Request.set_status].
      rewrite E, !Hone by reflexivity. split; reflexivity.
    + apply Z.eqb_neq in E. rewrite !Hsame by exact E.
      apply Hcomp; assumption.
Qed.

Lemma lifecycle_inv_reject bid_id request_id T :
  select_bid_request_id bid_id T = Some request_id ->
  lifecycle_inv T ->
  lifecycle_inv (if count_active_bids request_id T =? 1
                 then update_request_status request_id "Awaiting bids"
                        (update_bid_status bid_id "Rejected" T)
                 else update_bid_status bid_id "Rejected" T).
Proof.
  intros Hb [Hids Hacc Hcomp].
  destruct (select_bid_request_id_Some _ _ _ Hb) as [b0 [Hin0 [<- <-]]].
  set (T' := if count_active_bids (Bid.request_id b0) T =? 1
             then update_request_status (Bid.request_id b0) "Awaiting bids"
                    (update_bid_status (Bid.id b0) "Rejected" T)
             else update_bid_status (Bid.id b0) "Rejected" T).
  assert (Hrows : bid_table T'
                  = map (rejected_bid_row (Bid.id b0)) (bid_table T))
    by (unfold T'; destruct (_ =? 1); reflexivity).
  assert (Hsame : forall p request_id, request_id <> Bid.request_id b0 ->
            List.length (filter (bid_with p request_id)
              (map (rejected_bid_row (Bid.id b0)) (bid_table T))) =
            List.length (filter (bid_with p request_id) (bid_table T)))
    by (intros p rid; apply rejected_rows_other_request; assumption).
  assert (Hkeep : forall r, In r (request_table T') ->
            Request.request_status r = "Complete" ->
            In r (request_table T) /\ Request.id r <> Bid.request_id b0).
  { intros r' Hin Hst. unfold T' in Hin.
    destruct (count_active_bids (Bid.request_id b0) T =? 1) eqn:En.
    - cbn [update_request_status update_bid_status with_requests with_bids
           request_table] in Hin.
      apply in_map_iff in Hin. destruct Hin as [r [<- Hin]].
      destruct (Request.id r =? Bid.request_id b0) eqn:E;
        [discriminate|].
      apply Z.eqb_neq in E. auto.
    - split; [exact Hin|]. intros E.
      destruct (Hcomp r' Hin Hst) as [_ H1]. rewrite E in H1.
      rewrite H1 in En. discriminate. }
  split.
  - rewrite Hrows, map_bid_ids; [exact Hids|].
    intros b. apply rejected_bid_row_id.
  - intros request_id. unfold count_accepted_bids. rewrite Hrows.
    pose proof (rejected_rows_accepted_le (Bid.id b0) request_id (bid_table T)).
    specialize (Hacc request_id). unfold count_accepted_bids in Hacc. lia.
  - intros r Hin Hst. destruct (Hkeep r Hin Hst) as [Hin' Hne].
    unfold count_accepted_bids, count_active_bids. rewrite Hrows.
    change (accepted_bid ?x)
      with (bid_with (fun s => String.eqb s "Accepted") x).
    change (active_bid ?x)
      with (bid_with (fun s => negb (String.eqb s "Rejected")) x).
    rewrite !Hsame by exact Hne. apply Hcomp; assumption.
Qed.

(** Every call keeps the invariant, whoever makes it and whatever
    fails. *)
Lemma lifecycle_inv_step T c :
  lifecycle_inv T -> lifecycle_inv (step T c).
Proof.
  intros Hinv. unfold step. destruct c as [ctx op plan].
  cbn [call_ctx call_op call_faults].
  destruct op as [form|id form|id|id form|bid_id|bid_id]; cbn [view_of].
  - destruct (create_request_all_or_nothing ctx form T plan)
      as [->|(cb & c & d & co & ->)]; [exact Hinv|].
    apply lifecycle_inv_insert_request. exact Hinv.
  - destruct (update_request_all_or_nothing ctx id form T plan)
      as [->|(c & d & id' & ->)]; [exact Hinv|].
    apply lifecycle_inv_update_request_fields. exact Hinv.
  - destruct (remove_request_all_or_nothing ctx id T plan) as [->| ->];
      [exact Hinv|].
    apply lifecycle_inv_delete_request. exact Hinv.
  - destruct (submit_bid_all_or_nothing ctx id form T plan)
      as [->|(cb & ->)]; [exact Hinv|].
    apply lifecycle_inv_submit. exact Hinv.
  - destruct (accept_bid_all_or_nothing ctx bid_id T plan)
      as [->|(request_id & Hb & ->)]; [exact Hinv|].
    apply lifecycle_inv_accept; assumption.
  - destruct (reject_bid_all_or_nothing ctx bid_id T plan)
      as [->|(request_id & Hb & ->)]; [exact Hinv|].
    apply lifecycle_inv_reject; assumption.
Qed.

Lemma lifecycle_inv_reachable T : reachable T -> lifecycle_inv T.
Proof.
  intros [users [cs ->]]. unfold run_calls.
  generalize (lifecycle_inv_initial users).
  generalize (initial users) as T0.
  induction cs as [|c cs IH]; intros T0 H0; cbn [fold_left]; [exact H0|].
  apply IH. apply lifecycle_inv_step. exact H0.
Qed.

(** ** Accepted bids in the reachable states *)

Lemma bid_after_accept_reachable : reachable bid_after_accept.
Proof.
  exists example_users.
  exists [no_faults customer1 (OpCreateRequest example_form);
          no_faults supplier1 (OpSubmitBid 1 (mkBidForm "120"));
          no_faults supplier3 (OpSubmitBid 1 (mkBidForm "110"));
          no_faults customer1 (OpAcceptBid 1);
          no_faults supplier3 (OpSubmitBid 1 (mkBidForm "90"))].
  reflexivity.
Qed.

(** C3, on the code: [bid_after_accept] is reached by create, two
    submits, accept of bid 1 and one more submit.  [submit_bid] does not
    test for Complete, as [remove_request] does, and puts request 1 back
    to "Bid(s) received" while bid 1 stays Accepted: the request has
    exactly one Accepted bid and is not Complete. *)
Theorem accepted_bid_outlives_complete :
  reachable bid_after_accept /\
  exists r, In r (request_table bid_after_accept) /\
            count_accepted_bids (Request.id r) bid_after_accept = 1 /\
            Request.request_status r = "Bid(s) received" /\
            ~ (Request.request_status r = "Complete" <->
               count_accepted_bids (Request.id r) bid_after_accept = 1).
Proof.
  split; [exact bid_after_accept_reachable|].
  exists (Request.mk 1 1 0 20001 20003 "Depot A, 1 Road, Leeds, UK, LS1"
                     "Depot B, 2 Road, York, UK, YO1" "4" (Some 800)
                     "company1" "Bid(s) received").
  split; [left; reflexivity|]. split; [reflexivity|].
  split; [reflexivity|].
  intros [_ H]. specialize (H eq_refl). discriminate H.
Qed.

(** X27. In every state reached from the empty one by calls to the six
    lifecycle views, by any callers and under any storage faults, every
    request has at most one Accepted bid, and a request whose status is
    Complete has exactly one. *)
Theorem reachable_accepted_bids T r :
  reachable T ->
  In r (request_table T) ->
  count_accepted_bids (Request.id r) T <= 1 /\
  (Request.request_status r = "Complete" ->
   count_accepted_bids (Request.id r) T = 1).
Proof.
  intros HT Hin. destruct (lifecycle_inv_reachable T HT) as [_ Hacc Hcomp].
  split; [apply Hacc|]. intros Hst. apply (Hcomp r Hin Hst).
Qed.

Lemma bid_1_accepted_reachable : reachable bid_1_accepted.
Proof.
  exists example_users.
  exists [no_faults customer1 (OpCreateRequest example_form);
          no_faults supplier1 (OpSubmitBid 1 (mkBidForm "120"));
          no_faults supplier3 (OpSubmitBid 1 (mkBidForm "110"));
          no_faults customer1 (OpAcceptBid 1)].
  reflexivity.
Defined.

Lemma reachable_accepted_bids_witness :
  In request_1_complete (request_table bid_1_accepted) /\
  count_accepted_bids 1 bid_1_accepted <= 1 /\
  count_accepted_bids 1 bid_1_accepted = 1.
Proof.
  assert (Hin : In request_1_complete (request_table bid_1_accepted))
    by (left; reflexivity).
  destruct (reachable_accepted_bids bid_1_accepted request_1_complete
              bid_1_accepted_reachable Hin) as [Hle Heq].
  split; [exact Hin|]. split; [exact Hle|exact (Heq eq_refl)].
Defined.

(** ** Submitting a bid *)

Lemma submit_bid_run ctx u id form T :
  g_user ctx = Some u ->
  User.user_type u = "Supplier" ->
  method ctx = POST ->
  sqlite_int id = true ->
  run (submit_bid ctx id form) T [] =
  mkOutcome (Ok (Redirect "supplier_routes.my_bids" None))
    (update_request_status id "Bid(s) received"
       (insert_bid id (User.id u) (form_bid_amount form) (now ctx) T))
    [].
Proof.
  intros Hu Ht Hm Hfit. unfold submit_bid, supplier_only.
  rewrite Hu, Ht, Hm. cbn [String.eqb Ascii.eqb Bool.eqb negb].
  run_view. cbn [forallb]. rewrite Hu, Hfit. reflexivity.
Qed.

Lemma count_active_bids_app request_id T b :
  Z.of_nat (List.length (filter (active_bid request_id) (bid_table T ++ [b])))
  = count_active_bids request_id T
    + (if active_bid request_id b then 1 else 0).
Proof.
  unfold count_active_bids. rewrite filter_app, length_app. cbn [filter].
  destruct (active_bid request_id b); cbn [List.length]; lia.
Qed.

(** X1. A POST to [submit_bid] by a supplier under a request id that
    SQLite can bind, the storage working: one Pending bid of the caller is
    appended under an id no bid had, no existing bid row changes, every
    request row with the given id is set to "Bid(s) received" whatever its
    status was, no other request row changes, and the request has one more
    bid that is not Rejected.  The view does not look the request up: when
    no request has the id the bid is inserted all the same and the request
    table stays as it was. *)
Theorem submit_bid_effect ctx u id form T :
  g_user ctx = Some u ->
  User.user_type u = "Supplier" ->
  method ctx = POST ->
  sqlite_int id = true ->
  let T' := db_after (run (submit_bid ctx id form) T []) in
  returned (run (submit_bid ctx id form) T []) =
    Ok (Redirect "supplier_routes.my_bids" None) /\
  bid_table T' = bid_table T ++ [submitted_bid ctx u id form T] /\
  ~ In (Bid.id (submitted_bid ctx u id form T)) (map Bid.id (bid_table T)) /\
  (forall r, In r (request_table T') -> Request.id r = id ->
             Request.request_status r = "Bid(s) received") /\
  (forall r, In r (request_table T) -> Request.id r <> id ->
             In r (request_table T')) /\
  (select_request_status id T = None ->
   request_table T' = request_table T) /\
  count_active_bids id T' = count_active_bids id T + 1.
Proof.
  intros Hu Ht Hm Hfit T'. subst T'.
  rewrite (submit_bid_run _ _ _ _ _ Hu Ht Hm Hfit). cbn [db_after returned].
  split; [reflexivity|]. split; [reflexivity|].
  split; [apply next_id_fresh|].
  split; [intros r; apply update_request_status_all|].
  split.
  { intros r Hin Hne.
    cbn [update_request_status insert_bid with_requests with_bids
         request_table].
    apply in_map_iff. exists r. split; [|exact Hin].
    apply Z.eqb_neq in Hne. rewrite Hne. reflexivity. }
  split.
  { intros Hnone.
    cbn [update_request_status insert_bid with_requests with_bids
         request_table].
    apply map_id_on. intros r Hin.
    destruct (Request.id r =? id) eqn:E; [|reflexivity].
    apply Z.eqb_eq in E.
    destruct (proj1 (select_request_status_None id T) Hnone r Hin E). }
  unfold count_active_bids at 1.
  cbn [update_request_status insert_bid with_requests with_bids bid_table].
  rewrite count_active_bids_app. unfold active_bid.
  cbn [Bid.bid_status Bid.request_id default_bid_status].
  rewrite Z.eqb_refl. reflexivity.
Qed.

(** [supplier3] bids on request 1 of [one_bid], and on request 9, which
    does not exist. *)
Lemma submit_bid_effect_witness :
  count_active_bids 1
    (db_after (run (submit_bid (post_by supplier3) 1 (mkBidForm "110"))
                 one_bid [])) = 2 /\
  request_table
    (db_after (run (submit_bid (post_by supplier3) 9 (mkBidForm "110"))
                 one_bid [])) = request_table one_bid /\
  count_active_bids 9
    (db_after (run (submit_bid (post_by supplier3) 9 (mkBidForm "110"))
                 one_bid [])) = 1.
Proof.
  destruct (submit_bid_effect (post_by supplier3) supplier3 1
              (mkBidForm "110") one_bid eq_refl eq_refl eq_refl eq_refl)
    as (_ & _ & _ & _ & _ & _ & H1).
  destruct (submit_bid_effect (post_by supplier3) supplier3 9
              (mkBidForm "110") one_bid eq_refl eq_refl eq_refl eq_refl)
    as (_ & _ & _ & _ & _ & H9 & H9').
  split; [rewrite H1; reflexivity|].
  split; [apply H9; reflexivity|rewrite H9'; reflexivity].
Defined.

(** ** Faults, roles and methods, for all six views *)

(** X2. Whatever the caller, the view and the storage faults, a call
    leaves the committed tables as they were or as the same call leaves
    them when nothing fails: a fault never commits part of a view's
    writes. *)
Theorem call_all_or_nothing (T : Tables) (c : call) :
  step T c = T \/
  step T c = step T (mkCall (call_ctx c) (call_op c) []).
Proof.
  destruct c as [ctx op plan]. unfold step.
  cbn [call_ctx call_op call_faults].
  destruct op as [form|id form|id|id form|bid_id|bid_id]; cbn [view_of].
  - unfold create_request, customer_only.
    destruct (g_user ctx) as [u|] eqn:Hu; [|left; reflexivity].
    destruct (negb _); [left; reflexivity|].
    destruct (method ctx); [left; reflexivity|].
    destruct (form_collection_date form) as [cd|];
      [|left; run_view; rewrite ?Hu; reflexivity].
    destruct (form_delivery_date form) as [dd|];
      [|left; run_view; rewrite ?Hu; reflexivity].
    destruct (forallb sqlite_int (some_int (form_weight form))) eqn:Hfit;
      [|left; run_view; rewrite ?Hu, ?Hfit; reflexivity].
    destruct plan as [|[] [|[] plan]]; run_view; rewrite ?Hu, ?Hfit;
      try (left; reflexivity); right; reflexivity.
  - unfold update_request, customer_only.
    destruct (g_user ctx) as [u|] eqn:Hu; [|left; reflexivity].
    destruct (negb _); [left; reflexivity|].
    destruct (find (fun r => Request.id r =? id) (request_table T))
      as [r|] eqn:Hr;
      [|left; run_view; rewrite Hr; destruct (sqlite_int id); reflexivity].
    destruct (method ctx); [left; run_view; rewrite Hr; reflexivity|].
    destruct (form_collection_date form) as [cd|];
      [|left; run_view; rewrite ?Hr; reflexivity].
    destruct (form_delivery_date form) as [dd|];
      [|left; run_view; rewrite ?Hr; reflexivity].
    destruct (forallb sqlite_int (some_int (form_weight form))) eqn:Hfit;
      [|left; run_view; rewrite ?Hr, ?Hfit; reflexivity].
    destruct plan as [|[] [|[] plan]]; run_view; rewrite ?Hr, ?Hfit;
      try (left; reflexivity); right; reflexivity.
  - unfold remove_request, customer_only.
    destruct (g_user ctx) as [u|]; [|left; reflexivity].
    destruct (negb _); [left; reflexivity|].
    destruct (select_request_status id T) as [s|] eqn:Hs;
      [|left; run_view; rewrite Hs; destruct (sqlite_int id); reflexivity].
    destruct (String.eqb s "Complete") eqn:Hc;
      [left; run_view; rewrite Hs, Hc; reflexivity|].
    destruct plan as [|[] [|[] plan]]; run_view; rewrite Hs, Hc;
      try (left; reflexivity); right; reflexivity.
  - unfold submit_bid, supplier_only.
    destruct (g_user ctx) as [u|] eqn:Hu; [|left; reflexivity].
    destruct (negb _); [left; reflexivity|].
    destruct (method ctx); [left; reflexivity|].
    destruct (forallb sqlite_int [id]) eqn:Hfit;
      [|left; run_view; rewrite Hu, Hfit; reflexivity].
    destruct plan as [|[] [|[] [|[] plan]]]; run_view; rewrite Hu, Hfit;
      try (left; reflexivity); right; reflexivity.
  - unfold accept_bid, customer_only.
    destruct (g_user ctx) as [u|]; [|left; reflexivity].
    destruct (negb _); [left; reflexivity|].
    destruct (select_bid_request_id bid_id T) as [request_id|] eqn:Hb;
      [|left; run_view; rewrite Hb; destruct (sqlite_int bid_id);
        reflexivity].
    destruct plan as [|[] [|[] [|[] [|[] plan]]]]; run_view; rewrite Hb;
      try (left; reflexivity); right; reflexivity.
  - unfold reject_bid, customer_only.
    destruct (g_user ctx) as [u|]; [|left; reflexivity].
    destruct (negb _); [left; reflexivity|].
    destruct (select_bid_request_id bid_id T) as [request_id|] eqn:Hb;
      [|left; run_view; rewrite Hb; destruct (sqlite_int bid_id);
        reflexivity].
    destruct plan as [|[] [|[] [|[] plan]]]; run_view; rewrite Hb;
      destruct (count_active_bids request_id T =? 1);
      try (left; reflexivity); right; reflexivity.
Qed.

Lemma wrong_role_run ctx u op T plan :
  g_user ctx = Some u ->
  User.user_type u <> required_role op ->
  run (view_of ctx op) T plan =
  mkOutcome (Ok (Redirect "auth.login" None)) T [].
Proof.
  intros Hu Hrole.
  destruct op; cbn [view_of required_role] in *;
    unfold create_request, update_request, remove_request, submit_bid,
           accept_bid, reject_bid, customer_only, supplier_only;
    rewrite Hu;
    match goal with
    | |- context [String.eqb (User.user_type u) ?role] =>
        destruct (String.eqb_spec (User.user_type u) role) as [E|_];
        [contradiction|reflexivity]
    end.
Qed.

Lemma anonymous_run ctx op T plan :
  g_user ctx = None ->
  run (view_of ctx op) T plan = mkOutcome (Raise TypeError) T [].
Proof.
  intros Hu.
  destruct op; cbn [view_of];
    unfold create_request, update_request, remove_request, submit_bid,
           accept_bid, reject_bid, customer_only, supplier_only;
    rewrite Hu; reflexivity.
Qed.

(** X3. The decorators are the first thing every lifecycle view runs.  A
    logged-in caller whose [user_type] is not the one the view asks for
    (Supplier for [submit_bid], Customer for the other five) is redirected
    to the login page, nothing is committed and nothing flashed; with
    nobody logged in the decorator raises on [g.user["user_type"]] instead
    of redirecting, again with nothing committed. *)
Theorem decorators_refuse ctx op T plan :
  match g_user ctx with
  | Some u =>
      User.user_type u <> required_role op ->
      run (view_of ctx op) T plan =
      mkOutcome (Ok (Redirect "auth.login" None)) T []
  | None =>
      run (view_of ctx op) T plan = mkOutcome (Raise TypeError) T []
  end.
Proof.
  destruct (g_user ctx) as [u|] eqn:Hu.
  - intros Hrole. apply (wrong_role_run ctx u); assumption.
  - apply anonymous_run. exact Hu.
Qed.

(** [customer1] cannot bid, [supplier1] cannot accept. *)
Lemma decorators_refuse_witness :
  step two_bids (no_faults customer1 (OpSubmitBid 1 (mkBidForm "1"))) = two_bids /\
  step two_bids (no_faults supplier1 (OpAcceptBid 1)) = two_bids.
Proof.
  pose proof (decorators_refuse (post_by customer1)
                (OpSubmitBid 1 (mkBidForm "1")) two_bids []) as H1.
  pose proof (decorators_refuse (post_by supplier1) (OpAcceptBid 1)
                two_bids []) as H2.
  cbn [post_by g_user] in H1, H2. unfold step, no_faults.
  cbn [call_ctx call_op call_faults].
  split; [rewrite H1|rewrite H2]; try reflexivity; discriminate.
Defined.

(** X4. The three views with a form write on POST only: a GET to
    [create_request], [update_request] or [submit_bid] commits nothing and
    flashes nothing, whoever asks.  The three views without a form do not
    read the method: [remove_request], [accept_bid] and [reject_bid] do to
    a GET exactly what they do to a POST. *)
Theorem method_of_request ctx T plan :
  (method ctx = GET ->
   forall id rform bform,
     (db_after (run (create_request ctx rform) T plan) = T /\
      messages (run (create_request ctx rform) T plan) = []) /\
     (db_after (run (update_request ctx id rform) T plan) = T /\
      messages (run (update_request ctx id rform) T plan) = []) /\
     (db_after (run (submit_bid ctx id bform) T plan) = T /\
      messages (run (submit_bid ctx id bform) T plan) = [])) /\
  (forall m id,
     let ctx' := mkCtx (g_user ctx) m (today ctx) (now ctx) in
     run (remove_request ctx' id) T plan = run (remove_request ctx id) T plan /\
     run (accept_bid ctx' id) T plan = run (accept_bid ctx id) T plan /\
     run (reject_bid ctx' id) T plan = run (reject_bid ctx id) T plan).
Proof.
  split.
  - intros Hm id rform bform.
    unfold create_request, update_request, submit_bid, customer_only,
           supplier_only.
    rewrite Hm. destruct (g_user ctx) as [u|]; [|repeat split].
    destruct (negb (String.eqb (User.user_type u) "Customer"));
      destruct (negb (String.eqb (User.user_type u) "Supplier"));
      run_view;
      destruct (find (fun r => Request.id r =? id) (request_table T));
      destruct (sqlite_int id);
      repeat split.
  - intros m id ctx'. repeat split.
Qed.

(** A GET by [customer1] creates nothing. *)
Lemma method_of_request_witness :
  db_after (run (create_request (mkCtx (Some customer1) GET 20000 0)
                   example_form) two_bids []) = two_bids.
Proof.
  destruct (method_of_request (mkCtx (Some customer1) GET 20000 0)
              two_bids []) as [Hget _].
  destruct (Hget eq_refl 1 example_form (mkBidForm "1")) as [[H _] _].
  exact H.
Defined.

(** ** Creating and changing a request *)

Lemma find_app_fresh {A} (p : A -> bool) (l : list A) (a : A) :
  (forall x, In x l -> p x = false) -> p a = true ->
  find p (l ++ [a]) = Some a.
Proof.
  intros Hl Ha. induction l as [|x l IH]; cbn [app find].
  - rewrite Ha. reflexivity.
  - rewrite (Hl x (or_introl eq_refl)). apply IH.
    intros y Hy. apply Hl. right. exact Hy.
Qed.

(** X5. A POST to [create_request] by a customer whose two dates parse
    and whose weight, when there is one, is an integer SQLite can bind,
    the storage working: the row is appended under an id no request had,
    with the posted fields as they are (no date is compared with today or
    with the other date), the caller as creator, the caller's company and
    status "Awaiting bids"; the existing request rows and the bids are
    untouched, and the new id reads back as "Awaiting bids". *)
Theorem create_request_effect ctx u form collection delivery T :
  g_user ctx = Some u ->
  User.user_type u = "Customer" ->
  method ctx = POST ->
  form_collection_date form = Some collection ->
  form_delivery_date form = Some delivery ->
  forallb sqlite_int (some_int (form_weight form)) = true ->
  let new := created_request ctx u form collection delivery T in
  let T' := db_after (run (create_request ctx form) T []) in
  returned (run (create_request ctx form) T []) =
    Ok (Redirect "customer_routes.customer_requests" None) /\
  request_table T' = request_table T ++ [new] /\
  bid_table T' = bid_table T /\
  ~ In (Request.id new) (map Request.id (request_table T)) /\
  select_request_status (Request.id new) T' = Some "Awaiting bids" /\
  count_active_bids (Request.id new) T' = count_active_bids (Request.id new) T.
Proof.
  intros Hu Ht Hm Hc Hd Hfit new T'. subst new T'.
  rewrite (create_request_run _ _ _ _ _ _ Hu Ht Hm Hc Hd Hfit).
  unfold created_request.
  cbn [db_after returned with_requests request_table bid_table Request.id].
  split; [reflexivity|]. split; [reflexivity|]. split; [reflexivity|].
  split; [apply next_id_fresh|]. split; [|reflexivity].
  unfold select_request_status. cbn [request_table with_requests].
  rewrite find_app_fresh.
  - reflexivity.
  - intros r Hin. apply Z.eqb_neq. intros E.
    apply (next_id_fresh (map Request.id (request_table T))).
    rewrite <- E. apply in_map. exact Hin.
  - apply Z.eqb_refl.
Qed.

(** [customer3] posts a second request into [two_bids]: it gets id 2. *)
Lemma create_request_effect_witness :
  select_request_status 2
    (db_after (run (create_request (post_by customer3) example_form)
                 two_bids [])) = Some "Awaiting bids" /\
  bid_table (db_after (run (create_request (post_by customer3) example_form)
                         two_bids [])) = bid_table two_bids.
Proof.
  destruct (create_request_effect (post_by customer3) customer3 example_form
              20001 20003 two_bids eq_refl eq_refl eq_refl eq_refl eq_refl
              eq_refl)
    as (_ & _ & Hb & _ & Hs & _).
  split; [exact Hs|exact Hb].
Defined.

(** X6. A POST to [create_request] or to [update_request] (of a request
    that exists) by a customer with a date field that holds no date dies
    of AttributeError on [strftime], outside the [try]: nothing is
    committed, nothing is flashed, whatever the storage does. *)
Theorem missing_date_raises ctx id form T plan :
  is_customer ctx = true ->
  method ctx = POST ->
  form_collection_date form = None \/ form_delivery_date form = None ->
  run (create_request ctx form) T plan =
    mkOutcome (Raise AttributeError) T [] /\
  (select_request_status id T <> None ->
   run (update_request ctx id form) T plan =
     mkOutcome (Raise AttributeError) T []).
Proof.
  intros Hc Hm Hdate. unfold create_request, update_request.
  rewrite !(customer_only_pass _ _ Hc), Hm.
  assert (Hu : exists u, g_user ctx = Some u).
  { unfold is_customer in Hc. destruct (g_user ctx) as [u|];
      [exists u; reflexivity|discriminate]. }
  destruct Hu as [u Hu]. split.
  - run_view. rewrite Hu.
    destruct Hdate as [-> | ->];
      [|destruct (form_collection_date form)]; reflexivity.
  - intros Hex. unfold select_request_status in Hex.
    run_view.
    destruct (find (fun r => Request.id r =? id) (request_table T));
      [|destruct Hex; reflexivity].
    destruct Hdate as [-> | ->];
      [|destruct (form_collection_date form)]; reflexivity.
Qed.

Lemma missing_date_raises_witness :
  run (create_request (post_by customer1)
         (mkRequestForm "a" "b" "1" (Some 1) None (Some 20003)))
      two_bids [] = mkOutcome (Raise AttributeError) two_bids [].
Proof.
  exact (proj1 (missing_date_raises (post_by customer1) 1
                  (mkRequestForm "a" "b" "1" (Some 1) None (Some 20003))
                  two_bids [] eq_refl eq_refl (or_introl eq_refl))).
Defined.

Lemma update_request_run ctx id form collection delivery T :
  is_customer ctx = true ->
  method ctx = POST ->
  select_request_status id T <> None ->
  form_collection_date form = Some collection ->
  form_delivery_date form = Some delivery ->
  forallb sqlite_int (some_int (form_weight form)) = true ->
  run (update_request ctx id form) T [] =
  mkOutcome (Ok (Redirect "customer_routes.view_request" (Some id)))
    (update_request_fields (form_collection_address form)
       (form_delivery_address form) collection delivery (form_pallets form)
       (form_weight form) id T)
    [("Request updated successfully.", "success")].
Proof.
  intros Hc Hm Hex Hcd Hdd Hfit. unfold update_request.
  rewrite (customer_only_pass _ _ Hc), Hm, Hcd, Hdd.
  unfold select_request_status in Hex. run_view.
  destruct (find (fun r => Request.id r =? id) (request_table T))
    as [r|] eqn:Hr; [|destruct Hex; reflexivity].
  apply find_some in Hr. destruct Hr as [_ Hid]. apply Z.eqb_eq in Hid.
  rewrite Hid, Hfit. reflexivity.
Qed.

(** X7. [update_request] called by a customer.  When no request has the
    id, an id SQLite can bind, it raises the 404 of [customer_get_request]
    and commits nothing, on GET and POST alike and whatever the storage
    does.  A POST on a request that exists, with two dates and a weight
    that is absent or one SQLite can bind, the storage working, rewrites
    the six posted fields of the rows with that id and nothing else: the
    status reads as before (a Complete request is updated like any other,
    and stays Complete), every row keeps its id, creator, creation date
    and company, rows with another id and all bids are untouched. *)
Theorem update_request_cases ctx id form T :
  is_customer ctx = true ->
  (select_request_status id T = None ->
   sqlite_int id = true ->
   forall plan,
     run (update_request ctx id form) T plan =
     mkOutcome (Raise NotFound404) T []) /\
  (forall collection delivery,
     method ctx = POST ->
     select_request_status id T <> None ->
     form_collection_date form = Some collection ->
     form_delivery_date form = Some delivery ->
     forallb sqlite_int (some_int (form_weight form)) = true ->
     let T' := db_after (run (update_request ctx id form) T []) in
     returned (run (update_request ctx id form) T []) =
       Ok (Redirect "customer_routes.view_request" (Some id)) /\
     bid_table T' = bid_table T /\
     select_request_status id T' = select_request_status id T /\
     (forall r, In r (request_table T) ->
        exists r', In r' (request_table T') /\ same_request r r' /\
                   Request.request_status r' = Request.request_status r) /\
     (forall r, In r (request_table T) -> Request.id r <> id ->
                In r (request_table T')) /\
     (forall r', In r' (request_table T') -> Request.id r' = id ->
        Request.collection_date r' = collection /\
        Request.delivery_date r' = delivery /\
        Request.collection_address r' = form_collection_address form /\
        Request.delivery_address r' = form_delivery_address form /\
        Request.pallets r' = form_pallets form /\
        Request.weight r' = form_weight form)).
Proof.
  intros Hc. split.
  - intros Hnone Hfit plan. unfold update_request.
    rewrite (customer_only_pass _ _ Hc).
    unfold select_request_status in Hnone. run_view.
    destruct (find (fun r => Request.id r =? id) (request_table T));
      [discriminate|rewrite Hfit; reflexivity].
  - intros collection delivery Hm Hex Hcd Hdd Hfit T'. subst T'.
    rewrite (update_request_run _ _ _ _ _ _ Hc Hm Hex Hcd Hdd Hfit).
    cbn [db_after returned].
    set (f := fun r =>
                if Request.id r =? id
                then set_request_fields (form_collection_address form)
                       (form_delivery_address form) collection delivery
                       (form_pallets form) (form_weight form) r
                else r).
    assert (Hrows : request_table
                      (update_request_fields (form_collection_address form)
                         (form_delivery_address form) collection delivery
                         (form_pallets form) (form_weight form) id T)
                    = map f (request_table T)) by reflexivity.
    split; [reflexivity|]. split; [reflexivity|].
    split.
    { unfold select_request_status. rewrite Hrows, find_map_same.
      - destruct (find _ (request_table T)) as [r|]; [|reflexivity].
        cbn [option_map]. unfold f.
        destruct (Request.id r =? id); reflexivity.
      - intros r. unfold f.
        destruct (Request.id r =? id) eqn:E; [|exact E].
        cbn [Request.id set_request_fields]. exact E. }
    split.
    { intros r Hin. exists (f r). rewrite Hrows.
      split; [apply in_map; exact Hin|]. unfold f, same_request.
      destruct (Request.id r =? id); repeat split. }
    split.
    { intros r Hin Hne. rewrite Hrows. apply in_map_iff. exists r.
      split; [|exact Hin]. unfold f. apply Z.eqb_neq in Hne.
      rewrite Hne. reflexivity. }
    intros r'. rewrite Hrows, in_map_iff. intros [r [<- _]]. unfold f.
    destruct (Request.id r =? id) eqn:E.
    + intros _. repeat split.
    + apply Z.eqb_neq in E. intros H. contradiction.
Qed.

(** [customer1] changes the dates of request 1 after it is Complete;
    request 9 does not exist. *)
Lemma update_request_cases_witness :
  select_request_status 1
    (db_after (run (update_request (post_by customer1) 1 stale_form)
                 bid_1_accepted [])) = Some "Complete" /\
  run (update_request (post_by customer1) 9 stale_form) bid_1_accepted [] =
    mkOutcome (Raise NotFound404) bid_1_accepted [].
Proof.
  destruct (update_request_cases (post_by customer1) 1 stale_form
              bid_1_accepted eq_refl) as [_ Hpost].
  destruct (update_request_cases (post_by customer1) 9 stale_form
              bid_1_accepted eq_refl) as [Hnone _].
  split; [|exact (Hnone eq_refl eq_refl [])].
  destruct (Hpost 19999 19990 eq_refl) as (_ & _ & Hs & _);
    [discriminate|reflexivity|reflexivity|reflexivity|].
  rewrite Hs. reflexivity.
Defined.

(** ** Calls in sequence *)

Lemma accept_bid_tables request_id bid_id T :
  select_bid_request_id bid_id T = Some request_id ->
  reject_other_bids request_id bid_id
    (update_bid_status bid_id "Accepted"
       (update_request_status request_id "Complete" T))
  = mkTables (user_table T)
      (map (completed_request_row request_id) (request_table T))
      (map (accepted_bid_row request_id bid_id) (bid_table T)).
Proof.
  intros Hb. rewrite <- (accept_bid_bid_rows _ _ _ Hb). reflexivity.
Qed.

Lemma accepted_bid_row_twice request_id bid_id b :
  accepted_bid_row request_id bid_id (accepted_bid_row request_id bid_id b)
  = accepted_bid_row request_id bid_id b.
Proof.
  unfold accepted_bid_row.
  destruct (Bid.id b =? bid_id) eqn:E.
  - cbn [Bid.id Bid.set_status]. rewrite E. reflexivity.
  - destruct (Bid.request_id b =? request_id) eqn:E'.
    + cbn [Bid.id Bid.request_id Bid.set_status]. rewrite E, E'. reflexivity.
    + rewrite E, E'. reflexivity.
Qed.

Lemma completed_request_row_twice request_id r :
  completed_request_row request_id (completed_request_row request_id r)
  = completed_request_row request_id r.
Proof.
  unfold completed_request_row.
  destruct (Request.id r =? request_id) eqn:E.
  - cbn [Request.id Request.set_status]. rewrite E. reflexivity.
  - rewrite E. reflexivity.
Qed.

Lemma select_bid_request_id_rows (f : Bid.t -> Bid.t) bid_id T T' :
  (forall b, Bid.id (f b) = Bid.id b) ->
  (forall b, Bid.request_id (f b) = Bid.request_id b) ->
  bid_table T' = map f (bid_table T) ->
  select_bid_request_id bid_id T' = select_bid_request_id bid_id T.
Proof.
  intros Hid Hreq Hrows. unfold select_bid_request_id.
  rewrite Hrows, find_map_same.
  - destruct (find _ (bid_table T)) as [b|]; [|reflexivity].
    cbn [option_map]. rewrite Hreq. reflexivity.
  - intros b. rewrite Hid. reflexivity.
Qed.

Lemma accepted_bid_row_request_id request_id bid_id b :
  Bid.request_id (accepted_bid_row request_id bid_id b) = Bid.request_id b.
Proof.
  unfold accepted_bid_row.
  destruct (Bid.id b =? bid_id); [reflexivity|].
  destruct (Bid.request_id b =? request_id); reflexivity.
Qed.

(** X8. Accepting the same bid again changes nothing: a second
    [accept_bid] on the tables the first one left answers with the same
    redirect and commits the same tables. *)
Theorem accept_bid_idempotent ctx bid_id request_id T :
  is_customer ctx = true ->
  select_bid_request_id bid_id T = Some request_id ->
  run (accept_bid ctx bid_id)
      (db_after (run (accept_bid ctx bid_id) T [])) [] =
  run (accept_bid ctx bid_id) T [].
Proof.
  intros Hc Hb. rewrite (accept_bid_run _ _ _ _ Hc Hb). cbn [db_after].
  rewrite (accept_bid_tables _ _ _ Hb).
  set (T1 := mkTables _ _ _).
  assert (Hb1 : select_bid_request_id bid_id T1 = Some request_id).
  { rewrite <- Hb.
    apply (select_bid_request_id_rows (accepted_bid_row request_id bid_id)).
    - intros b. apply accepted_bid_row_id.
    - intros b. apply accepted_bid_row_request_id.
    - reflexivity. }
  rewrite (accept_bid_run _ _ _ _ Hc Hb1). f_equal.
  rewrite (accept_bid_tables _ _ _ Hb1). unfold T1.
  cbn [user_table request_table bid_table]. rewrite !map_map. f_equal.
  - apply map_ext. intros r. apply completed_request_row_twice.
  - apply map_ext. intros b. apply accepted_bid_row_twice.
Qed.

Lemma accept_bid_idempotent_witness :
  db_after (run (accept_bid (post_by customer1) 1) bid_1_accepted []) =
  bid_1_accepted.
Proof.
  pose proof (accept_bid_idempotent (post_by customer1) 1 1 two_bids
                eq_refl eq_refl) as H.
  apply (f_equal db_after) in H. exact H.
Defined.

Lemma rejected_rows_app_fresh bid_id l new :
  ~ In bid_id (map Bid.id l) -> Bid.id new = bid_id ->
  map (rejected_bid_row bid_id) (l ++ [new])
  = l ++ [Bid.set_status "Rejected" new].
Proof.
  intros Hfresh Hid. rewrite map_app. cbn [map]. f_equal.
  - apply map_id_on. intros b Hin. unfold rejected_bid_row.
    destruct (Bid.id b =? bid_id) eqn:E; [|reflexivity].
    apply Z.eqb_eq in E. destruct Hfresh. rewrite <- E.
    apply in_map. exact Hin.
  - unfold rejected_bid_row. rewrite Hid, Z.eqb_refl. reflexivity.
Qed.

(** X9. A bid submitted, under a request id SQLite can bind, and then
    rejected leaves the request with as many bids that are not Rejected
    as it had: when it had none the request is back in "Awaiting bids",
    when it had some it stays in "Bid(s) received"; the submitted bid is
    kept, with status Rejected. *)
Theorem submit_then_reject ctx_s ctx_c u id form T :
  g_user ctx_s = Some u ->
  User.user_type u = "Supplier" ->
  method ctx_s = POST ->
  sqlite_int id = true ->
  is_customer ctx_c = true ->
  let new := submitted_bid ctx_s u id form T in
  let T1 := db_after (run (submit_bid ctx_s id form) T []) in
  let T2 := db_after (run (reject_bid ctx_c (Bid.id new)) T1 []) in
  bid_table T2 = bid_table T ++ [Bid.set_status "Rejected" new] /\
  count_active_bids id T2 = count_active_bids id T /\
  (forall r, In r (request_table T2) -> Request.id r = id ->
     Request.request_status r =
     if count_active_bids id T =? 0 then "Awaiting bids"
     else "Bid(s) received").
Proof.
  intros Hu Ht Hm Hfit Hc new T1 T2.
  assert (HT1 : T1 = update_request_status id "Bid(s) received"
                       (insert_bid id (User.id u) (form_bid_amount form)
                                   (now ctx_s) T))
    by (unfold T1; rewrite (submit_bid_run _ _ _ _ _ Hu Ht Hm Hfit);
        reflexivity).
  assert (Hbids1 : bid_table T1 = bid_table T ++ [new])
    by (rewrite HT1; reflexivity).
  assert (Hfresh : ~ In (Bid.id new) (map Bid.id (bid_table T)))
    by apply next_id_fresh.
  assert (Hst1 : forall r, In r (request_table T1) -> Request.id r = id ->
                           Request.request_status r = "Bid(s) received")
    by (intros r; rewrite HT1; apply update_request_status_all).
  assert (Hcount1 : count_active_bids id T1 = count_active_bids id T + 1).
  { unfold count_active_bids at 1. rewrite Hbids1, count_active_bids_app.
    unfold active_bid, new, submitted_bid.
    cbn [Bid.bid_status Bid.request_id]. rewrite Z.eqb_refl. reflexivity. }
  assert (Hsel : select_bid_request_id (Bid.id new) T1 = Some id).
  { unfold select_bid_request_id. rewrite Hbids1, find_app_fresh.
    - reflexivity.
    - intros b Hin. apply Z.eqb_neq. intros E. apply Hfresh.
      rewrite <- E. apply in_map. exact Hin.
    - apply Z.eqb_refl. }
  assert (Hbids2 : bid_table T2
                   = bid_table T ++ [Bid.set_status "Rejected" new]).
  { unfold T2. rewrite (reject_bid_run _ _ _ _ Hc Hsel). cbn [db_after].
    assert (Hrows : forall T0,
              bid_table (update_bid_status (Bid.id new) "Rejected" T0)
              = map (rejected_bid_row (Bid.id new)) (bid_table T0))
      by reflexivity.
    destruct (count_active_bids id T1 =? 1);
      [change (bid_table (update_request_status id "Awaiting bids" ?X))
         with (bid_table X)|];
      rewrite Hrows, Hbids1;
      apply rejected_rows_app_fresh; [exact Hfresh|reflexivity
                                     |exact Hfresh|reflexivity]. }
  split; [exact Hbids2|]. split.
  - unfold count_active_bids at 1. rewrite Hbids2.
    rewrite count_active_bids_app. unfold active_bid.
    cbn [Bid.bid_status Bid.set_status String.eqb Ascii.eqb Bool.eqb negb
         andb]. lia.
  - intros r. unfold T2. rewrite (reject_bid_run _ _ _ _ Hc Hsel).
    cbn [db_after]. rewrite Hcount1.
    assert (Hn : 0 <= count_active_bids id T)
      by (unfold count_active_bids; lia).
    destruct (count_active_bids id T =? 0) eqn:E.
    + apply Z.eqb_eq in E. rewrite E. cbn [Z.add Z.eqb Pos.eqb].
      apply update_request_status_all.
    + apply Z.eqb_neq in E.
      destruct (count_active_bids id T + 1 =? 1) eqn:E';
        [apply Z.eqb_eq in E'; lia|].
      apply Hst1.
Qed.

(** [supplier3] bids on request 1 of [one_bid] and [customer1] rejects
    that bid: the request keeps its one active bid and its status. *)
Lemma submit_then_reject_witness :
  count_active_bids 1
    (db_after (run (reject_bid (post_by customer1) 2) two_bids [])) = 1 /\
  select_request_status 1
    (db_after (run (reject_bid (post_by customer1) 2) two_bids [])) =
    Some "Bid(s) received".
Proof.
  destruct (submit_then_reject (post_by supplier3) (post_by customer1)
              supplier3 1 (mkBidForm "110") one_bid
              eq_refl eq_refl eq_refl eq_refl eq_refl) as (_ & Hn & _).
  split; [exact Hn|reflexivity].
Defined.

(** ** More of what every reachable state satisfies *)

Lemma count_lt {A} (q q' : A -> bool) (l : list A) (b : A) :
  (forall a, In a l -> q a = true -> q' a = true) ->
  In b l -> q' b = true -> q b = false ->
  (List.length (filter q l) < List.length (filter q' l))%nat.
Proof.
  induction l as [|a l IH]; intros Hsub Hin Hq' Hq; [destruct Hin|].
  assert (Hsub' : forall x, In x l -> q x = true -> q' x = true)
    by (intros x Hx; apply Hsub; right; exact Hx).
  pose proof (count_le q q' l Hsub') as Hle.
  cbn [filter]. destruct Hin as [->|Hin].
  - rewrite Hq, Hq'. cbn [List.length]. lia.
  - specialize (IH Hsub' Hin Hq' Hq).
    destruct (q a) eqn:E.
    + rewrite (Hsub a (or_introl eq_refl) E). cbn [List.length]. lia.
    + destruct (q' a); cbn [List.length]; lia.
Qed.

(** X10. In every state reached from the empty one by the six lifecycle
    views, a request whose status is Complete has exactly one bid that is
    not Rejected, and none of its bids is Pending: each is Accepted or
    Rejected. *)
Theorem complete_request_bids_settled T r :
  reachable T ->
  In r (request_table T) ->
  Request.request_status r = "Complete" ->
  count_active_bids (Request.id r) T = 1 /\
  (forall b, In b (bid_table T) -> Bid.request_id b = Request.id r ->
             Bid.bid_status b = "Accepted" \/ Bid.bid_status b = "Rejected").
Proof.
  intros HT Hin Hst.
  destruct (lifecycle_inv_reachable T HT) as [_ _ Hcomp].
  destruct (Hcomp r Hin Hst) as [Hacc Hact]. split; [exact Hact|].
  intros b Hb Hreq.
  destruct (String.eqb_spec (Bid.bid_status b) "Accepted") as [E|E];
    [left; exact E|].
  destruct (String.eqb_spec (Bid.bid_status b) "Rejected") as [E'|E'];
    [right; exact E'|].
  exfalso.
  assert (Hlt : (List.length (filter (accepted_bid (Request.id r))
                                (bid_table T))
                 < List.length (filter (active_bid (Request.id r))
                                  (bid_table T)))%nat).
  { apply (count_lt _ _ _ b); [|exact Hb| |].
    - intros a _. unfold accepted_bid, active_bid.
      destruct (String.eqb_spec (Bid.bid_status a) "Accepted") as [Ea|Ea];
        [|discriminate].
      rewrite Ea. cbn [andb]. auto.
    - unfold active_bid. apply String.eqb_neq in E'. rewrite E', Hreq.
      rewrite Z.eqb_refl. reflexivity.
    - unfold accepted_bid. apply String.eqb_neq in E. rewrite E.
      reflexivity. }
  unfold count_accepted_bids, count_active_bids in Hacc, Hact. lia.
Qed.

Lemma complete_request_bids_settled_witness :
  count_active_bids 1 bid_1_accepted = 1.
Proof.
  exact (proj1 (complete_request_bids_settled bid_1_accepted
                  request_1_complete bid_1_accepted_reachable
                  (or_introl eq_refl) eq_refl)).
Defined.

Lemma same_bid_refl b : same_bid b b.
Proof. repeat split. Qed.

Lemma same_bid_set_status b s : same_bid b (Bid.set_status s b).
Proof. repeat split. Qed.

Lemma same_bid_trans b1 b2 b3 :
  same_bid b1 b2 -> same_bid b2 b3 -> same_bid b1 b3.
Proof.
  unfold same_bid. intros (H1 & H2 & H3 & H4 & H5) (K1 & K2 & K3 & K4 & K5).
  repeat split; congruence.
Qed.

Lemma bids_kept_by_map (f : Bid.t -> Bid.t) (l : list Bid.t) b :
  (forall x, same_bid x (f x)) -> In b l ->
  exists b', In b' (map f l) /\ same_bid b b'.
Proof.
  intros Hf Hin. exists (f b). split; [apply in_map; exact Hin|apply Hf].
Qed.

Lemma step_keeps_bids T c b :
  In b (bid_table T) ->
  exists b', In b' (bid_table (step T c)) /\ same_bid b b'.
Proof.
  intros Hin.
  assert (Hsame : exists b', In b' (bid_table T) /\ same_bid b b')
    by (exists b; split; [exact Hin|apply same_bid_refl]).
  unfold step. destruct c as [ctx op plan].
  cbn [call_ctx call_op call_faults].
  destruct op as [form|id form|id|id form|bid_id|bid_id]; cbn [view_of].
  - destruct (create_request_all_or_nothing ctx form T plan)
      as [->|(cb & cd & dd & co & ->)]; exact Hsame.
  - destruct (update_request_all_or_nothing ctx id form T plan)
      as [->|(cd & dd & id' & ->)]; exact Hsame.
  - destruct (remove_request_all_or_nothing ctx id T plan) as [->| ->];
      exact Hsame.
  - destruct (submit_bid_all_or_nothing ctx id form T plan)
      as [->|(cb & ->)]; [exact Hsame|].
    exists b. split; [|apply same_bid_refl].
    cbn [update_request_status insert_bid with_requests with_bids bid_table].
    apply in_or_app. left. exact Hin.
  - destruct (accept_bid_all_or_nothing ctx bid_id T plan)
      as [->|(request_id & Hb & ->)]; [exact Hsame|].
    rewrite (accept_bid_bid_rows _ _ _ Hb).
    apply bids_kept_by_map; [|exact Hin].
    intros x. unfold accepted_bid_row.
    destruct (Bid.id x =? bid_id); [apply same_bid_set_status|].
    destruct (Bid.request_id x =? request_id);
      [apply same_bid_set_status|apply same_bid_refl].
  - destruct (reject_bid_all_or_nothing ctx bid_id T plan)
      as [->|(request_id & Hb & ->)]; [exact Hsame|].
    assert (Hrows : bid_table
              (if count_active_bids request_id T =? 1
               then update_request_status request_id "Awaiting bids"
                      (update_bid_status bid_id "Rejected" T)
               else update_bid_status bid_id "Rejected" T)
              = map (rejected_bid_row bid_id) (bid_table T))
      by (destruct (_ =? 1); reflexivity).
    rewrite Hrows. apply bids_kept_by_map; [|exact Hin].
    intros x. unfold rejected_bid_row.
    destruct (Bid.id x =? bid_id);
      [apply same_bid_set_status|apply same_bid_refl].
Qed.

(** X11. No lifecycle view deletes a bid or changes anything of a bid but
    its status: after any sequence of calls, by any callers and under any
    faults, every bid row of the start is still there with its id, request
    id, creator, creation date and amount.  In particular removing a
    request leaves its bids behind. *)
Theorem bids_are_kept T cs b :
  In b (bid_table T) ->
  exists b', In b' (bid_table (run_calls T cs)) /\ same_bid b b'.
Proof.
  unfold run_calls. revert T b.
  induction cs as [|c cs IH]; intros T b Hin; cbn [fold_left].
  - exists b. split; [exact Hin|apply same_bid_refl].
  - destruct (step_keeps_bids T c b Hin) as [b1 [Hin1 Hs1]].
    destruct (IH (step T c) b1 Hin1) as [b2 [Hin2 Hs2]].
    exists b2. split; [exact Hin2|].
    apply (same_bid_trans b b1 b2); assumption.
Qed.

(** Bid 1 of [two_bids] after the request is removed. *)
Lemma bids_are_kept_witness :
  exists b', In b' (bid_table
                      (run_calls two_bids
                         [no_faults customer1 (OpCancelRequest 1)]))
             /\ Bid.id b' = 1 /\ Bid.request_id b' = 1.
Proof.
  destruct (bids_are_kept two_bids [no_faults customer1 (OpCancelRequest 1)]
              (Bid.mk 1 1 5 0 "120" "Pending") (or_introl eq_refl))
    as [b' [Hin (Hid & Hreq & _)]].
  exists b'. split; [exact Hin|]. split; [exact Hid|exact Hreq].
Defined.

(** X12. A request row leaves the table by [remove_request] only, and
    only under the id passed to it: a call to any other view keeps every
    request row with its id, creator, creation date and company, and a
    call to [remove_request] keeps every row with another id as it is. *)
Theorem requests_leave_by_remove_only T c r :
  In r (request_table T) ->
  match call_op c with
  | OpCancelRequest id =>
      Request.id r <> id -> In r (request_table (step T c))
  | _ =>
      exists r', In r' (request_table (step T c)) /\ same_request r r'
  end.
Proof.
  intros Hin.
  assert (Hsame : exists r', In r' (request_table T) /\ same_request r r')
    by (exists r; split; [exact Hin|repeat split]).
  assert (Hmap : forall (f : Request.t -> Request.t),
            (forall x, same_request x (f x)) ->
            exists r', In r' (map f (request_table T)) /\ same_request r r').
  { intros f Hf. exists (f r). split; [apply in_map; exact Hin|apply Hf]. }
  unfold step. destruct c as [ctx op plan].
  cbn [call_ctx call_op call_faults].
  destruct op as [form|id form|id|id form|bid_id|bid_id]; cbn [view_of].
  - destruct (create_request_all_or_nothing ctx form T plan)
      as [->|(cb & cd & dd & co & ->)]; [exact Hsame|].
    exists r. split; [|repeat split].
    cbn [insert_request with_requests request_table].
    apply in_or_app. left. exact Hin.
  - destruct (update_request_all_or_nothing ctx id form T plan)
      as [->|(cd & dd & id' & ->)]; [exact Hsame|].
    apply Hmap. intros x.
    destruct (Request.id x =? id'); repeat split.
  - intros Hne.
    destruct (remove_request_all_or_nothing ctx id T plan) as [->| ->];
      [exact Hin|].
    apply delete_request_rows. split; assumption.
  - destruct (submit_bid_all_or_nothing ctx id form T plan)
      as [->|(cb & ->)]; [exact Hsame|].
    apply Hmap. intros x. destruct (Request.id x =? id); repeat split.
  - destruct (accept_bid_all_or_nothing ctx bid_id T plan)
      as [->|(request_id & Hb & ->)]; [exact Hsame|].
    apply Hmap. intros x.
    destruct (Request.id x =? request_id); repeat split.
  - destruct (reject_bid_all_or_nothing ctx bid_id T plan)
      as [->|(request_id & Hb & ->)]; [exact Hsame|].
    destruct (count_active_bids request_id T =? 1); [|exact Hsame].
    apply Hmap. intros x.
    destruct (Request.id x =? request_id); repeat split.
Qed.

Lemma requests_leave_by_remove_only_witness :
  In request_1_complete
     (request_table
        (step bid_1_accepted (no_faults customer1 (OpCancelRequest 2)))).
Proof.
  apply (requests_leave_by_remove_only bid_1_accepted
           (no_faults customer1 (OpCancelRequest 2)) request_1_complete
           (or_introl eq_refl)).
  discriminate.
Defined.

(** ** Sorted lists *)

Section Ordering.
Context {A : Type}.
Variable key : A -> Z.

Lemma insert_by_sorted (a : A) (l : list A) :
  StronglySorted (fun x y => key x <= key y) l ->
  StronglySorted (fun x y => key x <= key y) (insert_by key a l).
Proof.
  induction 1 as [|b l Hs IH Hb]; cbn [insert_by].
  - constructor; constructor.
  - destruct (key a <? key b) eqn:E.
    + apply Z.ltb_lt in E. constructor.
      * constructor; assumption.
      * constructor; [lia|].
        rewrite Forall_forall in Hb |- *. intros x Hx.
        specialize (Hb x Hx). cbv beta in Hb. lia.
    + apply Z.ltb_ge in E. constructor; [exact IH|].
      rewrite Forall_forall in Hb |- *. intros x Hx.
      apply (Permutation_in _ (insert_by_perm key a l)) in Hx.
      destruct Hx as [<-|Hx]; [exact E|apply Hb; exact Hx].
Qed.

Lemma order_by_sorted (l : list A) :
  StronglySorted (fun x y => key x <= key y) (order_by key l).
Proof.
  unfold order_by.
  assert (H : forall acc, StronglySorted (fun x y => key x <= key y) acc ->
                StronglySorted (fun x y => key x <= key y)
                  (fold_left (fun sorted a => insert_by key a sorted) l acc)).
  { induction l as [|a l IH]; intros acc Hacc; cbn [fold_left];
      [exact Hacc|].
    apply IH. apply insert_by_sorted. exact Hacc. }
  apply H. constructor.
Qed.
End Ordering.

Lemma order_by_desc_sorted {A} (key : A -> Z) (l : list A) :
  StronglySorted (fun x y => key x >= key y) (order_by_desc key l).
Proof.
  unfold order_by_desc.
  pose proof (order_by_sorted (fun a => - key a) l) as H.
  induction H as [|a l' Hs IH Ha]; constructor; [exact IH|].
  rewrite Forall_forall in Ha |- *. intros x Hx. specialize (Ha x Hx).
  cbv beta in Ha. lia.
Qed.

Lemma sorted_map {A B} (f : A -> B) (R : B -> B -> Prop) (l : list A) :
  StronglySorted (fun x y => R (f x) (f y)) l ->
  StronglySorted R (map f l).
Proof.
  induction 1 as [|a l Hs IH Ha]; cbn [map]; constructor; [exact IH|].
  rewrite Forall_forall in Ha |- *. intros y Hy.
  apply in_map_iff in Hy. destruct Hy as [x [<- Hx]]. apply Ha. exact Hx.
Qed.

(** ** What the customer is shown *)

(** X13. [customer_requests] shows a customer exactly the request rows
    whose company is the caller's, the newest first, and commits
    nothing. *)
Theorem customer_requests_own_company ctx u T :
  g_user ctx = Some u ->
  User.user_type u = "Customer" ->
  read (customer_requests_rows ctx) T =
    Ok (select_company_requests (User.company u) T) /\
  (forall r, In r (select_company_requests (User.company u) T) <->
             In r (request_table T) /\ Request.company r = User.company u) /\
  StronglySorted
    (fun r r' => Request.created_date r >= Request.created_date r')
    (select_company_requests (User.company u) T) /\
  (forall plan,
     run (customer_requests ctx) T plan =
     mkOutcome (Ok (Render "/customer/requests/customer_requests.html")) T []).
Proof.
  intros Hu Ht. split; [|split; [|split]].
  - unfold read, customer_requests_rows. run_view. rewrite Hu. reflexivity.
  - intros r. unfold select_company_requests, order_by_desc.
    rewrite in_order_by, filter_In, String.eqb_eq. reflexivity.
  - apply order_by_desc_sorted.
  - intros plan. unfold customer_requests, customer_only, customer_requests_rows.
    rewrite Hu, Ht. cbn [String.eqb Ascii.eqb Bool.eqb negb].
    run_view. rewrite Hu. reflexivity.
Qed.

(** [customer3] of company2 is shown nothing of company1's request. *)
Lemma customer_requests_own_company_witness :
  read (customer_requests_rows (post_by customer3)) two_bids = Ok [] /\
  read (customer_requests_rows (post_by customer1)) two_bids =
    Ok (request_table two_bids).
Proof.
  destruct (customer_requests_own_company (post_by customer3) customer3
              two_bids eq_refl eq_refl) as (H3 & _).
  destruct (customer_requests_own_company (post_by customer1) customer1
              two_bids eq_refl eq_refl) as (H1 & _).
  split; [rewrite H3|rewrite H1]; reflexivity.
Defined.

Lemma in_select_request_bids id T b company :
  In (b, company) (select_request_bids id T) <->
  In b (bid_table T) /\ Bid.request_id b = id /\ bidder_company T b company.
Proof.
  unfold select_request_bids. rewrite in_map_iff. split.
  - intros [[b0 ou] [Hrow Hin]]. cbn [fst snd] in Hrow.
    injection Hrow as -> <-.
    apply filter_In in Hin. cbn [fst] in Hin. destruct Hin as [Hj Hid].
    apply Z.eqb_eq in Hid. apply in_left_join in Hj.
    destruct Hj as [Hb Hou]. split; [exact Hb|]. split; [exact Hid|].
    destruct ou as [u|]; cbn [option_map bidder_company].
    + destruct Hou as [Hu Hon]. apply Z.eqb_eq in Hon.
      exists u. auto.
    + intros u Hu E. specialize (Hou u Hu). apply Z.eqb_neq in Hou. auto.
  - intros [Hb [Hid Hc]]. destruct company as [c|]; cbn [bidder_company] in Hc.
    + destruct Hc as [u [Hu [Hcb Hco]]]. exists (b, Some u).
      cbn [fst snd option_map]. rewrite Hco. split; [reflexivity|].
      apply filter_In. cbn [fst]. split; [|apply Z.eqb_eq; exact Hid].
      apply in_left_join. split; [exact Hb|]. split; [exact Hu|].
      apply Z.eqb_eq. auto.
    + exists (b, None). cbn [fst snd option_map]. split; [reflexivity|].
      apply filter_In. cbn [fst]. split; [|apply Z.eqb_eq; exact Hid].
      apply in_left_join. split; [exact Hb|].
      intros u Hu. apply Z.eqb_neq. intros E. apply (Hc u Hu). auto.
Qed.

(** X14. [view_request] called by a customer never answers 404 and never
    writes.  When no request has the id, what [customer_get_request]
    raises is caught, one error is flashed and the caller is redirected to
    the list: the 404 of the abort for an id SQLite can bind, the
    OverflowError of the SELECT for any other id.  When a request has the
    id, the page is rendered with its first row and with every bid whose
    request id it is, whatever the bid's status and whoever the caller's
    company is, each beside its bidder's company. *)
Theorem view_request_cases ctx id T plan :
  is_customer ctx = true ->
  (select_request_status id T = None ->
   run (view_request ctx id) T plan =
   mkOutcome (Ok (Redirect "customer_routes.customer_requests" None)) T
     [(if sqlite_int id
       then ("An error occurred: 404 Not Found: Request id "
             ++ str_of_int id ++ " doesn't exist.")%string
       else "An error occurred: Python int too large to convert to SQLite INTEGER",
       "error")]) /\
  (forall r, find (fun r => Request.id r =? id) (request_table T) = Some r ->
     run (view_request ctx id) T plan =
       mkOutcome (Ok (Render "/customer/requests/customer_request.html")) T []
     /\ read (view_request_data id) T = Ok (r, select_request_bids id T)) /\
  (forall b company,
     In (b, company) (select_request_bids id T) <->
     In b (bid_table T) /\ Bid.request_id b = id /\ bidder_company T b company).
Proof.
  intros Hc. split; [|split].
  - intros Hnone. unfold view_request. rewrite (customer_only_pass _ _ Hc).
    unfold select_request_status in Hnone.
    unfold view_request_data, customer_get_bids. run_view.
    destruct (find (fun r => Request.id r =? id) (request_table T));
      [discriminate|].
    destruct (sqlite_int id); reflexivity.
  - intros r Hr. unfold view_request. rewrite (customer_only_pass _ _ Hc).
    unfold read, view_request_data, customer_get_bids. run_view.
    rewrite Hr. split; reflexivity.
  - intros b company. apply in_select_request_bids.
Qed.

(** Request 9 does not exist; request 1 of [bid_1_accepted] shows its
    Rejected bid 2 beside company4. *)
Lemma view_request_cases_witness :
  run (view_request (post_by customer1) 9) two_bids [] =
    mkOutcome (Ok (Redirect "customer_routes.customer_requests" None)) two_bids
      [("An error occurred: 404 Not Found: Request id 9 doesn't exist.",
        "error")] /\
  In (Bid.mk 2 1 7 0 "110" "Rejected", Some "company4")
     (select_request_bids 1 bid_1_accepted).
Proof.
  destruct (view_request_cases (post_by customer1) 9 two_bids [] eq_refl)
    as (Hnone & _).
  destruct (view_request_cases (post_by customer1) 1 bid_1_accepted []
              eq_refl) as (_ & _ & Hbids).
  split; [exact (Hnone eq_refl)|].
  apply Hbids. split; [right; left; reflexivity|]. split; [reflexivity|].
  exists supplier3. split; [right; right; right; left; reflexivity|].
  split; reflexivity.
Defined.

(** ** What the supplier is shown *)

(** X15. [my_bids] shows a supplier exactly the bids whose creator is a
    user of the caller's company, whatever their status, the newest first,
    and commits nothing. *)
Theorem my_bids_own_company ctx u T :
  g_user ctx = Some u ->
  User.user_type u = "Supplier" ->
  read (my_bids_rows ctx) T = Ok (select_my_bids (User.company u) T) /\
  (forall b, In b (select_my_bids (User.company u) T) <->
             bid_of_company (User.company u) T b) /\
  StronglySorted (fun b b' => Bid.created_date b >= Bid.created_date b')
    (select_my_bids (User.company u) T) /\
  (forall plan,
     run (my_bids ctx) T plan =
     mkOutcome (Ok (Render "/supplier/my_bids.html")) T []).
Proof.
  intros Hu Ht. split; [|split; [|split]].
  - unfold read, my_bids_rows. run_view. rewrite Hu. reflexivity.
  - intros b. unfold select_my_bids, order_by_desc, bid_of_company.
    rewrite in_map_iff. split.
    + intros [[b0 ou] [Hfst Hin]]. cbn [fst] in Hfst. subst b0.
      apply in_order_by, in_company_bids in Hin.
      destruct Hin as [Hb [u0 [_ [Hu0 [Hid Hc]]]]].
      split; [exact Hb|]. exists u0. auto.
    + intros [Hb [u0 [Hu0 [Hid Hc]]]]. exists (b, Some u0).
      split; [reflexivity|]. apply in_order_by, in_company_bids.
      split; [exact Hb|]. exists u0. auto.
  - unfold select_my_bids.
    apply (sorted_map fst (fun b b' => Bid.created_date b >= Bid.created_date b')).
    apply (order_by_desc_sorted (fun row => Bid.created_date (fst row))).
  - intros plan. unfold my_bids, supplier_only, my_bids_rows.
    rewrite Hu, Ht. cbn [String.eqb Ascii.eqb Bool.eqb negb].
    run_view. rewrite Hu. reflexivity.
Qed.

(** [supplier3] of company4 is shown bid 2 of [bid_1_accepted], which is
    Rejected, and not bid 1. *)
Lemma my_bids_own_company_witness :
  read (my_bids_rows (post_by supplier3)) bid_1_accepted =
    Ok [Bid.mk 2 1 7 0 "110" "Rejected"].
Proof.
  destruct (my_bids_own_company (post_by supplier3) supplier3 bid_1_accepted
              eq_refl eq_refl) as (H & _).
  rewrite H. reflexivity.
Defined.

Lemma hd_error_None {A} (l : list A) : hd_error l = None <-> l = [].
Proof. destruct l; split; intros H; try reflexivity; discriminate. Qed.

Lemma in_company_bid_rows id company T b ou :
  In (b, ou)
     (filter (fun row => (Bid.request_id (fst row) =? id)
                         && sql_eq (option_map User.company (snd row)) company)
        (left_join (fun b u => Bid.created_by b =? User.id u)
                   (bid_table T) (user_table T))) <->
  In b (bid_table T) /\ Bid.request_id b = id /\
  exists u, ou = Some u /\ In u (user_table T)
            /\ User.id u = Bid.created_by b /\ User.company u = company.
Proof.
  rewrite filter_In, in_left_join. cbn [fst snd].
  rewrite andb_true_iff, Z.eqb_eq, sql_eq_company. split.
  - intros [[Hb Hou] [Hid [u [-> Hc]]]]. destruct Hou as [Hu Hon].
    apply Z.eqb_eq in Hon. split; [exact Hb|]. split; [exact Hid|].
    exists u. auto.
  - intros [Hb [Hid [u [-> [Hu [Hcb Hc]]]]]]. split.
    + split; [exact Hb|]. split; [exact Hu|]. apply Z.eqb_eq. auto.
    + split; [exact Hid|]. exists u. auto.
Qed.

Lemma select_company_bid_None id company T :
  select_company_bid id company T = None <->
  (forall b, bid_of_company company T b -> Bid.request_id b <> id).
Proof.
  unfold select_company_bid. rewrite hd_error_None. split.
  - intros Hnil b [Hb [u [Hu [Hcb Hc]]]] Hid.
    apply map_eq_nil in Hnil.
    assert (Hin : In (b, Some u)
              (filter (fun row => (Bid.request_id (fst row) =? id)
                         && sql_eq (option_map User.company (snd row)) company)
                 (left_join (fun b u => Bid.created_by b =? User.id u)
                            (bid_table T) (user_table T)))).
    { apply in_company_bid_rows. split; [exact Hb|]. split; [exact Hid|].
      exists u. auto. }
    rewrite Hnil in Hin. destruct Hin.
  - intros Hnone.
    destruct (filter _ _) as [|[b ou] rows] eqn:Hf; [reflexivity|].
    assert (Hin : In (b, ou) ((b, ou) :: rows)) by (left; reflexivity).
    rewrite <- Hf in Hin. apply in_company_bid_rows in Hin.
    destruct Hin as [Hb [Hid [u [_ [Hu [Hcb Hc]]]]]].
    destruct (Hnone b); [|exact Hid]. split; [exact Hb|]. exists u. auto.
Qed.

Lemma select_company_bid_Some id company T b :
  select_company_bid id company T = Some b ->
  bid_of_company company T b /\ Bid.request_id b = id.
Proof.
  unfold select_company_bid.
  destruct (filter _ _) as [|[b0 ou] rows] eqn:Hf; [discriminate|].
  cbn [map hd_error fst]. intros [= ->].
  assert (Hin : In (b, ou) ((b, ou) :: rows)) by (left; reflexivity).
  rewrite <- Hf in Hin. apply in_company_bid_rows in Hin.
  destruct Hin as [Hb [Hid [u [_ [Hu [Hcb Hc]]]]]].
  split; [|exact Hid]. split; [exact Hb|]. exists u. auto.
Qed.

(** X17. [supplier_request] called by a supplier.  When no request has
    the id and the id is one SQLite can bind, it raises 404; otherwise it
    shows the first row with the id and at most one bid: a bid of the
    caller's company on that request when the company has one, and none
    exactly when the company has none.  So a request that is not Complete
    is in the first of the lists [supplier_requests] computes for the same
    caller exactly when its page shows no bid. *)
Theorem supplier_request_cases ctx u id T :
  g_user ctx = Some u ->
  (select_request_status id T = None -> sqlite_int id = true ->
   read (supplier_request_data ctx id) T = Raise NotFound404) /\
  (forall r, find (fun r => Request.id r =? id) (request_table T) = Some r ->
     read (supplier_request_data ctx id) T =
     Ok (r, select_company_bid id (User.company u) T)) /\
  (select_company_bid id (User.company u) T = None <->
   forall b, bid_of_company (User.company u) T b -> Bid.request_id b <> id) /\
  (forall b, select_company_bid id (User.company u) T = Some b ->
     bid_of_company (User.company u) T b /\ Bid.request_id b = id) /\
  (exists lists,
     read (supplier_requests_lists ctx) T = Ok lists /\
     forall r bid, In r (request_table T) -> Request.id r = id ->
       Request.request_status r <> "Complete" ->
       read (supplier_request_data ctx id) T = Ok (r, bid) ->
       (In r (sl_live_requests_not_bid lists) <-> bid = None)).
Proof.
  intros Hu. split; [|split; [|split; [|split]]].
  - intros Hnone Hfit. unfold select_request_status in Hnone.
    unfold read, supplier_request_data. run_view. rewrite Hu.
    destruct (find (fun r => Request.id r =? id) (request_table T));
      [discriminate|rewrite Hfit; reflexivity].
  - intros r Hr. unfold read, supplier_request_data. run_view.
    rewrite Hu, Hr. reflexivity.
  - apply select_company_bid_None.
  - apply select_company_bid_Some.
  - exists (mkSupplierLists (live_requests_not_bid (User.company u) T)
                            (requests_bid (User.company u) T)
                            (requests_bid_won (User.company u) T)).
    split.
    { unfold read, supplier_requests_lists. run_view. rewrite Hu.
      reflexivity. }
    cbn [sl_live_requests_not_bid].
    intros r bid Hin Hid Hst Hpage.
    assert (Hbid : bid = select_company_bid id (User.company u) T).
    { revert Hpage. unfold read, supplier_request_data. run_view. rewrite Hu.
      destruct (find (fun r => Request.id r =? id) (request_table T)).
      - cbn. intros H. injection H as _ H. symmetry. exact H.
      - destruct (sqlite_int id); discriminate. }
    subst bid.
    rewrite in_live_requests_not_bid, select_company_bid_None, Hid.
    split; [intros (_ & _ & H); exact H|auto].
Qed.

(** On request 1 of [one_bid], [supplier1] is shown its bid 1, and
    [supplier3], who has not bid, is shown none and finds the request in
    its first list; request 9 is not there. *)
Lemma supplier_request_cases_witness :
  read (supplier_request_data (post_by supplier1) 1) one_bid
    = Ok (Request.mk 1 1 0 20001 20003 "Depot A, 1 Road, Leeds, UK, LS1"
            "Depot B, 2 Road, York, UK, YO1" "4" (Some 800) "company1"
            "Bid(s) received",
          Some (Bid.mk 1 1 5 0 "120" "Pending")) /\
  read (supplier_request_data (post_by supplier3) 9) one_bid
    = Raise NotFound404 /\
  (exists lists,
     read (supplier_requests_lists (post_by supplier3)) one_bid = Ok lists /\
     In (Request.mk 1 1 0 20001 20003 "Depot A, 1 Road, Leeds, UK, LS1"
                    "Depot B, 2 Road, York, UK, YO1" "4" (Some 800) "company1"
                    "Bid(s) received")
        (sl_live_requests_not_bid lists)).
Proof.
  destruct (supplier_request_cases (post_by supplier1) supplier1 1 one_bid
              eq_refl) as (_ & Hrow & _).
  destruct (supplier_request_cases (post_by supplier3) supplier3 9 one_bid
              eq_refl) as (Hnone & _).
  destruct (supplier_request_cases (post_by supplier3) supplier3 1 one_bid
              eq_refl) as (_ & _ & _ & _ & lists & Hlists & Hlist).
  split; [exact (Hrow _ eq_refl)|].
  split; [exact (Hnone eq_refl eq_refl)|].
  exists lists. split; [exact Hlists|].
  apply (Hlist _ None (or_introl eq_refl) eq_refl);
    [discriminate|reflexivity|reflexivity].
Defined.

(** ** Integers SQLite cannot bind *)

(** X28. The [<int:id>] converter and the weight field hand over integers
    of any size, and [sqlite3] raises OverflowError on one that is not of
    64 bits.  Where the statement is outside a [try] the view raises and
    flashes nothing: [remove_request], [update_request] and
    [supplier_request] on such an id.  Where it is inside one the error
    is caught: a POST to [submit_bid] on such an id, or to
    [create_request] with such a weight, rolls back, flashes the error
    and renders the form again.  Nothing is committed in any of these,
    whatever the storage does. *)
Theorem unbindable_integers ctx u id T plan :
  g_user ctx = Some u ->
  sqlite_int id = false ->
  (User.user_type u = "Customer" ->
   select_request_status id T = None ->
   run (remove_request ctx id) T plan = mkOutcome (Raise OverflowError) T [] /\
   forall form,
     run (update_request ctx id form) T plan =
     mkOutcome (Raise OverflowError) T []) /\
  (User.user_type u = "Supplier" ->
   (select_request_status id T = None ->
    run (supplier_request ctx id) T plan =
    mkOutcome (Raise OverflowError) T []) /\
   (method ctx = POST ->
    forall form,
      run (submit_bid ctx id form) T plan =
      mkOutcome (Ok (Render "supplier/submit_bid.html")) T
        [("An error occurred while submitting the bid: Python int too large to convert to SQLite INTEGER",
          "error")])) /\
  (User.user_type u = "Customer" ->
   method ctx = POST ->
   forall form collection delivery,
     form_collection_date form = Some collection ->
     form_delivery_date form = Some delivery ->
     form_weight form = Some id ->
     run (create_request ctx form) T plan =
     mkOutcome (Ok (Render "/customer/requests/create_request.html")) T
       [("An error occurred while creating the request: Python int too large to convert to SQLite INTEGER",
         "error")]).
Proof.
  intros Hu Hfit. split; [|split].
  - intros Ht Hnone.
    assert (Hc : is_customer ctx = true)
      by (unfold is_customer; rewrite Hu, Ht; reflexivity).
    split.
    + unfold remove_request. rewrite (customer_only_pass _ _ Hc).
      run_view. rewrite Hnone, Hfit. reflexivity.
    + intros form. unfold update_request. rewrite (customer_only_pass _ _ Hc).
      unfold select_request_status in Hnone. run_view.
      destruct (find (fun r => Request.id r =? id) (request_table T));
        [discriminate|]. rewrite Hfit. reflexivity.
  - intros Ht.
    assert (Hs : is_supplier ctx = true)
      by (unfold is_supplier; rewrite Hu, Ht; reflexivity).
    split.
    + intros Hnone. unfold supplier_request.
      rewrite (supplier_only_pass _ _ Hs).
      unfold select_request_status in Hnone.
      unfold supplier_request_data. run_view. rewrite Hu.
      destruct (find (fun r => Request.id r =? id) (request_table T));
        [discriminate|]. rewrite Hfit. reflexivity.
    + intros Hm form. unfold submit_bid. rewrite (supplier_only_pass _ _ Hs).
      rewrite Hm. run_view. cbn [forallb]. rewrite Hu, Hfit. reflexivity.
  - intros Ht Hm form collection delivery Hcd Hdd Hw.
    assert (Hc : is_customer ctx = true)
      by (unfold is_customer; rewrite Hu, Ht; reflexivity).
    unfold create_request. rewrite (customer_only_pass _ _ Hc).
    rewrite Hm. run_view. rewrite Hu, Hcd, Hdd, Hw. cbn [some_int forallb].
    rewrite Hfit. reflexivity.
Qed.

(** On [two_bids], with the id and the weight 2^63: [remove_request]
    raises, [submit_bid] and [create_request] flash and write nothing. *)
Lemma unbindable_integers_witness :
  run (remove_request (post_by customer1) (2 ^ 63)) two_bids [] =
    mkOutcome (Raise OverflowError) two_bids [] /\
  db_after (run (submit_bid (post_by supplier3) (2 ^ 63) (mkBidForm "110"))
              two_bids []) = two_bids /\
  db_after (run (create_request (post_by customer1) heavy_form) two_bids [])
    = two_bids.
Proof.
  destruct (unbindable_integers (post_by customer1) customer1 (2 ^ 63)
              two_bids [] eq_refl eq_refl) as (Hc & _ & Hw).
  destruct (unbindable_integers (post_by supplier3) supplier3 (2 ^ 63)
              two_bids [] eq_refl eq_refl) as (_ & Hs & _).
  split; [exact (proj1 (Hc eq_refl eq_refl))|]. split.
  - rewrite (proj2 (Hs eq_refl) eq_refl (mkBidForm "110")). reflexivity.
  - rewrite (Hw eq_refl eq_refl heavy_form 20001 20003 eq_refl eq_refl
               eq_refl).
    reflexivity.
Defined.

(** ** Registering and logging in *)

Lemma is_empty_false s : is_empty s = false <-> s <> "".
Proof. unfold is_empty. apply String.eqb_neq. Qed.

Lemma register_error_None form :
  register_error form = None <->
  reg_email form <> "" /\ reg_password form <> "" /\ reg_company form <> ""
  /\ reg_user_type form <> "" /\ reg_full_name form <> "".
Proof.
  unfold register_error. rewrite <- !is_empty_false.
  destruct (is_empty (reg_email form)), (is_empty (reg_password form)),
    (is_empty (reg_company form)), (is_empty (reg_user_type form)),
    (is_empty (reg_full_name form));
    split; try discriminate; try (intros (?&?&?&?&?); discriminate);
    repeat split.
Qed.

Lemma email_taken_false email T :
  email_taken email T = false ->
  forall u, In u (user_table T) -> String.eqb (User.email u) email = false.
Proof.
  unfold email_taken. intros H u Hin.
  destruct (String.eqb (User.email u) email) eqn:E; [|reflexivity].
  assert (Ht : existsb (fun u => String.eqb (User.email u) email)
                       (user_table T) = true)
    by (apply existsb_exists; exists u; auto).
  rewrite H in Ht. discriminate.
Qed.

Section WerkzeugProperties.
Variable generate_password_hash : string -> string -> string.
Variable check_password_hash : string -> string -> bool.

(** What [werkzeug.security] promises: a hash passes the check against
    the password it was made from. *)
Hypothesis check_generated :
  forall salt password,
    check_password_hash (generate_password_hash salt password) password = true.

Lemma register_run salt form T :
  register_error form = None ->
  email_taken (reg_email form) T = false ->
  run (register generate_password_hash POST salt form) T [] =
  mkOutcome (Ok (Redirect "auth.login" None))
    (insert_user (reg_email form)
       (generate_password_hash salt (reg_password form)) (reg_company form)
       (reg_user_type form) (reg_full_name form) T)
    [].
Proof.
  intros Herr Htaken. unfold register. rewrite Herr. run_view.
  rewrite Htaken. reflexivity.
Qed.

Lemma registered_user_found password_hash form T :
  email_taken (reg_email form) T = false ->
  let new := registered_user password_hash form T in
  let T' := insert_user (reg_email form) password_hash (reg_company form)
              (reg_user_type form) (reg_full_name form) T in
  select_user_by_email (reg_email form) T' = Some new /\
  select_user_by_id (User.id new) T' = Some new.
Proof.
  intros Htaken new T'. subst new T'.
  unfold registered_user, insert_user, select_user_by_email,
         select_user_by_id.
  cbn [user_table User.id]. split.
  - apply find_app_fresh; [|apply String.eqb_refl].
    apply email_taken_false. exact Htaken.
  - apply find_app_fresh; [|apply Z.eqb_refl].
    intros u Hin. apply Z.eqb_neq. intros E.
    apply (next_id_fresh (map User.id (user_table T))).
    rewrite <- E. apply in_map. exact Hin.
Qed.

(** X18. A POST to [register].  With an empty field it flashes the message
    of the first empty one (email, password, company, user type, full
    name, in this order) and commits nothing; with an email some user has
    it flashes that the user is already registered and commits nothing;
    otherwise, the storage working, it appends one user row with the
    posted email, company, name and user type and the hashed password,
    redirects to the login page and leaves requests and bids alone.  The
    user type is stored as posted: nothing compares it with "Customer" or
    "Supplier". *)
Theorem register_cases salt form T :
  (forall error, register_error form = Some error ->
     forall plan,
       run (register generate_password_hash POST salt form) T plan =
       mkOutcome (Ok (Render "auth/register.html")) T [(error, "message")]) /\
  (register_error form = None ->
   email_taken (reg_email form) T = true ->
   forall plan,
     run (register generate_password_hash POST salt form) T plan =
     mkOutcome (Ok (Render "auth/register.html")) T
       [(("User " ++ reg_email form ++ " is already registered.")%string,
         "message")]) /\
  (register_error form = None ->
   email_taken (reg_email form) T = false ->
   let new := registered_user
                (generate_password_hash salt (reg_password form)) form T in
   let T' := db_after (run (register generate_password_hash POST salt form)
                         T []) in
   returned (run (register generate_password_hash POST salt form) T []) =
     Ok (Redirect "auth.login" None) /\
   user_table T' = user_table T ++ [new] /\
   request_table T' = request_table T /\ bid_table T' = bid_table T /\
   select_user_by_email (reg_email form) T' = Some new /\
   select_user_by_id (User.id new) T' = Some new) /\
  (register_error form = None <->
   reg_email form <> "" /\ reg_password form <> "" /\ reg_company form <> ""
   /\ reg_user_type form <> "" /\ reg_full_name form <> "").
Proof.
  split; [|split; [|split]].
  - intros error Herr plan. unfold register. rewrite Herr. reflexivity.
  - intros Herr Htaken plan. unfold register. rewrite Herr. run_view.
    rewrite Htaken. reflexivity.
  - intros Herr Htaken new T'. subst new T'.
    rewrite (register_run _ _ _ Herr Htaken). cbn [db_after returned].
    repeat (split; [reflexivity|]).
    apply registered_user_found. exact Htaken.
  - apply register_error_None.
Qed.

(** X19. A POST to [login] never writes.  An email no user has: "Incorrect
    email." is flashed and the session is left as it was.  A password that
    fails the check against the stored hash of the first user with that
    email: "Incorrect password.", session as it was.  Otherwise the
    session holds that user's id and the caller is redirected to the
    index. *)
Theorem login_cases s form T plan :
  (select_user_by_email (login_email form) T = None ->
   run_with (login check_password_hash POST s form) T plan =
   (Ok (Render "auth/login.html", s), T, [("Incorrect email.", "message")])) /\
  (forall u, select_user_by_email (login_email form) T = Some u ->
     check_password_hash (User.password u) (login_password form) = false ->
     run_with (login check_password_hash POST s form) T plan =
     (Ok (Render "auth/login.html", s), T,
      [("Incorrect password.", "message")])) /\
  (forall u, select_user_by_email (login_email form) T = Some u ->
     check_password_hash (User.password u) (login_password form) = true ->
     run_with (login check_password_hash POST s form) T plan =
     (Ok (Redirect "index" None, Some (User.id u)), T, [])).
Proof.
  unfold run_with, login. split; [|split].
  - intros Hnone. run_view. rewrite Hnone. reflexivity.
  - intros u Hu Hcheck. run_view. rewrite Hu, Hcheck. reflexivity.
  - intros u Hu Hcheck. run_view. rewrite Hu, Hcheck. reflexivity.
Qed.

(** X20. Registering and then logging in with the same email and
    password: the session holds the id of the new user, and
    [load_logged_in_user] finds the row that was registered.  From then on
    the posted user type decides which lifecycle views are open: every
    view that asks for another role redirects to the login page and
    commits nothing. *)
Theorem register_then_login salt form T s :
  register_error form = None ->
  email_taken (reg_email form) T = false ->
  let new := registered_user
               (generate_password_hash salt (reg_password form)) form T in
  let T1 := db_after (run (register generate_password_hash POST salt form)
                        T []) in
  (forall plan,
     run_with (login check_password_hash POST s
                 (mkLoginData (reg_email form) (reg_password form))) T1 plan =
     (Ok (Redirect "index" None, Some (User.id new)), T1, [])) /\
  read (load_logged_in_user (Some (User.id new))) T1 = Ok (Some new) /\
  (forall m today now op plan,
     reg_user_type form <> required_role op ->
     run (handle (Some (User.id new)) m today now op) T1 plan =
     mkOutcome (Ok (Redirect "auth.login" None)) T1 []).
Proof.
  intros Herr Htaken new T1.
  destruct (registered_user_found
              (generate_password_hash salt (reg_password form)) form T Htaken)
    as [Hemail Hid].
  assert (HT1 : T1 = insert_user (reg_email form)
                       (generate_password_hash salt (reg_password form))
                       (reg_company form) (reg_user_type form)
                       (reg_full_name form) T)
    by (unfold T1; rewrite (register_run _ _ _ Herr Htaken); reflexivity).
  rewrite <- HT1 in Hemail, Hid. fold new in Hemail, Hid.
  split; [|split].
  - intros plan. unfold run_with, login. cbn [login_email login_password].
    run_view. rewrite Hemail.
    replace (User.password new)
      with (generate_password_hash salt (reg_password form)) by reflexivity.
    rewrite check_generated. reflexivity.
  - unfold read, load_logged_in_user. run_view. rewrite Hid. reflexivity.
  - intros m today now op plan Hrole.
    assert (Hctx : run (view_of (mkCtx (Some new) m today now) op) T1 plan =
                   mkOutcome (Ok (Redirect "auth.login" None)) T1 [])
      by (apply (wrong_role_run _ new); [reflexivity|exact Hrole]).
    unfold run in Hctx |- *. unfold handle, load_logged_in_user.
    run_view. rewrite Hid. exact Hctx.
Qed.

(** X21. After [logout] the session is empty, and with an empty session,
    or one whose user id matches no row, every lifecycle view raises on
    [g.user["user_type"]] and commits nothing; [login_required], which no
    route uses, would redirect to the login page instead. *)
Theorem logged_out_requests_raise s m today now op view T plan :
  read (logout s) T = Ok (Redirect "index" None, None) /\
  (s = None \/ (exists id, s = Some id /\ select_user_by_id id T = None) ->
   run (handle s m today now op) T plan = mkOutcome (Raise TypeError) T [] /\
   run (login_required None view) T plan =
     mkOutcome (Ok (Redirect "auth.login" None)) T []).
Proof.
  split; [reflexivity|]. intros Hs. split; [|reflexivity].
  assert (Hctx : run (view_of (mkCtx None m today now) op) T plan =
                 mkOutcome (Raise TypeError) T [])
    by (apply anonymous_run; reflexivity).
  unfold run in Hctx |- *. unfold handle, load_logged_in_user.
  destruct Hs as [->|[id [-> Hid]]]; run_view; rewrite ?Hid; exact Hctx.
Qed.
End WerkzeugProperties.

Lemma example_check_generated salt password :
  example_check (example_hash salt password) password = true.
Proof. apply String.eqb_refl. Qed.

(** An empty company is refused; [example_registration] goes through. *)
Lemma register_cases_witness :
  run (register example_hash POST "s4lt"
         (mkRegisterData "a@b.com" "secret" "" "Customer" "A B"))
      two_bids [] =
    mkOutcome (Ok (Render "auth/register.html")) two_bids
      [("company is required.", "message")] /\
  select_user_by_email "company5supplier9@company5.com"
    (db_after (run (register example_hash POST "s4lt" example_registration)
                 two_bids [])) =
    Some (User.mk 8 "company5supplier9@company5.com" "pbkdf2$secret"
                  "company5" "Supplier" "Supplier Nine").
Proof.
  destruct (register_cases example_hash "s4lt"
              (mkRegisterData "a@b.com" "secret" "" "Customer" "A B")
              two_bids) as (Hempty & _).
  destruct (register_cases example_hash "s4lt" example_registration two_bids)
    as (_ & _ & Hok & _).
  split; [exact (Hempty _ eq_refl [])|].
  destruct (Hok eq_refl eq_refl) as (_ & _ & _ & _ & H & _). exact H.
Defined.

(** [customer1] with a wrong password and with the right one. *)
Lemma login_cases_witness :
  run_with (login example_check POST None
              (mkLoginData "company1customer1@company1.com" "guess"))
           two_bids [] =
    (Ok (Render "auth/login.html", None), two_bids,
     [("Incorrect password.", "message")]) /\
  run_with (login example_check POST None
              (mkLoginData "nobody@company1.com" "x")) two_bids [] =
    (Ok (Render "auth/login.html", None), two_bids,
     [("Incorrect email.", "message")]).
Proof.
  destruct (login_cases example_check None
              (mkLoginData "company1customer1@company1.com" "guess")
              two_bids []) as (_ & Hbad & _).
  destruct (login_cases example_check None
              (mkLoginData "nobody@company1.com" "x") two_bids [])
    as (Hnone & _).
  split; [exact (Hbad customer1 eq_refl eq_refl)|exact (Hnone eq_refl)].
Defined.

(** [example_registration] registers a Supplier, who then cannot accept a
    bid. *)
Lemma register_then_login_witness :
  run_with (login example_check POST None
              (mkLoginData "company5supplier9@company5.com" "secret"))
    (db_after (run (register example_hash POST "s4lt" example_registration)
                 two_bids [])) [] =
    (Ok (Redirect "index" None, Some 8),
     db_after (run (register example_hash POST "s4lt" example_registration)
                 two_bids []), []) /\
  db_after (run (handle (Some 8) POST 20000 0 (OpAcceptBid 1))
              (db_after (run (register example_hash POST "s4lt"
                                example_registration) two_bids [])) []) =
  db_after (run (register example_hash POST "s4lt" example_registration)
              two_bids []).
Proof.
  destruct (register_then_login example_hash example_check
              example_check_generated "s4lt" example_registration two_bids
              None eq_refl eq_refl) as (Hlogin & _ & Hgate).
  split; [exact (Hlogin [])|].
  assert (Hrole : reg_user_type example_registration
                  <> required_role (OpAcceptBid 1)) by discriminate.
  exact (f_equal db_after (Hgate POST 20000 0 (OpAcceptBid 1) [] Hrole)).
Defined.

(** A session whose user id 42 matches no row. *)
Lemma logged_out_requests_raise_witness :
  run (handle (Some 42) POST 20000 0 (OpAcceptBid 1)) two_bids [] =
  mkOutcome (Raise TypeError) two_bids [].
Proof.
  destruct (logged_out_requests_raise (Some 42) POST 20000 0 (OpAcceptBid 1)
              (ret ReturnedNone) two_bids []) as [_ H].
  apply H. right. exists 42. split; reflexivity.
Defined.

(** ** Locations *)

Ltac loc_run_view :=
  cbv beta iota zeta delta
    [Loc.run Loc.read Loc.bind Loc.ret Loc.raise Loc.try_except Loc.query
     Loc.query_by_id
     Loc.execute Loc.commit Loc.rollback Loc.flash Loc.current_user
     Loc.get_location Loc.durable Loc.working Loc.flashed Loc.faults
     fst tl app].

Lemma loc_customer_only_pass ctx f :
  is_customer ctx = true -> Loc.customer_only ctx f = f.
Proof.
  unfold is_customer, Loc.customer_only.
  destruct (g_user ctx) as [u|]; [|discriminate].
  intros ->. reflexivity.
Qed.

Lemma in_select_company_locations company D l :
  In l (Loc.select_company_locations company D) <->
  In l (Loc.location_table D) /\
  exists u, In u (user_table (Loc.tables D))
            /\ User.id u = Location.created_by l
            /\ User.company u = company.
Proof.
  unfold Loc.select_company_locations. rewrite in_map_iff. split.
  - intros [[l0 ou] [Hfst Hin]]. cbn [fst] in Hfst. subst l0.
    apply filter_In in Hin. cbn [snd] in Hin. destruct Hin as [Hj Hc].
    apply sql_eq_company in Hc. destruct Hc as [u [-> Hc]].
    apply in_left_join in Hj. destruct Hj as [Hl [Hu Hon]].
    apply Z.eqb_eq in Hon. split; [exact Hl|]. exists u. auto.
  - intros [Hl [u [Hu [Hid Hc]]]]. exists (l, Some u).
    split; [reflexivity|]. apply filter_In. cbn [snd]. split.
    + apply in_left_join. split; [exact Hl|]. split; [exact Hu|].
      apply Z.eqb_eq. exact Hid.
    + apply sql_eq_company. exists u. auto.
Qed.

(** X22. Only the user who created a location can change or delete it,
    not the company: for a customer who is not the creator,
    [update_location] and [delete_location] raise 403 before any write,
    on GET and POST alike and whatever the storage does; for an id no
    location has they raise 404 when SQLite can bind the id and
    OverflowError when it cannot.  Yet [manage_locations] lists a location
    to every user of its creator's company, so a colleague of the
    creator is shown the location and refused on it. *)
Theorem location_creator_only ctx u id form D plan :
  g_user ctx = Some u ->
  User.user_type u = "Customer" ->
  (select_location id D = None ->
   Loc.run (Loc.update_location ctx id form) D plan =
     Loc.mkOutcome
       (Loc.Raise
          (Loc.Python (if sqlite_int id then NotFound404 else OverflowError)))
       D [] /\
   Loc.run (Loc.delete_location ctx id) D plan =
     Loc.mkOutcome
       (Loc.Raise
          (Loc.Python (if sqlite_int id then NotFound404 else OverflowError)))
       D []) /\
  (forall l, select_location id D = Some l ->
     Location.created_by l <> User.id u ->
     Loc.run (Loc.update_location ctx id form) D plan =
       Loc.mkOutcome (Loc.Raise Loc.Forbidden403) D [] /\
     Loc.run (Loc.delete_location ctx id) D plan =
       Loc.mkOutcome (Loc.Raise Loc.Forbidden403) D [] /\
     ((exists creator, In creator (user_table (Loc.tables D))
                       /\ User.id creator = Location.created_by l
                       /\ User.company creator = User.company u) ->
      Loc.read (Loc.manage_locations_rows ctx) D =
        Loc.Ok (Loc.select_company_locations (User.company u) D) /\
      In l (Loc.select_company_locations (User.company u) D))).
Proof.
  intros Hu Ht.
  assert (Hc : is_customer ctx = true)
    by (unfold is_customer; rewrite Hu, Ht; reflexivity).
  unfold select_location, Loc.update_location, Loc.delete_location.
  rewrite !(loc_customer_only_pass _ _ Hc). split.
  - intros Hnone.
    split; loc_run_view; rewrite Hnone; destruct (sqlite_int id); reflexivity.
  - intros l Hl Hne.
    assert (Hneq : (Location.created_by l =? User.id u) = false)
      by (apply Z.eqb_neq; exact Hne).
    split; [|split].
    + loc_run_view. rewrite Hl, Hu, Hneq. reflexivity.
    + loc_run_view. rewrite Hl, Hu, Hneq. reflexivity.
    + intros [creator [Hin [Hid Hco]]]. split.
      * unfold Loc.manage_locations_rows. loc_run_view. rewrite Hu.
        reflexivity.
      * apply in_select_company_locations. apply find_some in Hl.
        split; [exact (proj1 Hl)|]. exists creator. auto.
Qed.

(** [customer2], a colleague of [customer1], is shown location 1 and
    cannot delete it. *)
Lemma location_creator_only_witness :
  Loc.run (Loc.delete_location (post_by customer2) 1) one_location [] =
    Loc.mkOutcome (Loc.Raise Loc.Forbidden403) one_location [] /\
  Loc.read (Loc.manage_locations_rows (post_by customer2)) one_location =
    Loc.Ok (Loc.location_table one_location).
Proof.
  destruct (location_creator_only (post_by customer2) customer2 1 depot_form
              one_location [] eq_refl eq_refl) as [_ H].
  destruct (H (Location.mk 1 1 0 "Depot A" "1 Road" "Leeds" "UK" "LS1")
              eq_refl) as (_ & Hdel & Hlist); [discriminate|].
  split; [exact Hdel|].
  destruct Hlist as [Hrows _].
  - exists customer1. split; [left; reflexivity|]. split; reflexivity.
  - rewrite Hrows. reflexivity.
Defined.

(** X23. A POST to [create_location] by a customer: no field is checked
    (the view's [error] is None and stays None), so the row is appended
    with the posted fields as they are, an empty name included, under an
    id no location had and with the caller as creator; the other tables
    and the existing locations are untouched, and the new row reads back
    by its id.  The writes are not inside a [try]: when the INSERT or the
    commit fails the view raises, commits nothing and flashes nothing. *)
Theorem create_location_effect ctx u form D :
  g_user ctx = Some u ->
  User.user_type u = "Customer" ->
  method ctx = POST ->
  let new := created_location ctx u form D in
  Loc.run (Loc.create_location ctx form) D [] =
    Loc.mkOutcome (Loc.Ok (Redirect "location_routes.manage_locations" None))
      (Loc.mkDb (Loc.tables D) (Loc.location_table D ++ [new])) [] /\
  ~ In (Location.id new) (map Location.id (Loc.location_table D)) /\
  select_location (Location.id new)
    (Loc.mkDb (Loc.tables D) (Loc.location_table D ++ [new])) = Some new /\
  (forall plan, In true (firstn 2 plan) ->
     Loc.run (Loc.create_location ctx form) D plan =
     Loc.mkOutcome (Loc.Raise (Loc.Python DatabaseError)) D []).
Proof.
  intros Hu Ht Hm new. subst new.
  assert (Hc : is_customer ctx = true)
    by (unfold is_customer; rewrite Hu, Ht; reflexivity).
  unfold Loc.create_location. rewrite (loc_customer_only_pass _ _ Hc), Hm.
  split; [|split; [|split]].
  - loc_run_view. rewrite Hu. reflexivity.
  - apply next_id_fresh.
  - unfold select_location, created_location. cbn [Loc.location_table].
    apply find_app_fresh; [|apply Z.eqb_refl].
    intros l Hin. apply Z.eqb_neq. intros E.
    apply (next_id_fresh (map Location.id (Loc.location_table D))).
    cbn [Location.id] in E. rewrite <- E. apply in_map. exact Hin.
  - intros plan Hfault.
    destruct plan as [|[] [|[] plan]]; cbn [firstn In] in Hfault;
      loc_run_view; rewrite Hu; try reflexivity;
      repeat (destruct Hfault as [Hfault|Hfault]; try discriminate Hfault);
      try destruct Hfault.
Qed.

(** [customer2] posts a location with an empty name. *)
Lemma create_location_effect_witness :
  Loc.location_table
    (Loc.db_after
       (Loc.run (Loc.create_location (post_by customer2)
                   (Loc.mkLocationForm "" "" "" "" "")) one_location [])) =
  Loc.location_table one_location ++ [Location.mk 2 2 0 "" "" "" "" ""].
Proof.
  destruct (create_location_effect (post_by customer2) customer2
              (Loc.mkLocationForm "" "" "" "" "") one_location
              eq_refl eq_refl eq_refl) as (H & _).
  rewrite H. reflexivity.
Defined.

(** X24. [delete_location] called by the customer who created the
    location, the storage working: every location row with the id is
    gone, every other location row and the other three tables are as they
    were (a request keeps the address it was given), and the id no longer
    reads back, so a second call raises 404 (for an id SQLite can bind, as
    the id of a stored row is; OverflowError for any other).  When the
    DELETE or the commit fails, nothing is committed, one error is flashed
    and the caller is redirected all the same. *)
Theorem delete_location_effect ctx u id l D :
  g_user ctx = Some u ->
  User.user_type u = "Customer" ->
  select_location id D = Some l ->
  Location.created_by l = User.id u ->
  let D' := Loc.db_after (Loc.run (Loc.delete_location ctx id) D []) in
  Loc.returned (Loc.run (Loc.delete_location ctx id) D []) =
    Loc.Ok (Redirect "location_routes.manage_locations" None) /\
  Loc.tables D' = Loc.tables D /\
  (forall l', In l' (Loc.location_table D') <->
              In l' (Loc.location_table D) /\ Location.id l' <> id) /\
  select_location id D' = None /\
  (forall plan,
     Loc.run (Loc.delete_location ctx id) D' plan =
     Loc.mkOutcome
       (Loc.Raise
          (Loc.Python (if sqlite_int id then NotFound404 else OverflowError)))
       D' []) /\
  (forall plan, In true (firstn 2 plan) ->
     Loc.run (Loc.delete_location ctx id) D plan =
     Loc.mkOutcome
       (Loc.Ok (Redirect "location_routes.manage_locations" None)) D
       [("An error has occurred while attempting to delete the location: database error",
         "error")]).
Proof.
  intros Hu Ht Hl Hown D'.
  assert (Hc : is_customer ctx = true)
    by (unfold is_customer; rewrite Hu, Ht; reflexivity).
  assert (Hrun : Loc.run (Loc.delete_location ctx id) D [] =
            Loc.mkOutcome
              (Loc.Ok (Redirect "location_routes.manage_locations" None))
              (Loc.delete_location_row id D) []).
  { unfold Loc.delete_location. rewrite (loc_customer_only_pass _ _ Hc).
    unfold select_location in Hl.
    loc_run_view. rewrite Hl, Hu, Hown, Z.eqb_refl. reflexivity. }
  subst D'. rewrite Hrun. cbn [Loc.db_after Loc.returned].
  assert (Hrows : forall l', In l' (Loc.location_table
                                      (Loc.delete_location_row id D)) <->
                             In l' (Loc.location_table D)
                             /\ Location.id l' <> id).
  { intros l'. unfold Loc.delete_location_row.
    cbn [Loc.with_locations Loc.location_table].
    rewrite filter_In, negb_true_iff, Z.eqb_neq. reflexivity. }
  assert (Hgone : select_location id (Loc.delete_location_row id D) = None).
  { unfold select_location.
    destruct (find _ (Loc.location_table (Loc.delete_location_row id D)))
      as [l'|] eqn:Hf; [|reflexivity].
    apply find_some in Hf. destruct Hf as [Hin Hid].
    apply Hrows in Hin. apply Z.eqb_eq in Hid. destruct Hin as [_ Hne].
    contradiction. }
  split; [reflexivity|]. split; [reflexivity|]. split; [exact Hrows|].
  split; [exact Hgone|]. split.
  - intros plan. unfold Loc.delete_location.
    rewrite (loc_customer_only_pass _ _ Hc).
    unfold select_location in Hgone. loc_run_view. rewrite Hgone.
    destruct (sqlite_int id); reflexivity.
  - intros plan Hfault. unfold Loc.delete_location.
    rewrite (loc_customer_only_pass _ _ Hc). unfold select_location in Hl.
    destruct plan as [|[] [|[] plan]]; cbn [firstn In] in Hfault;
      loc_run_view; rewrite Hl, Hu, Hown, Z.eqb_refl; try reflexivity;
      repeat (destruct Hfault as [Hfault|Hfault]; try discriminate Hfault);
      try destruct Hfault.
Qed.

(** [customer1] deletes location 1. *)
Lemma delete_location_effect_witness :
  select_location 1
    (Loc.db_after (Loc.run (Loc.delete_location (post_by customer1) 1)
                     one_location [])) = None.
Proof.
  destruct (delete_location_effect (post_by customer1) customer1 1
              (Location.mk 1 1 0 "Depot A" "1 Road" "Leeds" "UK" "LS1")
              one_location eq_refl eq_refl eq_refl eq_refl)
    as (_ & _ & _ & Hgone & _).
  exact Hgone.
Defined.

Lemma update_location_run ctx u id l form D :
  g_user ctx = Some u ->
  User.user_type u = "Customer" ->
  select_location id D = Some l ->
  Location.created_by l = User.id u ->
  method ctx = POST ->
  Loc.run (Loc.update_location ctx id form) D [] =
  Loc.mkOutcome (Loc.Ok (Redirect "location_routes.manage_locations" None))
    (Loc.update_location_fields form id D) [].
Proof.
  intros Hu Ht Hl Hown Hm.
  assert (Hc : is_customer ctx = true)
    by (unfold is_customer; rewrite Hu, Ht; reflexivity).
  unfold Loc.update_location, select_location in *.
  rewrite (loc_customer_only_pass _ _ Hc), Hm. loc_run_view.
  rewrite Hl, Hu, Hown, Z.eqb_refl. reflexivity.
Qed.

(** X25. [update_location] called by the customer who created the
    location.  A POST, the storage working, rewrites the five posted
    fields of the rows with the id; every location row keeps its id,
    creator and creation date, rows with another id and the other tables
    are untouched.  When the UPDATE or the commit fails nothing is
    committed, one error is flashed and the form is rendered again.  A GET
    renders the form and writes nothing. *)
Theorem update_location_effect ctx u id l form D :
  g_user ctx = Some u ->
  User.user_type u = "Customer" ->
  select_location id D = Some l ->
  Location.created_by l = User.id u ->
  (method ctx = POST ->
   let D' := Loc.db_after (Loc.run (Loc.update_location ctx id form) D []) in
   Loc.returned (Loc.run (Loc.update_location ctx id form) D []) =
     Loc.Ok (Redirect "location_routes.manage_locations" None) /\
   Loc.tables D' = Loc.tables D /\
   select_location id D' = Some (Loc.set_location_fields form l) /\
   (forall l0, In l0 (Loc.location_table D) ->
      exists l', In l' (Loc.location_table D') /\ same_location l0 l') /\
   (forall l0, In l0 (Loc.location_table D) -> Location.id l0 <> id ->
               In l0 (Loc.location_table D')) /\
   (forall plan, In true (firstn 2 plan) ->
      Loc.run (Loc.update_location ctx id form) D plan =
      Loc.mkOutcome
        (Loc.Ok (Render "customer/locations/update_location.html")) D
        [("An error occured while creating the location: database error",
          "error")])) /\
  (method ctx = GET ->
   forall plan,
     Loc.run (Loc.update_location ctx id form) D plan =
     Loc.mkOutcome
       (Loc.Ok (Render "customer/locations/update_location.html")) D []).
Proof.
  intros Hu Ht Hl Hown.
  assert (Hc : is_customer ctx = true)
    by (unfold is_customer; rewrite Hu, Ht; reflexivity).
  pose proof Hl as Hfind. unfold select_location in Hfind.
  split.
  - intros Hm D'. subst D'.
    rewrite (update_location_run _ _ _ _ _ _ Hu Ht Hl Hown Hm).
    cbn [Loc.db_after Loc.returned].
    set (f := fun l0 => if Location.id l0 =? id
                        then Loc.set_location_fields form l0 else l0).
    assert (Hrows : Loc.location_table (Loc.update_location_fields form id D)
                    = map f (Loc.location_table D)) by reflexivity.
    split; [reflexivity|]. split; [reflexivity|]. split; [|split; [|split]].
    + unfold select_location. rewrite Hrows, find_map_same.
      * rewrite Hfind. cbn [option_map]. unfold f.
        apply find_some in Hfind. destruct Hfind as [_ Hid].
        rewrite Hid. reflexivity.
      * intros l0. unfold f.
        destruct (Location.id l0 =? id) eqn:E; [|exact E].
        cbn [Location.id Loc.set_location_fields]. exact E.
    + intros l0 Hin. exists (f l0). rewrite Hrows.
      split; [apply in_map; exact Hin|]. unfold f, same_location.
      destruct (Location.id l0 =? id); repeat split.
    + intros l0 Hin Hne. rewrite Hrows. apply in_map_iff. exists l0.
      split; [|exact Hin]. unfold f. apply Z.eqb_neq in Hne.
      rewrite Hne. reflexivity.
    + intros plan Hfault. unfold Loc.update_location.
      rewrite (loc_customer_only_pass _ _ Hc), Hm.
      destruct plan as [|[] [|[] plan]]; cbn [firstn In] in Hfault;
        loc_run_view; rewrite Hfind, Hu, Hown, Z.eqb_refl; try reflexivity;
        repeat (destruct Hfault as [Hfault|Hfault]; try discriminate Hfault);
        try destruct Hfault.
  - intros Hm plan. unfold Loc.update_location.
    rewrite (loc_customer_only_pass _ _ Hc), Hm. loc_run_view.
    rewrite Hfind, Hu, Hown, Z.eqb_refl. reflexivity.
Qed.

(** [customer1] renames location 1. *)
Lemma update_location_effect_witness :
  select_location 1
    (Loc.db_after
       (Loc.run (Loc.update_location (post_by customer1) 1
                   (Loc.mkLocationForm "Depot Z" "1 Road" "Leeds" "UK" "LS1"))
                one_location [])) =
  Some (Location.mk 1 1 0 "Depot Z" "1 Road" "Leeds" "UK" "LS1").
Proof.
  destruct (update_location_effect (post_by customer1) customer1 1
              (Location.mk 1 1 0 "Depot A" "1 Road" "Leeds" "UK" "LS1")
              (Loc.mkLocationForm "Depot Z" "1 Road" "Leeds" "UK" "LS1")
              one_location eq_refl eq_refl eq_refl eq_refl) as [Hpost _].
  destruct (Hpost eq_refl) as (_ & _ & H & _). exact H.
Defined.

(** X26. The addresses that a [RequestForm] offers in its two menus are
    the full addresses of exactly the locations that [manage_locations]
    lists for the company, and a location that a registered customer
    creates is offered to that customer's company from then on. *)
Theorem request_form_offers_company_locations company D :
  (forall a, In a (Loc.request_form_choices company D) <->
     exists l, In l (Loc.select_company_locations company D)
               /\ a = Loc.full_address l) /\
  (forall ctx u form,
     g_user ctx = Some u -> User.user_type u = "Customer" ->
     method ctx = POST ->
     In u (user_table (Loc.tables D)) -> User.company u = company ->
     In (Loc.full_address (created_location ctx u form D))
        (Loc.request_form_choices company
           (Loc.db_after (Loc.run (Loc.create_location ctx form) D [])))).
Proof.
  assert (Hchoices : forall D0 a,
            In a (Loc.request_form_choices company D0) <->
            exists l, In l (Loc.select_company_locations company D0)
                      /\ a = Loc.full_address l).
  { intros D0 a.
    unfold Loc.request_form_choices, Loc.select_company_locations.
    rewrite in_map_iff. split.
    - intros [row [<- Hin]]. apply in_order_by in Hin.
      exists (fst row). split; [|reflexivity].
      apply in_map. exact Hin.
    - intros [l [Hin ->]]. apply in_map_iff in Hin.
      destruct Hin as [row [<- Hin]]. exists row.
      split; [reflexivity|]. apply in_order_by. exact Hin. }
  split; [apply Hchoices|].
  intros ctx u form Hu Ht Hm Hin Hco.
  assert (Hc : is_customer ctx = true)
    by (unfold is_customer; rewrite Hu, Ht; reflexivity).
  assert (Hrun : Loc.db_after (Loc.run (Loc.create_location ctx form) D []) =
                 Loc.mkDb (Loc.tables D)
                   (Loc.location_table D ++ [created_location ctx u form D])).
  { unfold Loc.create_location. rewrite (loc_customer_only_pass _ _ Hc), Hm.
    loc_run_view. rewrite Hu. reflexivity. }
  rewrite Hrun. apply Hchoices.
  exists (created_location ctx u form D). split; [|reflexivity].
  apply in_select_company_locations. cbn [Loc.location_table Loc.tables].
  split; [apply in_or_app; right; left; reflexivity|].
  exists u. split; [exact Hin|]. split; [reflexivity|exact Hco].
Qed.

(** After [customer2] creates a depot, company1 is offered it. *)
Lemma request_form_offers_company_locations_witness :
  In "Depot B, 2 Road, York, UK, YO1"
     (Loc.request_form_choices "company1"
        (Loc.db_after
           (Loc.run (Loc.create_location (post_by customer2)
                       (Loc.mkLocationForm "Depot B" "2 Road" "York" "UK"
                                           "YO1")) one_location []))).
Proof.
  destruct (request_form_offers_company_locations "company1" one_location)
    as [_ H].
  apply (H (post_by customer2) customer2
           (Loc.mkLocationForm "Depot B" "2 Road" "York" "UK" "YO1")
           eq_refl eq_refl eq_refl); [right; left; reflexivity|reflexivity].
Defined.
